(** * Avatar rendering layer: skeletal pose evaluation, asset cache,
    GPU loaders, material binder, render traversal and frame update.

    Shallow embedding of [MinimalVR-ASM2/Minimal/Avatar.cpp] and of the second
    copy of the same layer inside the unnamed application file (part_000).

    Conventions of the model.
    - [float] scalars are real numbers ([R]) in the model of the layer: it
      computes in exact arithmetic. Rounding, overflow and NaN are the matter
      of [Binary32], where the arithmetic functions are evaluated in IEEE 754
      binary32.
    - 32-bit integers whose arithmetic can wrap are [Z] with the wrap-around
      written out ([wrap32], [to_int32]); loop counters and array indices are
      [nat].
    - C++ arrays are lists read with [!!] and written with [<[_:=_]>]; a read
      or write outside the array, a read of an indeterminate cell and a
      dereference of a null pointer are faults ([res], [M]).
    - [std::map<ovrAvatarAssetID, void*>] is a [gmap Z ptr].
    - OpenGL and avatar-SDK calls are recorded, in program order, in logs. *)

From Stdlib Require Import ZArith Reals Lra Lia RNsatz SpecFloat.
From stdpp Require Import base option list gmap strings.

(** ** Faults and the two monads *)

Inductive fault : Type :=
| NullDereference
| OutOfBounds
| IndeterminateRead
| TypeConfusion.

Inductive res (A : Type) : Type :=
| Ok (a : A)
| Fault (f : fault).
Arguments Ok {A} a.
Arguments Fault {A} f.

#[global] Instance res_ret : MRet res := fun A a => Ok a.
#[global] Instance res_bind : MBind res := fun A B k r =>
  match r with
  | Ok a => k a
  | Fault f => Fault f
  end.

(** [a[i]] as an rvalue. *)
Definition index {A : Type} (a : list A) (i : nat) : res A :=
  match a !! i with
  | Some v => Ok v
  | None => Fault OutOfBounds
  end.

(** [for (uint32_t i = start; i < start + count; ++i) body], threading the
    data the body updates. *)
Fixpoint for_loop {L : Type} (body : nat -> L -> res L)
    (start count : nat) (locals : L) : res L :=
  match count with
  | O => Ok locals
  | S count' => locals' ← body start locals; for_loop body (S start) count' locals'
  end.

(** ** Scalars, vectors, matrices (glm) *)

Record vec3 : Type := Vec3 { v3x : R; v3y : R; v3z : R }.
Record vec4 : Type := Vec4 { v4x : R; v4y : R; v4z : R; v4w : R }.
(** [glm::quat(w, x, y, z)]. *)
Record quat : Type := Quat { qw : R; qx : R; qy : R; qz : R }.
(** [glm::mat4] is column-major: [m[c]] is column [c]. *)
Record mat4 : Type := Mat4 { col0 : vec4; col1 : vec4; col2 : vec4; col3 : vec4 }.

Definition vec4_add (a b : vec4) : vec4 :=
  Vec4 (v4x a + v4x b) (v4y a + v4y b) (v4z a + v4z b) (v4w a + v4w b).

Definition vec4_scale (a : vec4) (s : R) : vec4 :=
  Vec4 (v4x a * s) (v4y a * s) (v4z a * s) (v4w a * s).

(** [m * v]: the combination of the columns of [m] by the entries of [v]. *)
Definition mat4_mul_vec (m : mat4) (v : vec4) : vec4 :=
  vec4_add (vec4_add (vec4_add (vec4_scale (col0 m) (v4x v))
                               (vec4_scale (col1 m) (v4y v)))
                     (vec4_scale (col2 m) (v4z v)))
           (vec4_scale (col3 m) (v4w v)).

(** [m1 * m2] of [glm::mat4]. *)
Definition mat4_mul (m1 m2 : mat4) : mat4 :=
  Mat4 (mat4_mul_vec m1 (col0 m2)) (mat4_mul_vec m1 (col1 m2))
       (mat4_mul_vec m1 (col2 m2)) (mat4_mul_vec m1 (col3 m2)).

(** [glm::mat4(1.0f)]. *)
Definition mat4_identity : mat4 :=
  Mat4 (Vec4 1 0 0 0) (Vec4 0 1 0 0) (Vec4 0 0 1 0) (Vec4 0 0 0 1).

(** Modelled from the spec: glm is not under src/. [glm::translate(v)] is the
    translation matrix of section 4.1: the identity with last column [v]. *)
Definition glm_translate (v : vec3) : mat4 :=
  Mat4 (Vec4 1 0 0 0) (Vec4 0 1 0 0) (Vec4 0 0 1 0)
       (Vec4 (v3x v) (v3y v) (v3z v) 1).

(** Modelled from the spec: glm is not under src/. [glm::mat4_cast(q)] is the
    rotation matrix of the quaternion [q] (section 4.1). *)
Definition glm_mat4_cast (q : quat) : mat4 :=
  let '(Quat w x y z) := q in
  Mat4 (Vec4 (1 - 2 * (y * y + z * z)) (2 * (x * y + w * z)) (2 * (x * z - w * y)) 0)
       (Vec4 (2 * (x * y - w * z)) (1 - 2 * (x * x + z * z)) (2 * (y * z + w * x)) 0)
       (Vec4 (2 * (x * z + w * y)) (2 * (y * z - w * x)) (1 - 2 * (x * x + y * y)) 0)
       (Vec4 0 0 0 1).

(** Modelled from the spec: glm is not under src/. [glm::scale(v)] is the
    non-uniform scale matrix of section 4.1. *)
Definition glm_scale (v : vec3) : mat4 :=
  Mat4 (Vec4 (v3x v) 0 0 0) (Vec4 0 (v3y v) 0 0) (Vec4 0 0 (v3z v) 0) (Vec4 0 0 0 1).

(** ** Avatar SDK data (OVR_Avatar.h), as far as the layer reads it *)

Record ovrAvatarVector3f : Type :=
  OvrVector3f { vector3_x : R; vector3_y : R; vector3_z : R }.
Record ovrAvatarVector4f : Type :=
  OvrVector4f { vector4_x : R; vector4_y : R; vector4_z : R; vector4_w : R }.
Record ovrAvatarQuatf : Type :=
  OvrQuatf { quat_x : R; quat_y : R; quat_z : R; quat_w : R }.

Record ovrAvatarTransform : Type := OvrTransform {
  position : ovrAvatarVector3f;
  orientation : ovrAvatarQuatf;
  scale : ovrAvatarVector3f
}.

Record ovrAvatarSkinnedMeshPose : Type := OvrSkinnedMeshPose {
  jointCount : nat;
  jointTransform : list ovrAvatarTransform;
  jointParents : list Z
}.

(** ** Math helpers and type conversions *)

Definition _glmFromOvrAvatarTransform (transform : ovrAvatarTransform) : mat4 :=
  let position := Vec3 (vector3_x (position transform)) (vector3_y (position transform))
                       (vector3_z (position transform)) in
  let orientation := Quat (quat_w (orientation transform)) (quat_x (orientation transform))
                          (quat_y (orientation transform)) (quat_z (orientation transform)) in
  let scale := Vec3 (vector3_x (scale transform)) (vector3_y (scale transform))
                    (vector3_z (scale transform)) in
  mat4_mul (mat4_mul (glm_translate position) (glm_mat4_cast orientation)) (glm_scale scale).

(** A cell of a [glm::mat4] buffer: [None] while its value is indeterminate
    ([alloca], no initialiser). *)
Abbreviation cell := (option mat4).

(** [worldPose[i]] as an rvalue. *)
Definition load (worldPose : list cell) (i : nat) : res mat4 :=
  match worldPose !! i with
  | Some (Some m) => Ok m
  | Some None => Fault IndeterminateRead
  | None => Fault OutOfBounds
  end.

(** [worldPose[i] = m]. *)
Definition store (worldPose : list cell) (i : nat) (m : mat4) : res (list cell) :=
  if decide (i < length worldPose) then Ok (<[i := Some m]> worldPose)
  else Fault OutOfBounds.

Definition _computeWorldPose_body (localPose : ovrAvatarSkinnedMeshPose)
    (i : nat) (worldPose : list cell) : res (list cell) :=
  transform ← index (jointTransform localPose) i;
  let local := _glmFromOvrAvatarTransform transform in
  parentIndex ← index (jointParents localPose) i;
  if (parentIndex <? 0)%Z then store worldPose i local
  else
    parent ← load worldPose (Z.to_nat parentIndex);
    store worldPose i (mat4_mul parent local).

Definition _computeWorldPose (localPose : ovrAvatarSkinnedMeshPose)
    (worldPose : list cell) : res (list cell) :=
  for_loop (_computeWorldPose_body localPose) 0 (jointCount localPose) worldPose.

(** In exact arithmetic; what the [float] computation returns is
    [Binary32._computeReflectionMatrix]. *)
Definition _computeReflectionMatrix (plane : vec4) : mat4 :=
  let '(Vec4 x y z w) := plane in
  Mat4 (Vec4 (1 - 2 * x * x) (- 2 * x * y) (- 2 * x * z) (- 2 * w * x))
       (Vec4 (- 2 * y * x) (1 - 2 * y * y) (- 2 * y * z) (- 2 * w * y))
       (Vec4 (- 2 * z * x) (- 2 * z * y) (1 - 2 * z * z) (- 2 * w * z))
       (Vec4 0 0 0 1).

(** ** 32-bit integers *)

(** Reduction of a value to [uint32_t]. *)
Definition wrap32 (z : Z) : Z := (z mod 2 ^ 32)%Z.

(** Conversion of a [uint32_t] to [int] ([GLsizei], [GLint]). *)
Definition to_int32 (z : Z) : Z :=
  (if wrap32 z <? 2 ^ 31 then wrap32 z else wrap32 z - 2 ^ 32)%Z.

(** ** What the headers outside src/ fix *)

(** Two array bounds and one flag of OVR_Avatar.h, and the value of a
    default-constructed [glm::mat4]; none of them is under src/. *)
Class Headers : Type := {
  OVR_AVATAR_MAXIMUM_JOINT_COUNT : nat;
  OVR_AVATAR_MAX_MATERIAL_LAYER_COUNT : nat;
  ovrAvatarVisibilityFlag_SelfOccluding : Z;
  glm_mat4_ctor : mat4
}.

(** ** OpenGL calls *)

Inductive GLenum : Type :=
| GL_ARRAY_BUFFER | GL_ELEMENT_ARRAY_BUFFER | GL_STATIC_DRAW | GL_DYNAMIC_DRAW
| GL_FLOAT | GL_BYTE | GL_UNSIGNED_BYTE | GL_UNSIGNED_SHORT
| GL_TEXTURE_2D | GL_RGB | GL_BGR
| GL_COMPRESSED_RGBA_S3TC_DXT1_EXT | GL_COMPRESSED_RGBA_S3TC_DXT5_EXT
| GL_TEXTURE_MIN_FILTER | GL_TEXTURE_MAG_FILTER | GL_LINEAR
| GL_TEXTURE_WRAP_S | GL_TEXTURE_WRAP_T | GL_REPEAT
| GL_LESS | GL_LEQUAL | GL_EQUAL | GL_ALWAYS
| GL_TRIANGLES | GL_LINE_STRIP | GL_LINES.

(** A uniform of a program, as [glGetUniformLocation(program, name)] names it. *)
Record uniform : Type := Uniform { u_program : Z; u_name : string }.

(** What a buffer upload reads from: memory of the avatar SDK, or the two
    vertices [_renderDebugLine] builds on its stack. *)
Inductive upload_source : Type :=
| HostPointer (address : Z)
| DebugVertices (a b : vec3) (aColor bColor : vec4).

(** One constructor per OpenGL entry point the layer calls, with the arguments
    of the call; a pointer argument is recorded as the data it points to.
    Sizes and offsets that depend on the layout of a struct are recorded as
    the C expression the source passes. [glActiveTexture] records the unit
    added to [GL_TEXTURE0]; the upload calls record the offset added to
    [data->textureData]. *)
Inductive gl_call : Type :=
| glGenVertexArrays (name : Z)
| glGenBuffers (name : Z)
| glGenTextures (name : Z)
| glBindVertexArray (array : Z)
| glBindBuffer (target : GLenum) (buffer : Z)
| glBufferData (target : GLenum) (count : Z) (sizeof : string) (data : upload_source)
    (usage : GLenum)
| glVertexAttribPointer (index : Z) (size : Z) (type : GLenum) (stride pointer : string)
| glEnableVertexAttribArray (index : Z)
| glBindTexture (target : GLenum) (texture : Z)
| glTexImage2D (level : Z) (internalformat : GLenum) (width height : Z)
    (format type : GLenum) (offset : Z)
| glCompressedTexImage2D (level : Z) (internalformat : GLenum) (width height : Z)
    (imageSize : Z) (offset : Z)
| glTexParameteri (target pname param : GLenum)
| glActiveTexture (textureUnit : Z)
| glUniform1i (location : uniform) (v : Z)
| glUniform1f (location : uniform) (v : R)
| glUniform1iv (location : uniform) (count : nat) (value : list Z)
| glUniform3fv (location : uniform) (value : vec3)
| glUniform4fv (location : uniform) (count : nat) (value : list ovrAvatarVector4f)
| glUniformMatrix4fv (location : uniform) (count : nat) (value : list mat4)
| glUseProgram (program : Z)
| glDepthFunc (func : GLenum)
| glDepthMask (flag : bool)
| glColorMaski (buf : Z) (r g b a : bool)
| glDrawElements (mode : GLenum) (count : Z) (type : GLenum)
| glDrawArrays (mode : GLenum) (first count : Z)
| glLineWidth (width : R).

(** ** Wrappers for GL representations of avatar assets *)

Record MeshData : Type := mkMeshData {
  vertexArray : Z;
  vertexBuffer : Z;
  elementBuffer : Z;
  elementCount : Z;
  bindPose : list cell;
  inverseBindPose : list cell
}.

Record TextureData : Type := mkTextureData { textureID : Z }.

(** A [void*] of the asset map: null, or the object a loader allocated. *)
Inductive ptr : Type :=
| nullptr
| MeshPtr (mesh : MeshData)
| TexturePtr (texture : TextureData).

(** ** Static state *)

Record ovrAvatarHandInputState : Type := OvrHandInputState {
  hand_transform : ovrAvatarTransform;
  buttonMask : Z;
  touchMask : Z;
  joystickX : R;
  joystickY : R;
  indexTrigger : R;
  handTrigger : R;
  isActive : bool
}.

(** The calls into the avatar SDK that change the avatar's pose. *)
Inductive sdk_call : Type :=
| ovrAvatarPose_Finalize (avatar : Z) (deltaSeconds : R)
| ovrAvatar_UpdatePoseFromPacket (avatar : Z) (packet : Z) (secondsFromPacketStart : R)
| ovrAvatarPose_UpdateVoiceVisualization (avatar : Z) (sampleCount : Z) (samples : list R)
| ovrAvatarPose_UpdateBody (avatar : Z) (headPose : ovrAvatarTransform)
| ovrAvatarPose_UpdateHands (avatar : Z)
    (inputStateLeft inputStateRight : ovrAvatarHandInputState).

Record state : Type := mkState {
  _skinnedMeshProgram : Z;
  _skinnedMeshPBSProgram : Z;
  _debugLineProgram : Z;
  _debugVertexArray : Z;
  _avatar : Z;
  _loadingAssets : Z;
  _elapsedSeconds : R;
  _assetMap : gmap Z ptr;
  gl_log : list gl_call;       (* the OpenGL calls made so far, oldest first *)
  gl_names : Z;                (* the last object name OpenGL handed out *)
  sdk_log : list sdk_call;     (* the pose calls made so far, oldest first *)
  laserColorLeft : vec4;       (* part_000 only *)
  laserColorRight : vec4       (* part_000 only *)
}.

Definition set_assetMap (m : gmap Z ptr) (s : state) : state :=
  mkState (_skinnedMeshProgram s) (_skinnedMeshPBSProgram s) (_debugLineProgram s)
          (_debugVertexArray s) (_avatar s) (_loadingAssets s) (_elapsedSeconds s)
          m (gl_log s) (gl_names s) (sdk_log s) (laserColorLeft s) (laserColorRight s).


Definition set_gl (log : list gl_call) (names : Z) (s : state) : state :=
  mkState (_skinnedMeshProgram s) (_skinnedMeshPBSProgram s) (_debugLineProgram s)
          (_debugVertexArray s) (_avatar s) (_loadingAssets s) (_elapsedSeconds s)
          (_assetMap s) log names (sdk_log s) (laserColorLeft s) (laserColorRight s).

Definition set_sdk (log : list sdk_call) (s : state) : state :=
  mkState (_skinnedMeshProgram s) (_skinnedMeshPBSProgram s) (_debugLineProgram s)
          (_debugVertexArray s) (_avatar s) (_loadingAssets s) (_elapsedSeconds s)
          (_assetMap s) (gl_log s) (gl_names s) log (laserColorLeft s) (laserColorRight s).

(** Computations over the static state that may fault; the state at the
    fault is kept. *)
Definition M (A : Type) : Type := state -> res A * state.

#[global] Instance M_ret : MRet M := fun A a s => (Ok a, s).
#[global] Instance M_bind : MBind M := fun A B k m s =>
  match m s with
  | (Ok a, s') => k a s'
  | (Fault f, s') => (Fault f, s')
  end.

Definition lift {A : Type} (r : res A) : M A := fun s => (r, s).

Definition get {A : Type} (field : state -> A) : M A := fun s => (Ok (field s), s).

(** A call into the avatar SDK that changes the pose. *)
Definition sdk (c : sdk_call) : M unit :=
  fun s => (Ok tt, set_sdk (sdk_log s ++ [c]) s).


(** An OpenGL call without a result. *)
Definition gl (c : gl_call) : M unit :=
  fun s => (Ok tt, set_gl (gl_log s ++ [c]) (gl_names s) s).

(** [glGen*(1, &name)]: OpenGL hands out the next unused name. *)
Definition glGen (c : Z -> gl_call) : M Z :=
  fun s => let name := (gl_names s + 1)%Z in
           (Ok name, set_gl (gl_log s ++ [c name]) name s).

(** [_assetMap[id]] of [std::map]: an absent key is inserted with a
    value-initialised (null) pointer before the reference is returned. *)
Definition assetMap_subscript (id : Z) : M ptr :=
  fun s =>
    match _assetMap s !! id with
    | Some p => (Ok p, s)
    | None => (Ok nullptr, set_assetMap (<[id := nullptr]> (_assetMap s)) s)
    end.


(** [for (uint32_t i = start; i < start + count; ++i) body] over the static
    state, threading the locals the body updates. *)
Fixpoint for_loopM {L : Type} (body : nat -> L -> M L)
    (start count : nat) (locals : L) : M L :=
  match count with
  | O => mret locals
  | S count' =>
      locals' ← body start locals;
      for_loopM body (S start) count' locals'
  end.

(** [((MeshData* )data)->...]: the dereference of a pointer of the map. *)
Definition deref_MeshData (data : ptr) : res MeshData :=
  match data with
  | MeshPtr mesh => Ok mesh
  | nullptr => Fault NullDereference
  | TexturePtr _ => Fault TypeConfusion
  end.

Definition deref_TextureData (data : ptr) : res TextureData :=
  match data with
  | TexturePtr texture => Ok texture
  | nullptr => Fault NullDereference
  | MeshPtr _ => Fault TypeConfusion
  end.

(** ** [glm::inverse] *)

(** Entry of [m] in row [r] and column [c]. *)
Definition vec4_get (v : vec4) (r : nat) : R :=
  match r with
  | 0 => v4x v
  | 1 => v4y v
  | 2 => v4z v
  | _ => v4w v
  end.

Definition mat4_col (m : mat4) (c : nat) : vec4 :=
  match c with
  | 0 => col0 m
  | 1 => col1 m
  | 2 => col2 m
  | _ => col3 m
  end.

Definition entry (m : mat4) (r c : nat) : R := vec4_get (mat4_col m c) r.

Definition mat4_of (f : nat -> nat -> R) : mat4 :=
  Mat4 (Vec4 (f 0 0) (f 1 0) (f 2 0) (f 3 0)) (Vec4 (f 0 1) (f 1 1) (f 2 1) (f 3 1))
       (Vec4 (f 0 2) (f 1 2) (f 2 2) (f 3 2)) (Vec4 (f 0 3) (f 1 3) (f 2 3) (f 3 3)).

(** The [i]-th index that is not [k]. *)
Definition skip (k i : nat) : nat := if i <? k then i else S i.

(** Determinant of [m] without row [r] and column [c]. *)
Definition minor (m : mat4) (r c : nat) : R :=
  let a := fun i j => entry m (skip r i) (skip c j) in
  let '(a00, a01, a02) := (a 0 0, a 0 1, a 0 2) in
  let '(a10, a11, a12) := (a 1 0, a 1 1, a 1 2) in
  let '(a20, a21, a22) := (a 2 0, a 2 1, a 2 2) in
  (a00 * (a11 * a22 - a12 * a21)
   - a01 * (a10 * a22 - a12 * a20)
   + a02 * (a10 * a21 - a11 * a20))%R.

Definition cofactor (m : mat4) (r c : nat) : R :=
  ((if Nat.even (r + c) then 1 else -1) * minor m r c)%R.

Definition determinant (m : mat4) : R :=
  let term := fun c => (entry m 0 c * cofactor m 0 c)%R in
  (term 0%nat + term 1%nat + term 2%nat + term 3%nat)%R.

(** Modelled from the spec: glm is not under src/. [glm::inverse(m)] is the
    inverse matrix of sections 3 and 4.4, computed as glm does: the transposed
    cofactors times one over the determinant. Here the arithmetic is exact:
    the result is the inverse of [m] where the determinant is nonzero. What
    the [float] computation returns, at a zero determinant too, is
    [Binary32.glm_inverse]. *)
Definition glm_inverse (m : mat4) : mat4 :=
  let OneOverDeterminant := (1 / determinant m)%R in
  mat4_of (fun r c => (cofactor m c r * OneOverDeterminant)%R).

(** ** Avatar SDK data: assets, materials, render parts *)

Record ovrAvatarMeshAssetData : Type := OvrMeshAssetData {
  vertexCount : Z;
  mesh_vertexBuffer : Z;          (* address of the vertices *)
  indexCount : Z;
  indexBuffer : Z;                (* address of the indices *)
  skinnedBindPose : ovrAvatarSkinnedMeshPose
}.

Inductive ovrAvatarTextureFormat : Type :=
| ovrAvatarTextureFormat_RGB24
| ovrAvatarTextureFormat_DXT1
| ovrAvatarTextureFormat_DXT5
| ovrAvatarTextureFormat_Count.

Record ovrAvatarTextureAssetData : Type := OvrTextureAssetData {
  format : ovrAvatarTextureFormat;
  sizeX : Z;
  sizeY : Z;
  mipCount : nat
}.



Record ovrAvatarMaterialLayerState : Type := OvrMaterialLayerState {
  blendMode : Z;
  sampleMode : Z;
  maskType : Z;
  layerColor : ovrAvatarVector4f;
  sampleParameters : ovrAvatarVector4f;
  sampleTexture : Z;
  sampleScaleOffset : ovrAvatarVector4f;
  maskParameters : ovrAvatarVector4f;
  maskAxis : ovrAvatarVector4f
}.

Record ovrAvatarMaterialState : Type := OvrMaterialState {
  baseColor : ovrAvatarVector4f;
  baseMaskType : Z;
  baseMaskParameters : ovrAvatarVector4f;
  baseMaskAxis : ovrAvatarVector4f;
  alphaMaskTextureID : Z;
  alphaMaskScaleOffset : ovrAvatarVector4f;
  normalMapTextureID : Z;
  normalMapScaleOffset : ovrAvatarVector4f;
  parallaxMapTextureID : Z;
  parallaxMapScaleOffset : ovrAvatarVector4f;
  roughnessMapTextureID : Z;
  roughnessMapScaleOffset : ovrAvatarVector4f;
  layerCount : nat;
  layers : list ovrAvatarMaterialLayerState
}.

Record ovrAvatarRenderPart_SkinnedMeshRender : Type := OvrSkinnedMeshRender {
  localTransform : ovrAvatarTransform;
  visibilityMask : Z;
  meshAssetID : Z;
  materialState : ovrAvatarMaterialState;
  skinnedPose : ovrAvatarSkinnedMeshPose
}.

Record ovrAvatarRenderPart_SkinnedMeshRenderPBS : Type := OvrSkinnedMeshRenderPBS {
  pbs_localTransform : ovrAvatarTransform;
  pbs_visibilityMask : Z;
  pbs_meshAssetID : Z;
  albedoTextureAssetID : Z;
  surfaceTextureAssetID : Z;
  pbs_skinnedPose : ovrAvatarSkinnedMeshPose
}.

Record ovrAvatarRenderPart_ProjectorRender : Type := OvrProjectorRender {
  projector_localTransform : ovrAvatarTransform;
  componentIndex : nat;
  renderPartIndex : nat;
  projector_materialState : ovrAvatarMaterialState
}.

(** The closed tagged union of render parts. *)
Inductive ovrAvatarRenderPart : Type :=
| RenderPart_SkinnedMeshRender (mesh : ovrAvatarRenderPart_SkinnedMeshRender)
| RenderPart_SkinnedMeshRenderPBS (mesh : ovrAvatarRenderPart_SkinnedMeshRenderPBS)
| RenderPart_ProjectorRender (projector : ovrAvatarRenderPart_ProjectorRender).

Inductive ovrAvatarRenderPartType : Type :=
| ovrAvatarRenderPartType_SkinnedMeshRender
| ovrAvatarRenderPartType_SkinnedMeshRenderPBS
| ovrAvatarRenderPartType_ProjectorRender.

Definition ovrAvatarRenderPart_GetType (renderPart : ovrAvatarRenderPart)
    : ovrAvatarRenderPartType :=
  match renderPart with
  | RenderPart_SkinnedMeshRender _ => ovrAvatarRenderPartType_SkinnedMeshRender
  | RenderPart_SkinnedMeshRenderPBS _ => ovrAvatarRenderPartType_SkinnedMeshRenderPBS
  | RenderPart_ProjectorRender _ => ovrAvatarRenderPartType_ProjectorRender
  end.

(** The three accessors return a null pointer on a part of another type. *)
Definition ovrAvatarRenderPart_GetSkinnedMeshRender (renderPart : ovrAvatarRenderPart)
    : option ovrAvatarRenderPart_SkinnedMeshRender :=
  match renderPart with
  | RenderPart_SkinnedMeshRender mesh => Some mesh
  | _ => None
  end.

Definition ovrAvatarRenderPart_GetSkinnedMeshRenderPBS (renderPart : ovrAvatarRenderPart)
    : option ovrAvatarRenderPart_SkinnedMeshRenderPBS :=
  match renderPart with
  | RenderPart_SkinnedMeshRenderPBS mesh => Some mesh
  | _ => None
  end.

Definition ovrAvatarRenderPart_GetProjectorRender (renderPart : ovrAvatarRenderPart)
    : option ovrAvatarRenderPart_ProjectorRender :=
  match renderPart with
  | RenderPart_ProjectorRender projector => Some projector
  | _ => None
  end.

(** [renderPartCount] is the length of [renderParts]. *)
Record ovrAvatarComponent : Type := OvrComponent {
  transform : ovrAvatarTransform;
  renderParts : list ovrAvatarRenderPart
}.

Definition renderPartCount (component : ovrAvatarComponent) : nat :=
  length (renderParts component).

(** What the traversal reads of an [ovrAvatar]: its components. *)
Record ovrAvatar : Type := OvrAvatar {
  avatar_address : Z;
  components : list ovrAvatarComponent
}.

Definition ovrAvatarComponent_Count (avatar : ovrAvatar) : nat :=
  length (components avatar).

(** A null pointer past the last component. *)
Definition ovrAvatarComponent_Get (avatar : ovrAvatar) (i : nat)
    : option ovrAvatarComponent :=
  components avatar !! i.

(** [p->...] on a pointer the SDK returned. *)
Definition deref {A : Type} (p : option A) : res A :=
  match p with
  | Some a => Ok a
  | None => Fault NullDereference
  end.

(** The first [count] elements an OpenGL call reads from an array. *)
Definition read_array {A : Type} (a : list A) (count : nat) : res (list A) :=
  if decide (count <= length a) then Ok (take count a) else Fault OutOfBounds.

(** The first [count] matrices an OpenGL call reads from a buffer. *)
Definition read_cells (a : list cell) (count : nat) : res (list mat4) :=
  for_loop (fun i acc => m ← load a i; Ok (acc ++ [m])) 0 count [].

(** [a[i] = v]. *)
Definition assign {A : Type} (a : list A) (i : nat) (v : A) : res (list A) :=
  if decide (i < length a) then Ok (<[i := v]> a) else Fault OutOfBounds.

Section Shared.
Context {headers : Headers}.

(** [new MeshData()]: value-initialised. *)
Definition new_MeshData : MeshData :=
  mkMeshData 0 0 0 0
    (replicate OVR_AVATAR_MAXIMUM_JOINT_COUNT (Some glm_mat4_ctor))
    (replicate OVR_AVATAR_MAXIMUM_JOINT_COUNT (Some glm_mat4_ctor)).

Definition _loadMesh (data : ovrAvatarMeshAssetData) : M MeshData :=
  let mesh := new_MeshData in
  (* Create the vertex array and buffer *)
  vertexArray ← glGen glGenVertexArrays;
  vertexBuffer ← glGen glGenBuffers;
  elementBuffer ← glGen glGenBuffers;
  (* Bind the vertex buffer and assign the vertex data *)
  gl (glBindVertexArray vertexArray);;
  gl (glBindBuffer GL_ARRAY_BUFFER vertexBuffer);;
  gl (glBufferData GL_ARRAY_BUFFER (vertexCount data) "sizeof(ovrAvatarMeshVertex)"
        (HostPointer (mesh_vertexBuffer data)) GL_STATIC_DRAW);;
  (* Bind the index buffer and assign the index data *)
  gl (glBindBuffer GL_ELEMENT_ARRAY_BUFFER elementBuffer);;
  gl (glBufferData GL_ELEMENT_ARRAY_BUFFER (indexCount data) "sizeof(GLushort)"
        (HostPointer (indexBuffer data)) GL_STATIC_DRAW);;
  let elementCount := indexCount data in
  (* Fill in the array attributes *)
  gl (glVertexAttribPointer 0 3 GL_FLOAT "sizeof(ovrAvatarMeshVertex)" "&((ovrAvatarMeshVertex*)0)->x");;
  gl (glEnableVertexAttribArray 0);;
  gl (glVertexAttribPointer 1 3 GL_FLOAT "sizeof(ovrAvatarMeshVertex)" "&((ovrAvatarMeshVertex*)0)->nx");;
  gl (glEnableVertexAttribArray 1);;
  gl (glVertexAttribPointer 2 4 GL_FLOAT "sizeof(ovrAvatarMeshVertex)" "&((ovrAvatarMeshVertex*)0)->tx");;
  gl (glEnableVertexAttribArray 2);;
  gl (glVertexAttribPointer 3 2 GL_FLOAT "sizeof(ovrAvatarMeshVertex)" "&((ovrAvatarMeshVertex*)0)->u");;
  gl (glEnableVertexAttribArray 3);;
  gl (glVertexAttribPointer 4 4 GL_BYTE "sizeof(ovrAvatarMeshVertex)" "&((ovrAvatarMeshVertex*)0)->blendIndices");;
  gl (glEnableVertexAttribArray 4);;
  gl (glVertexAttribPointer 5 4 GL_FLOAT "sizeof(ovrAvatarMeshVertex)" "&((ovrAvatarMeshVertex*)0)->blendWeights");;
  gl (glEnableVertexAttribArray 5);;
  (* Clean up *)
  gl (glBindVertexArray 0);;
  (* Translate the bind pose *)
  bindPose ← lift (_computeWorldPose (skinnedBindPose data) (bindPose mesh));
  inverseBindPose ← lift (for_loop
    (fun i inverseBindPose =>
       bind_i ← load bindPose i;
       store inverseBindPose i (glm_inverse bind_i))
    0 (jointCount (skinnedBindPose data)) (inverseBindPose mesh));
  mret (mkMeshData vertexArray vertexBuffer elementBuffer elementCount
          bindPose inverseBindPose).

(** The locals of the two mip loops of [_loadTexture]. *)
Record mip_locals : Type := MipLocals { mip_offset : Z; mip_width : Z; mip_height : Z }.

Definition _loadTexture_RGB24_body (level : nat) (l : mip_locals) : M mip_locals :=
  let '(MipLocals offset width height) := l in
  gl (glTexImage2D (to_int32 (Z.of_nat level)) GL_RGB (to_int32 width) (to_int32 height)
        GL_BGR GL_UNSIGNED_BYTE offset);;
  mret (MipLocals (wrap32 (offset + width * height * 3)) (width / 2) (height / 2)).

Definition _loadTexture_DXT_body (blockSize : Z) (glFormat : GLenum)
    (level : nat) (l : mip_locals) : M mip_locals :=
  let '(MipLocals offset width height) := l in
  let levelSize :=
    if (width <? 4)%Z || (height <? 4)%Z then blockSize
    else to_int32 (blockSize * (width / 4) * (height / 4)) in
  gl (glCompressedTexImage2D (to_int32 (Z.of_nat level)) glFormat
        (to_int32 width) (to_int32 height) levelSize offset);;
  mret (MipLocals (wrap32 (offset + levelSize)) (width / 2) (height / 2)).

Definition _loadTexture (data : ovrAvatarTextureAssetData) : M TextureData :=
  (* Create a texture *)
  textureID ← glGen glGenTextures;
  gl (glBindTexture GL_TEXTURE_2D textureID);;
  (* Load the image data *)
  match format data with
  | ovrAvatarTextureFormat_RGB24 =>
      (* Handle uncompressed image data *)
      _ ← for_loopM _loadTexture_RGB24_body 0 (mipCount data)
            (MipLocals 0 (sizeX data) (sizeY data));
      mret tt
  | ovrAvatarTextureFormat_DXT1 | ovrAvatarTextureFormat_DXT5 =>
      (* Handle compressed image data *)
      let '(blockSize, glFormat) :=
        match format data with
        | ovrAvatarTextureFormat_DXT1 => (8%Z, GL_COMPRESSED_RGBA_S3TC_DXT1_EXT)
        | _ => (16%Z, GL_COMPRESSED_RGBA_S3TC_DXT5_EXT)
        end in
      _ ← for_loopM (_loadTexture_DXT_body blockSize glFormat) 0 (mipCount data)
            (MipLocals 0 (sizeX data) (sizeY data));
      mret tt
  | ovrAvatarTextureFormat_Count => mret tt
  end;;
  gl (glTexParameteri GL_TEXTURE_2D GL_TEXTURE_MIN_FILTER GL_LINEAR);;
  gl (glTexParameteri GL_TEXTURE_2D GL_TEXTURE_MAG_FILTER GL_LINEAR);;
  gl (glTexParameteri GL_TEXTURE_2D GL_TEXTURE_WRAP_S GL_REPEAT);;
  gl (glTexParameteri GL_TEXTURE_2D GL_TEXTURE_WRAP_T GL_REPEAT);;
  mret (mkTextureData textureID).

(** ** Rendering functions *)

Definition _setTextureSampler (program textureUnit : Z) (uniformName : string)
    (assetID : Z) : M unit :=
  textureID ←
    (if decide (assetID ≠ 0%Z) then
       data ← assetMap_subscript assetID;
       textureData ← lift (deref_TextureData data);
       mret (textureID textureData)
     else mret 0%Z);
  gl (glActiveTexture textureUnit);;
  gl (glBindTexture GL_TEXTURE_2D textureID);;
  gl (glUniform1i (Uniform program uniformName) textureUnit).

Definition _setTextureSamplers_body (textureUnits assetIDs : list Z)
    (i : nat) (_ : unit) : M unit :=
  assetID ← lift (index assetIDs i);
  textureID ←
    (if decide (assetID ≠ 0%Z) then
       data ← assetMap_subscript assetID;
       match data with
       | nullptr => mret 0%Z
       | _ =>
           textureData ← lift (deref_TextureData data);
           mret (textureID textureData)
       end
     else mret 0%Z);
  textureUnit ← lift (index textureUnits i);
  gl (glActiveTexture textureUnit);;
  gl (glBindTexture GL_TEXTURE_2D textureID).

Definition _setTextureSamplers (program : Z) (uniformName : string) (count : nat)
    (textureUnits assetIDs : list Z) : M unit :=
  for_loopM (_setTextureSamplers_body textureUnits assetIDs) 0 count tt;;
  value ← lift (read_array textureUnits count);
  gl (glUniform1iv (Uniform program uniformName) count value).

Definition _setMeshState (program : Z) (localTransform : ovrAvatarTransform)
    (data : ptr) (skinnedPose : ovrAvatarSkinnedMeshPose)
    (world view proj : mat4) (viewPos : vec3) : M unit :=
  (* Compute the final world and viewProjection matrices for this part *)
  let local := _glmFromOvrAvatarTransform localTransform in
  let worldMat := mat4_mul world local in
  let viewProjMat := mat4_mul proj view in
  (* Compute the skinned pose *)
  let skinnedPoses : list cell := replicate (jointCount skinnedPose) None in
  skinnedPoses ← lift (_computeWorldPose skinnedPose skinnedPoses);
  skinnedPoses ← lift (for_loop
    (fun i skinnedPoses =>
       skinned_i ← load skinnedPoses i;
       mesh ← deref_MeshData data;
       inverse_i ← load (inverseBindPose mesh) i;
       store skinnedPoses i (mat4_mul skinned_i inverse_i))
    0 (jointCount skinnedPose) skinnedPoses);
  (* Pass the world view position to the shader for view-dependent rendering *)
  gl (glUniform3fv (Uniform program "viewPos") viewPos);;
  (* Assign the vertex uniforms *)
  gl (glUniformMatrix4fv (Uniform program "world") 1 [worldMat]);;
  gl (glUniformMatrix4fv (Uniform program "viewProj") 1 [viewProjMat]);;
  meshPose ← lift (read_cells skinnedPoses (jointCount skinnedPose));
  gl (glUniformMatrix4fv (Uniform program "meshPose") (jointCount skinnedPose) meshPose).

(** The table [_setMaterialState] fills on its stack. *)
Record LayerUniforms : Type := mkLayerUniforms {
  layerSamplerModes : list Z;
  layerBlendModes : list Z;
  layerMaskTypes : list Z;
  layerColors : list ovrAvatarVector4f;
  layerSurfaces : list Z;
  layerSurfaceIDs : list Z;
  layerSurfaceScaleOffsets : list ovrAvatarVector4f;
  layerSampleParameters : list ovrAvatarVector4f;
  layerMaskParameters : list ovrAvatarVector4f;
  layerMaskAxes : list ovrAvatarVector4f
}.

(** [memset(&layerUniforms, 0, sizeof(layerUniforms))]. *)
Definition memset_LayerUniforms : LayerUniforms :=
  let ints := replicate OVR_AVATAR_MAX_MATERIAL_LAYER_COUNT 0%Z in
  let vectors := replicate OVR_AVATAR_MAX_MATERIAL_LAYER_COUNT (OvrVector4f 0 0 0 0) in
  mkLayerUniforms ints ints ints vectors ints ints vectors vectors vectors vectors.

(** One round of the layer loop; the locals are the table and [textureSlot]. *)
Definition _setMaterialState_body (state : ovrAvatarMaterialState)
    (i : nat) (locals : LayerUniforms * Z) : res (LayerUniforms * Z) :=
  let '(layerUniforms, textureSlot) := locals in
  layerState ← index (layers state) i;
  layerSamplerModes ← assign (layerSamplerModes layerUniforms) i (sampleMode layerState);
  layerBlendModes ← assign (layerBlendModes layerUniforms) i (blendMode layerState);
  layerMaskTypes ← assign (layerMaskTypes layerUniforms) i (maskType layerState);
  layerColors ← assign (layerColors layerUniforms) i (layerColor layerState);
  layerSurfaces ← assign (layerSurfaces layerUniforms) i textureSlot;
  let textureSlot := (textureSlot + 1)%Z in
  layerSurfaceIDs ← assign (layerSurfaceIDs layerUniforms) i (sampleTexture layerState);
  layerSurfaceScaleOffsets ←
    assign (layerSurfaceScaleOffsets layerUniforms) i (sampleScaleOffset layerState);
  layerSampleParameters ←
    assign (layerSampleParameters layerUniforms) i (sampleParameters layerState);
  layerMaskParameters ←
    assign (layerMaskParameters layerUniforms) i (maskParameters layerState);
  layerMaskAxes ← assign (layerMaskAxes layerUniforms) i (maskAxis layerState);
  Ok (mkLayerUniforms layerSamplerModes layerBlendModes layerMaskTypes layerColors
        layerSurfaces layerSurfaceIDs layerSurfaceScaleOffsets layerSampleParameters
        layerMaskParameters layerMaskAxes, textureSlot).

(** The table and [textureSlot] after the layer loop. *)
Definition _setMaterialState_layers (state : ovrAvatarMaterialState) (textureSlot : Z)
    : res (LayerUniforms * Z) :=
  for_loop (_setMaterialState_body state) 0 (layerCount state)
    (memset_LayerUniforms, textureSlot).

Definition _setMaterialState (program : Z) (state : ovrAvatarMaterialState)
    (projectorInv : option mat4) : M unit :=
  let count := OVR_AVATAR_MAX_MATERIAL_LAYER_COUNT in
  (* Assign the fragment uniforms *)
  gl (glUniform1i (Uniform program "useAlpha")
        (Z.b2z (negb (alphaMaskTextureID state =? 0)%Z)));;
  gl (glUniform1i (Uniform program "useNormalMap")
        (Z.b2z (negb (normalMapTextureID state =? 0)%Z)));;
  gl (glUniform1i (Uniform program "useRoughnessMap")
        (Z.b2z (negb (roughnessMapTextureID state =? 0)%Z)));;
  elapsedSeconds ← get _elapsedSeconds;
  gl (glUniform1f (Uniform program "elapsedSeconds") elapsedSeconds);;
  match projectorInv with
  | Some projectorInv =>
      gl (glUniform1i (Uniform program "useProjector") 1);;
      gl (glUniformMatrix4fv (Uniform program "projectorInv") 1 [projectorInv])
  | None => gl (glUniform1i (Uniform program "useProjector") 0)
  end;;
  let textureSlot := 1%Z in
  gl (glUniform4fv (Uniform program "baseColor") 1 [baseColor state]);;
  gl (glUniform1i (Uniform program "baseMaskType") (baseMaskType state));;
  gl (glUniform4fv (Uniform program "baseMaskParameters") 1 [baseMaskParameters state]);;
  gl (glUniform4fv (Uniform program "baseMaskAxis") 1 [baseMaskAxis state]);;
  _setTextureSampler program textureSlot "alphaMask" (alphaMaskTextureID state);;
  let textureSlot := (textureSlot + 1)%Z in
  gl (glUniform4fv (Uniform program "alphaMaskScaleOffset") 1 [alphaMaskScaleOffset state]);;
  _setTextureSampler program textureSlot "normalMap" (normalMapTextureID state);;
  let textureSlot := (textureSlot + 1)%Z in
  gl (glUniform4fv (Uniform program "normalMapScaleOffset") 1 [normalMapScaleOffset state]);;
  _setTextureSampler program textureSlot "parallaxMap" (parallaxMapTextureID state);;
  let textureSlot := (textureSlot + 1)%Z in
  gl (glUniform4fv (Uniform program "parallaxMapScaleOffset") 1
        [parallaxMapScaleOffset state]);;
  _setTextureSampler program textureSlot "roughnessMap" (roughnessMapTextureID state);;
  let textureSlot := (textureSlot + 1)%Z in
  gl (glUniform4fv (Uniform program "roughnessMapScaleOffset") 1
        [roughnessMapScaleOffset state]);;
  '(layerUniforms, _) ← lift (_setMaterialState_layers state textureSlot);
  gl (glUniform1i (Uniform program "layerCount") (to_int32 (Z.of_nat (layerCount state))));;
  gl (glUniform1iv (Uniform program "layerSamplerModes") count
        (layerSamplerModes layerUniforms));;
  gl (glUniform1iv (Uniform program "layerBlendModes") count
        (layerBlendModes layerUniforms));;
  gl (glUniform1iv (Uniform program "layerMaskTypes") count
        (layerMaskTypes layerUniforms));;
  gl (glUniform4fv (Uniform program "layerColors") count (layerColors layerUniforms));;
  _setTextureSamplers program "layerSurfaces" count
    (layerSurfaces layerUniforms) (layerSurfaceIDs layerUniforms);;
  gl (glUniform4fv (Uniform program "layerSurfaceScaleOffsets") count
        (layerSurfaceScaleOffsets layerUniforms));;
  gl (glUniform4fv (Uniform program "layerSampleParameters") count
        (layerSampleParameters layerUniforms));;
  gl (glUniform4fv (Uniform program "layerMaskParameters") count
        (layerMaskParameters layerUniforms));;
  gl (glUniform4fv (Uniform program "layerMaskAxes") count (layerMaskAxes layerUniforms)).

Definition _setPBSState (program albedoTextureID surfaceTextureID : Z) : M unit :=
  let textureSlot := 0%Z in
  _setTextureSampler program textureSlot "albedo" albedoTextureID;;
  let textureSlot := (textureSlot + 1)%Z in
  _setTextureSampler program textureSlot "surface" surfaceTextureID.

Definition _renderProjector (projector : ovrAvatarRenderPart_ProjectorRender)
    (avatar : ovrAvatar) (visibilityMask' : Z) (world view proj : mat4) (viewPos : vec3)
    : M unit :=
  (* Compute the mesh transform *)
  component ← lift (deref (ovrAvatarComponent_Get avatar (componentIndex projector)));
  renderPart ← lift (index (renderParts component) (renderPartIndex projector));
  mesh ← lift (deref (ovrAvatarRenderPart_GetSkinnedMeshRender renderPart));
  (* If this part isn't visible from the viewpoint we're rendering from, do nothing *)
  if (Z.land (visibilityMask mesh) visibilityMask' =? 0)%Z then mret tt
  else
    (* Compute the projection matrix *)
    let projection := _glmFromOvrAvatarTransform (projector_localTransform projector) in
    let worldProjection := mat4_mul world projection in
    let projectionInv := glm_inverse worldProjection in
    (* Compute the mesh transform *)
    let meshWorld := _glmFromOvrAvatarTransform (transform component) in
    (* Get the GL mesh data for this mesh's asset *)
    data ← assetMap_subscript (meshAssetID mesh);
    program ← get _skinnedMeshProgram;
    gl (glUseProgram program);;
    (* Apply the vertex state *)
    _setMeshState program (localTransform mesh) data (skinnedPose mesh)
      meshWorld view proj viewPos;;
    (* Apply the material state *)
    _setMaterialState program (projector_materialState projector) (Some projectionInv);;
    (* Draw the mesh *)
    meshData ← lift (deref_MeshData data);
    gl (glBindVertexArray (vertexArray meshData));;
    gl (glDepthMask false);;
    gl (glDepthFunc GL_EQUAL);;
    gl (glDrawElements GL_TRIANGLES (to_int32 (elementCount meshData)) GL_UNSIGNED_SHORT);;
    gl (glBindVertexArray 0).

(** ** Avatar message handlers *)


End Shared.

(** ** Frame update: what both files read of the inputs *)

Record ovrAvatarPacket : Type := OvrPacket {
  packet_address : Z;
  durationSeconds : R
}.

Definition ovrAvatarPacket_GetDurationSeconds (packet : ovrAvatarPacket) : R :=
  durationSeconds packet.

(** A microphone is the samples it holds when it is read;
    [ovr_Microphone_ReadData(mic, buffer, n)] hands out at most [n] of them. *)
Definition ovr_Microphone_ReadData (mic : list R) (n : nat) : list R := take n mic.

(** ** src/MinimalVR-ASM2/Minimal/Avatar.cpp *)

Module Avatar_cpp.
Section Render.
Context {headers : Headers}.

Definition _renderDebugLine (worldViewProj : mat4) (a b : vec3) (aColor bColor : vec4)
    : M unit :=
  program ← get _debugLineProgram;
  gl (glUseProgram program);;
  gl (glUniformMatrix4fv (Uniform program "worldViewProj") 1 [worldViewProj]);;
  debugVertexArray ← get _debugVertexArray;
  gl (glBindVertexArray debugVertexArray);;
  gl (glBindBuffer GL_ARRAY_BUFFER debugVertexArray);;
  gl (glBufferData GL_ARRAY_BUFFER 1 "sizeof(vertices)" (DebugVertices a b aColor bColor)
        GL_DYNAMIC_DRAW);;
  (* Fill in the array attributes *)
  gl (glVertexAttribPointer 0 3 GL_FLOAT "sizeof(vertices[0])" "0");;
  gl (glEnableVertexAttribArray 0);;
  gl (glVertexAttribPointer 1 4 GL_FLOAT "sizeof(vertices[0])" "(void*)sizeof(glm::vec3)");;
  gl (glEnableVertexAttribArray 1);;
  gl (glDrawArrays GL_LINE_STRIP 0 2).

(** [glm::vec3(m[3])]. *)
Definition translation_of (m : mat4) : vec3 :=
  Vec3 (v4x (col3 m)) (v4y (col3 m)) (v4z (col3 m)).

Definition _renderPose (worldViewProj : mat4) (pose : ovrAvatarSkinnedMeshPose) : M unit :=
  let skinnedPoses : list cell := replicate (jointCount pose) None in
  skinnedPoses ← lift (_computeWorldPose pose skinnedPoses);
  for_loopM
    (fun i (_ : unit) =>
       parent ← lift (index (jointParents pose) i);
       parentPose ← lift (if (parent <? 0)%Z then Fault OutOfBounds
                          else load skinnedPoses (Z.to_nat parent));
       jointPose ← lift (load skinnedPoses i);
       _renderDebugLine worldViewProj (translation_of parentPose) (translation_of jointPose)
         (Vec4 1 1 1 1) (Vec4 1 0 0 1))
    1 (jointCount pose - 1) tt.

Definition _renderSkinnedMeshPart (mesh : ovrAvatarRenderPart_SkinnedMeshRender)
    (visibilityMask' : Z) (world view proj : mat4) (viewPos : vec3) (renderJoints : bool)
    : M unit :=
  (* If this part isn't visible from the viewpoint we're rendering from, do nothing *)
  if (Z.land (visibilityMask mesh) visibilityMask' =? 0)%Z then mret tt
  else
    (* Get the GL mesh data for this mesh's asset *)
    data ← assetMap_subscript (meshAssetID mesh);
    program ← get _skinnedMeshProgram;
    gl (glUseProgram program);;
    (* Apply the vertex state *)
    _setMeshState program (localTransform mesh) data (skinnedPose mesh)
      world view proj viewPos;;
    (* Apply the material state *)
    _setMaterialState program (materialState mesh) None;;
    (* Draw the mesh *)
    meshData ← lift (deref_MeshData data);
    gl (glBindVertexArray (vertexArray meshData));;
    gl (glDepthFunc GL_LESS);;
    (* Write to depth first for self-occlusion *)
    (if negb (Z.land (visibilityMask mesh) ovrAvatarVisibilityFlag_SelfOccluding =? 0)%Z
     then
       gl (glDepthMask true);;
       gl (glColorMaski 0 false false false false);;
       gl (glDrawElements GL_TRIANGLES (to_int32 (elementCount meshData)) GL_UNSIGNED_SHORT);;
       gl (glDepthFunc GL_EQUAL)
     else mret tt);;
    (* Render to color buffer *)
    gl (glDepthMask false);;
    gl (glColorMaski 0 true true true true);;
    gl (glDrawElements GL_TRIANGLES (to_int32 (elementCount meshData)) GL_UNSIGNED_SHORT);;
    gl (glBindVertexArray 0);;
    if renderJoints then
      let local := _glmFromOvrAvatarTransform (localTransform mesh) in
      gl (glDepthFunc GL_ALWAYS);;
      _renderPose (mat4_mul (mat4_mul (mat4_mul proj view) world) local) (skinnedPose mesh)
    else mret tt.

Definition _renderSkinnedMeshPartPBS (mesh : ovrAvatarRenderPart_SkinnedMeshRenderPBS)
    (visibilityMask' : Z) (world view proj : mat4) (viewPos : vec3) (renderJoints : bool)
    : M unit :=
  (* If this part isn't visible from the viewpoint we're rendering from, do nothing *)
  if (Z.land (pbs_visibilityMask mesh) visibilityMask' =? 0)%Z then mret tt
  else
    (* Get the GL mesh data for this mesh's asset *)
    data ← assetMap_subscript (pbs_meshAssetID mesh);
    program ← get _skinnedMeshPBSProgram;
    gl (glUseProgram program);;
    (* Apply the vertex state *)
    _setMeshState program (pbs_localTransform mesh) data (pbs_skinnedPose mesh)
      world view proj viewPos;;
    (* Apply the material state *)
    _setPBSState program (albedoTextureAssetID mesh) (surfaceTextureAssetID mesh);;
    (* Draw the mesh *)
    meshData ← lift (deref_MeshData data);
    gl (glBindVertexArray (vertexArray meshData));;
    gl (glDepthFunc GL_LESS);;
    (* Write to depth first for self-occlusion *)
    (if negb (Z.land (pbs_visibilityMask mesh) ovrAvatarVisibilityFlag_SelfOccluding =? 0)%Z
     then
       gl (glDepthMask true);;
       gl (glColorMaski 0 false false false false);;
       gl (glDrawElements GL_TRIANGLES (to_int32 (elementCount meshData)) GL_UNSIGNED_SHORT);;
       gl (glDepthFunc GL_EQUAL)
     else mret tt);;
    gl (glDepthMask false);;
    (* Draw the mesh *)
    gl (glColorMaski 0 true true true true);;
    gl (glDrawElements GL_TRIANGLES (to_int32 (elementCount meshData)) GL_UNSIGNED_SHORT);;
    gl (glBindVertexArray 0);;
    if renderJoints then
      let local := _glmFromOvrAvatarTransform (pbs_localTransform mesh) in
      gl (glDepthFunc GL_ALWAYS);;
      _renderPose (mat4_mul (mat4_mul (mat4_mul proj view) world) local)
        (pbs_skinnedPose mesh)
    else mret tt.

(** The [switch] of [_renderAvatar] on one render part. *)
Definition _renderAvatar_switch (avatar : ovrAvatar) (visibilityMask' : Z)
    (world view proj : mat4) (viewPos : vec3) (renderJoints : bool)
    (renderPart : ovrAvatarRenderPart) : M unit :=
  match ovrAvatarRenderPart_GetType renderPart with
  | ovrAvatarRenderPartType_SkinnedMeshRender =>
      mesh ← lift (deref (ovrAvatarRenderPart_GetSkinnedMeshRender renderPart));
      _renderSkinnedMeshPart mesh visibilityMask' world view proj viewPos renderJoints
  | ovrAvatarRenderPartType_SkinnedMeshRenderPBS =>
      mesh ← lift (deref (ovrAvatarRenderPart_GetSkinnedMeshRenderPBS renderPart));
      _renderSkinnedMeshPartPBS mesh visibilityMask' world view proj viewPos renderJoints
  | ovrAvatarRenderPartType_ProjectorRender =>
      projector ← lift (deref (ovrAvatarRenderPart_GetProjectorRender renderPart));
      _renderProjector projector avatar visibilityMask' world view proj viewPos
  end.

Definition _renderAvatar (avatar : ovrAvatar) (visibilityMask' : Z)
    (view proj : mat4) (viewPos : vec3) (renderJoints : bool) : M unit :=
  (* Traverse over all components on the avatar *)
  let componentCount := ovrAvatarComponent_Count avatar in
  for_loopM
    (fun i (_ : unit) =>
       component ← lift (deref (ovrAvatarComponent_Get avatar i));
       (* Compute the transform for this component *)
       let world := _glmFromOvrAvatarTransform (transform component) in
       (* Render each render part attached to the component *)
       for_loopM
         (fun j (_ : unit) =>
            renderPart ← lift (index (renderParts component) j);
            _renderAvatar_switch avatar visibilityMask' world view proj viewPos
              renderJoints renderPart)
         0 (renderPartCount component) tt)
    0 componentCount tt.

Definition _updateAvatar (avatar : Z) (deltaSeconds : R) (hmd : ovrAvatarTransform)
    (left right : ovrAvatarHandInputState) (mic : option (list R))
    (packet : option ovrAvatarPacket) (packetPlaybackTime : R) : M R :=
  packetPlaybackTime ←
    match packet with
    | Some packet =>
        let packetDuration := ovrAvatarPacket_GetDurationSeconds packet in
        let packetPlaybackTime := (packetPlaybackTime + deltaSeconds)%R in
        packetPlaybackTime ←
          (if Rgt_dec packetPlaybackTime packetDuration then
             sdk (ovrAvatarPose_Finalize avatar 0);;
             mret 0%R
           else mret packetPlaybackTime);
        sdk (ovrAvatar_UpdatePoseFromPacket avatar (packet_address packet)
               packetPlaybackTime);;
        mret packetPlaybackTime
    | None =>
        (* If we have a mic update the voice visualization *)
        match mic with
        | Some mic =>
            let micSamples := ovr_Microphone_ReadData mic (Z.to_nat 48000) in
            let sampleCount := length micSamples in
            if decide (0 < sampleCount) then
              avatar ← get _avatar;
              sdk (ovrAvatarPose_UpdateVoiceVisualization avatar
                     (wrap32 (Z.of_nat sampleCount)) micSamples)
            else mret tt
        | None => mret tt
        end;;
        (* Update the avatar pose from the inputs *)
        sdk (ovrAvatarPose_UpdateBody avatar hmd);;
        sdk (ovrAvatarPose_UpdateHands avatar left right);;
        mret packetPlaybackTime
    end;
  sdk (ovrAvatarPose_Finalize avatar deltaSeconds);;
  mret packetPlaybackTime.

End Render.
End Avatar_cpp.

(** ** src/unnamed/part_000: the copy of the layer inside the application

    Only the functions that differ from Avatar.cpp are repeated. *)

Module Part_000.
Section Render.
Context {headers : Headers}.

Definition _renderDebugLine (worldViewProj : mat4) (a b : vec3) (aColor bColor : vec4)
    : M unit :=
  program ← get _debugLineProgram;
  gl (glUseProgram program);;
  gl (glUniformMatrix4fv (Uniform program "worldViewProj") 1 [worldViewProj]);;
  debugVertexArray ← get _debugVertexArray;
  gl (glBindVertexArray debugVertexArray);;
  gl (glDepthFunc GL_LEQUAL);;
  gl (glBindBuffer GL_ARRAY_BUFFER debugVertexArray);;
  gl (glBufferData GL_ARRAY_BUFFER 1 "sizeof(vertices)" (DebugVertices a b aColor bColor)
        GL_DYNAMIC_DRAW);;
  (* Fill in the array attributes *)
  gl (glVertexAttribPointer 0 3 GL_FLOAT "sizeof(vertices[0])" "0");;
  gl (glEnableVertexAttribArray 0);;
  gl (glVertexAttribPointer 1 4 GL_FLOAT "sizeof(vertices[0])" "(void*)sizeof(glm::vec3)");;
  gl (glEnableVertexAttribArray 1);;
  gl (glLineWidth 25);;
  gl (glDrawArrays GL_LINES 0 2).

Definition _renderPose (worldViewProj : mat4) (pose : ovrAvatarSkinnedMeshPose)
    (isRight : bool) : M unit :=
  let skinnedPoses : list cell := replicate (jointCount pose) None in
  skinnedPoses ← lift (_computeWorldPose pose skinnedPoses);
  if negb isRight then
    color ← get laserColorLeft;
    _renderDebugLine worldViewProj (Vec3 0 0 0) (Vec3 0 0 (-200)) color (Vec4 1 1 1 1)
  else
    color ← get laserColorRight;
    _renderDebugLine worldViewProj (Vec3 0 0 0) (Vec3 0 0 (-200)) color (Vec4 1 1 1 1).

Definition _renderSkinnedMeshPart (mesh : ovrAvatarRenderPart_SkinnedMeshRender)
    (visibilityMask' : Z) (world view proj : mat4) (viewPos : vec3) (isRight : bool)
    : M unit :=
  (* If this part isn't visible from the viewpoint we're rendering from, do nothing *)
  if (Z.land (visibilityMask mesh) visibilityMask' =? 0)%Z then mret tt
  else
    (* Get the GL mesh data for this mesh's asset *)
    data ← assetMap_subscript (meshAssetID mesh);
    program ← get _skinnedMeshProgram;
    gl (glUseProgram program);;
    (* Apply the vertex state *)
    _setMeshState program (localTransform mesh) data (skinnedPose mesh)
      world view proj viewPos;;
    (* Apply the material state *)
    _setMaterialState program (materialState mesh) None;;
    (* Draw the mesh *)
    meshData ← lift (deref_MeshData data);
    gl (glBindVertexArray (vertexArray meshData));;
    gl (glDepthFunc GL_LEQUAL);;
    (* Write to depth first for self-occlusion *)
    (if negb (Z.land (visibilityMask mesh) ovrAvatarVisibilityFlag_SelfOccluding =? 0)%Z
     then
       gl (glDrawElements GL_TRIANGLES (to_int32 (elementCount meshData)) GL_UNSIGNED_SHORT)
     else mret tt);;
    (* Render to color buffer *)
    gl (glColorMaski 0 true true true true);;
    gl (glDrawElements GL_TRIANGLES (to_int32 (elementCount meshData)) GL_UNSIGNED_SHORT);;
    gl (glBindVertexArray 0);;
    let local := _glmFromOvrAvatarTransform (localTransform mesh) in
    gl (glDepthFunc GL_ALWAYS);;
    _renderPose (mat4_mul (mat4_mul (mat4_mul proj view) world) local) (skinnedPose mesh)
      isRight.

Definition _renderSkinnedMeshPartPBS (mesh : ovrAvatarRenderPart_SkinnedMeshRenderPBS)
    (visibilityMask' : Z) (world view proj : mat4) (viewPos : vec3) (isRight : bool)
    : M unit :=
  (* If this part isn't visible from the viewpoint we're rendering from, do nothing *)
  if (Z.land (pbs_visibilityMask mesh) visibilityMask' =? 0)%Z then mret tt
  else
    (* Get the GL mesh data for this mesh's asset *)
    data ← assetMap_subscript (pbs_meshAssetID mesh);
    program ← get _skinnedMeshPBSProgram;
    gl (glUseProgram program);;
    (* Apply the vertex state *)
    _setMeshState program (pbs_localTransform mesh) data (pbs_skinnedPose mesh)
      world view proj viewPos;;
    (* Apply the material state *)
    _setPBSState program (albedoTextureAssetID mesh) (surfaceTextureAssetID mesh);;
    (* Draw the mesh *)
    meshData ← lift (deref_MeshData data);
    gl (glBindVertexArray (vertexArray meshData));;
    gl (glDepthFunc GL_LESS);;
    (* Write to depth first for self-occlusion *)
    (if negb (Z.land (pbs_visibilityMask mesh) ovrAvatarVisibilityFlag_SelfOccluding =? 0)%Z
     then
       gl (glDepthMask true);;
       gl (glColorMaski 0 false false false false);;
       gl (glDrawElements GL_TRIANGLES (to_int32 (elementCount meshData)) GL_UNSIGNED_SHORT);;
       gl (glDepthFunc GL_EQUAL)
     else mret tt);;
    gl (glDepthMask false);;
    (* Draw the mesh *)
    gl (glColorMaski 0 true true true true);;
    gl (glDrawElements GL_TRIANGLES (to_int32 (elementCount meshData)) GL_UNSIGNED_SHORT);;
    gl (glBindVertexArray 0);;
    let local := _glmFromOvrAvatarTransform (pbs_localTransform mesh) in
    gl (glDepthFunc GL_ALWAYS);;
    _renderPose (mat4_mul (mat4_mul (mat4_mul proj view) world) local)
      (pbs_skinnedPose mesh) isRight.

(** The [switch] of [_renderAvatar] on one render part. *)
Definition _renderAvatar_switch (avatar : ovrAvatar) (visibilityMask' : Z)
    (world view proj : mat4) (viewPos : vec3) (isRight : bool)
    (renderPart : ovrAvatarRenderPart) : M unit :=
  match ovrAvatarRenderPart_GetType renderPart with
  | ovrAvatarRenderPartType_SkinnedMeshRender =>
      mesh ← lift (deref (ovrAvatarRenderPart_GetSkinnedMeshRender renderPart));
      _renderSkinnedMeshPart mesh visibilityMask' world view proj viewPos isRight
  | ovrAvatarRenderPartType_SkinnedMeshRenderPBS =>
      mesh ← lift (deref (ovrAvatarRenderPart_GetSkinnedMeshRenderPBS renderPart));
      _renderSkinnedMeshPartPBS mesh visibilityMask' world view proj viewPos isRight
  | ovrAvatarRenderPartType_ProjectorRender =>
      projector ← lift (deref (ovrAvatarRenderPart_GetProjectorRender renderPart));
      _renderProjector projector avatar visibilityMask' world view proj viewPos
  end.

Definition _renderAvatar (avatar : ovrAvatar) (visibilityMask' : Z)
    (view proj : mat4) (viewPos : vec3) (renderJoints : bool) : M unit :=
  (* Traverse over all components on the avatar *)
  let componentCount := ovrAvatarComponent_Count avatar in
  for_loopM
    (fun i (_ : unit) =>
       component ← lift (deref (ovrAvatarComponent_Get avatar i));
       let isRight := false in
       let isRight := if decide (i = 5) then true else isRight in
       (* Compute the transform for this component *)
       let world := _glmFromOvrAvatarTransform (transform component) in
       (* Render each render part attached to the component *)
       for_loopM
         (fun j (_ : unit) =>
            renderPart ← lift (index (renderParts component) j);
            _renderAvatar_switch avatar visibilityMask' world view proj viewPos
              isRight renderPart)
         0 (renderPartCount component) tt)
    4 (6 - 4) tt.

Definition _updateAvatar (avatar : Z) (deltaSeconds : R) (hmd : ovrAvatarTransform)
    (left right : ovrAvatarHandInputState) (mic : option (list R))
    (packet : option ovrAvatarPacket) (packetPlaybackTime : R) : M R :=
  packetPlaybackTime ←
    match packet with
    | Some packet =>
        let packetDuration := ovrAvatarPacket_GetDurationSeconds packet in
        let packetPlaybackTime := (packetPlaybackTime + deltaSeconds)%R in
        packetPlaybackTime ←
          (if Rgt_dec packetPlaybackTime packetDuration then
             sdk (ovrAvatarPose_Finalize avatar 0);;
             mret 0%R
           else mret packetPlaybackTime);
        sdk (ovrAvatar_UpdatePoseFromPacket avatar (packet_address packet)
               packetPlaybackTime);;
        mret packetPlaybackTime
    | None =>
        (* Update the avatar pose from the inputs *)
        sdk (ovrAvatarPose_UpdateBody avatar hmd);;
        sdk (ovrAvatarPose_UpdateHands avatar left right);;
        mret packetPlaybackTime
    end;
  sdk (ovrAvatarPose_Finalize avatar deltaSeconds);;
  mret packetPlaybackTime.

End Render.
End Part_000.

(** ** Concrete inputs *)

(** The headers as the avatar SDK and glm ship them. *)
Definition sdk_headers : Headers := {|
  OVR_AVATAR_MAXIMUM_JOINT_COUNT := 64;
  OVR_AVATAR_MAX_MATERIAL_LAYER_COUNT := 8;
  ovrAvatarVisibilityFlag_SelfOccluding := 4;
  glm_mat4_ctor := mat4_identity
|}.

(** Translation by [(x, y, z)], no rotation, unit scale. *)
Definition translation (x y z : R) : ovrAvatarTransform :=
  OvrTransform (OvrVector3f x y z) (OvrQuatf 0 0 0 1) (OvrVector3f 1 1 1).

(** The three-joint chain of section 8: parents [-1, 0, 1], every local
    transform a translation by [(0, 1, 0)]. *)
Definition chain3 : ovrAvatarSkinnedMeshPose :=
  OvrSkinnedMeshPose 3 [translation 0 1 0; translation 0 1 0; translation 0 1 0]
    [-1; 0; 1]%Z.

(** A state before any asset is loaded and any call is made. *)
Definition initial_state : state := {|
  _skinnedMeshProgram := 1;
  _skinnedMeshPBSProgram := 2;
  _debugLineProgram := 3;
  _debugVertexArray := 1;
  _avatar := 0;
  _loadingAssets := 0;
  _elapsedSeconds := 0;
  _assetMap := ∅;
  gl_log := [];
  gl_names := 3;
  sdk_log := [];
  laserColorLeft := Vec4 0 1 0 1;
  laserColorRight := Vec4 0 1 0 1
|}.

(** ** Block-compressed mip chains, in the words of section 4.4 *)

(** Width or height of level [level]: the size halved [level] times. *)
Definition level_extent (size : Z) (level : nat) : Z := (size / 2 ^ Z.of_nat level)%Z.

(** Byte length of a level of [width] by [height] texels: one block when a
    dimension is below 4, else [blockSize * (width/4) * (height/4)] as a
    32-bit product handed over as a [GLsizei]. *)
Definition dxt_level_size (blockSize width height : Z) : Z :=
  if (width <? 4)%Z || (height <? 4)%Z then blockSize
  else to_int32 (blockSize * (width / 4) * (height / 4)).

(** Offset of level [level]: the sizes of the levels before it, accumulated
    in a [uint32_t]. *)
Fixpoint dxt_level_offset (blockSize sizeX sizeY : Z) (level : nat) : Z :=
  match level with
  | O => 0%Z
  | S level' =>
      wrap32 (dxt_level_offset blockSize sizeX sizeY level'
              + dxt_level_size blockSize (level_extent sizeX level')
                  (level_extent sizeY level'))
  end.

(** The upload of level [level] of a texture of [sizeX] by [sizeY] texels. *)
Definition dxt_level_upload (blockSize : Z) (glFormat : GLenum) (sizeX sizeY : Z)
    (level : nat) : gl_call :=
  glCompressedTexImage2D (to_int32 (Z.of_nat level)) glFormat
    (to_int32 (level_extent sizeX level)) (to_int32 (level_extent sizeY level))
    (dxt_level_size blockSize (level_extent sizeX level) (level_extent sizeY level))
    (dxt_level_offset blockSize sizeX sizeY level).

(** ** The layer table, in the words of sections 3 and 4.5 *)

(** A column of the table for a material of [k] layers: the value [f] reads
    from each of the first [k] layers, then [zero] up to the maximum layer
    count. *)
Definition layer_column {headers : Headers} {B : Type}
    (f : ovrAvatarMaterialLayerState -> B) (zero : B)
    (state : ovrAvatarMaterialState) (k : nat) : list B :=
  (f <$> take k (layers state)) ++ replicate (OVR_AVATAR_MAX_MATERIAL_LAYER_COUNT - k) zero.

(** The texture units of the layers: [textureSlot + i] for layer [i] of the
    first [k], then zero. *)
Definition layer_units {headers : Headers} (textureSlot : Z) (k : nat) : list Z :=
  ((fun i => (textureSlot + Z.of_nat i)%Z) <$> seq 0 k)
  ++ replicate (OVR_AVATAR_MAX_MATERIAL_LAYER_COUNT - k) 0%Z.

(** The table with its first [k] slots filled from the layers of [state]. *)
Definition layer_table {headers : Headers} (state : ovrAvatarMaterialState)
    (textureSlot : Z) (k : nat) : LayerUniforms := {|
  layerSamplerModes := layer_column sampleMode 0%Z state k;
  layerBlendModes := layer_column blendMode 0%Z state k;
  layerMaskTypes := layer_column maskType 0%Z state k;
  layerColors := layer_column layerColor (OvrVector4f 0 0 0 0) state k;
  layerSurfaces := layer_units textureSlot k;
  layerSurfaceIDs := layer_column sampleTexture 0%Z state k;
  layerSurfaceScaleOffsets := layer_column sampleScaleOffset (OvrVector4f 0 0 0 0) state k;
  layerSampleParameters := layer_column sampleParameters (OvrVector4f 0 0 0 0) state k;
  layerMaskParameters := layer_column maskParameters (OvrVector4f 0 0 0 0) state k;
  layerMaskAxes := layer_column maskAxis (OvrVector4f 0 0 0 0) state k
|}.

(** The texture the single-texture binder binds for [id]: texture 0 for id
    0, the loaded texture for an id the cache maps to one; no other id is
    bound. *)
Definition bound_texture (cache : gmap Z ptr) (id : Z) : option Z :=
  if decide (id = 0%Z) then Some 0%Z
  else match cache !! id with
       | Some (TexturePtr texture) => Some (textureID texture)
       | _ => None
       end.

(** The texture the layer-table binder binds for [id]: the loaded texture
    for a nonzero id the cache maps to one, else texture 0. *)
Definition layer_texture (cache : gmap Z ptr) (id : Z) : Z :=
  if decide (id = 0%Z) then 0%Z
  else match cache !! id with
       | Some (TexturePtr texture) => textureID texture
       | _ => 0%Z
       end.

(** The cache after [_assetMap[id]] is read for a nonzero [id]. *)
Definition cache_after_lookup (id : Z) (cache : gmap Z ptr) : gmap Z ptr :=
  if decide (id = 0%Z) then cache
  else match cache !! id with
       | Some _ => cache
       | None => <[id := nullptr]> cache
       end.

(** The calls that select a texture unit or bind a texture to it. *)
Definition is_texture_bind (c : gl_call) : Prop :=
  match c with
  | glActiveTexture _ | glBindTexture _ _ => True
  | _ => False
  end.

(** The log [after] extends the log [before] by calls that end with the
    upload of the layer count and of all [OVR_AVATAR_MAX_MATERIAL_LAYER_COUNT]
    slots of every column of [table], between which textures are bound. *)
Definition uploads_layer_table {headers : Headers} (program : Z) (k : nat)
    (table : LayerUniforms) (before after : list gl_call) : Prop :=
  let count := OVR_AVATAR_MAX_MATERIAL_LAYER_COUNT in
  exists fixed binds,
    Forall is_texture_bind binds
    /\ after
       = before ++ fixed
         ++ [glUniform1i (Uniform program "layerCount") (to_int32 (Z.of_nat k));
             glUniform1iv (Uniform program "layerSamplerModes") count
               (layerSamplerModes table);
             glUniform1iv (Uniform program "layerBlendModes") count
               (layerBlendModes table);
             glUniform1iv (Uniform program "layerMaskTypes") count
               (layerMaskTypes table);
             glUniform4fv (Uniform program "layerColors") count (layerColors table)]
         ++ binds
         ++ [glUniform1iv (Uniform program "layerSurfaces") count (layerSurfaces table);
             glUniform4fv (Uniform program "layerSurfaceScaleOffsets") count
               (layerSurfaceScaleOffsets table);
             glUniform4fv (Uniform program "layerSampleParameters") count
               (layerSampleParameters table);
             glUniform4fv (Uniform program "layerMaskParameters") count
               (layerMaskParameters table);
             glUniform4fv (Uniform program "layerMaskAxes") count (layerMaskAxes table)].

(** ** The render traversal, in the words of section 4.6 *)

(** [f] on every element of [l], in order, stopping at a fault. *)
Fixpoint for_each {A : Type} (f : A -> M unit) (l : list A) : M unit :=
  match l with
  | [] => mret tt
  | x :: l' => f x;; for_each f l'
  end.

(** For each component whose index is in [indices], in that order: compute
    the component's world transform, then hand every render part of the
    component, in order, to [dispatch]. *)
Definition render_components (indices : list nat)
    (dispatch : nat -> mat4 -> ovrAvatarRenderPart -> M unit) (avatar : ovrAvatar)
    : M unit :=
  for_each
    (fun i =>
       component ← lift (deref (ovrAvatarComponent_Get avatar i));
       let world := _glmFromOvrAvatarTransform (transform component) in
       for_each (dispatch i world) (renderParts component))
    indices.

(** A skinned mesh part that every viewpoint sees, with no joint and no
    layer, drawn from mesh asset 7. *)
Definition plain_material : ovrAvatarMaterialState := {|
  baseColor := OvrVector4f 1 1 1 1;
  baseMaskType := 0;
  baseMaskParameters := OvrVector4f 0 0 0 0;
  baseMaskAxis := OvrVector4f 0 0 0 0;
  alphaMaskTextureID := 0;
  alphaMaskScaleOffset := OvrVector4f 1 1 0 0;
  normalMapTextureID := 0;
  normalMapScaleOffset := OvrVector4f 1 1 0 0;
  parallaxMapTextureID := 0;
  parallaxMapScaleOffset := OvrVector4f 1 1 0 0;
  roughnessMapTextureID := 0;
  roughnessMapScaleOffset := OvrVector4f 1 1 0 0;
  layerCount := 0;
  layers := []
|}.

(** A layer that samples texture asset [texture]. *)
Definition layer_of (texture : Z) : ovrAvatarMaterialLayerState := {|
  blendMode := 1;
  sampleMode := 2;
  maskType := 0;
  layerColor := OvrVector4f 1 1 1 1;
  sampleParameters := OvrVector4f 0 0 0 0;
  sampleTexture := texture;
  sampleScaleOffset := OvrVector4f 1 1 0 0;
  maskParameters := OvrVector4f 0 0 0 0;
  maskAxis := OvrVector4f 0 0 0 0
|}.

(** [plain_material] with two layers in use, which sample the texture
    assets 9 and 0, in an array of eight. *)
Definition layered_material : ovrAvatarMaterialState := {|
  baseColor := OvrVector4f 1 1 1 1;
  baseMaskType := 0;
  baseMaskParameters := OvrVector4f 0 0 0 0;
  baseMaskAxis := OvrVector4f 0 0 0 0;
  alphaMaskTextureID := 0;
  alphaMaskScaleOffset := OvrVector4f 1 1 0 0;
  normalMapTextureID := 0;
  normalMapScaleOffset := OvrVector4f 1 1 0 0;
  parallaxMapTextureID := 0;
  parallaxMapScaleOffset := OvrVector4f 1 1 0 0;
  roughnessMapTextureID := 0;
  roughnessMapScaleOffset := OvrVector4f 1 1 0 0;
  layerCount := 2;
  layers := layer_of 9 :: replicate 7 (layer_of 0)
|}.

Definition body_part : ovrAvatarRenderPart :=
  RenderPart_SkinnedMeshRender {|
    localTransform := translation 0 0 0;
    visibilityMask := 1;
    meshAssetID := 7;
    materialState := plain_material;
    skinnedPose := OvrSkinnedMeshPose 0 [] []
  |}.

(** An avatar of six components: the first carries [body_part], the others
    carry no render part. *)
Definition avatar6 : ovrAvatar :=
  OvrAvatar 1
    (OvrComponent (translation 0 0 0) [body_part]
     :: replicate 5 (OvrComponent (translation 0 0 0) [])).

(** ** The asset cache during rendering *)

(** [m] never removes or replaces an entry of the cache. *)
Definition keeps_cache {A : Type} (m : M A) : Prop :=
  forall s, _assetMap s ⊆ _assetMap (m s).2.

(** [m] never ends without a fault. *)
Definition always_faults {A : Type} (m : M A) : Prop :=
  forall s, exists f, (m s).1 = Fault f.

(** The skeleton of [pose] is held in arrays of at least [jointCount] entries
    and lists parents before children. *)
Definition well_formed_pose (pose : ovrAvatarSkinnedMeshPose) : Prop :=
  jointCount pose <= length (jointTransform pose)
  /\ jointCount pose <= length (jointParents pose)
  /\ forall i parent, i < jointCount pose ->
       jointParents pose !! i = Some parent -> (parent < Z.of_nat i)%Z.

(** The binder can bind [material] from [cache]: the layers fit the table,
    each fixed map is id 0 or a loaded texture, and no layer names a mesh. *)
Definition material_bindable {headers : Headers} (cache : gmap Z ptr)
    (material : ovrAvatarMaterialState) : Prop :=
  layerCount material <= OVR_AVATAR_MAX_MATERIAL_LAYER_COUNT
  /\ length (layers material) = OVR_AVATAR_MAX_MATERIAL_LAYER_COUNT
  /\ is_Some (bound_texture cache (alphaMaskTextureID material))
  /\ is_Some (bound_texture cache (normalMapTextureID material))
  /\ is_Some (bound_texture cache (parallaxMapTextureID material))
  /\ is_Some (bound_texture cache (roughnessMapTextureID material))
  /\ forall j layer mesh, j < layerCount material ->
       layers material !! j = Some layer ->
       sampleTexture layer ≠ 0%Z -> cache !! sampleTexture layer ≠ Some (MeshPtr mesh).

(** The skinned mesh part [mesh] is seen under [visibilityMask'], its mesh is
    loaded in [cache] with an inverse bind matrix for every joint of its
    pose, its pose is well formed and its material can be bound. *)
Definition part_drawable {headers : Headers} (cache : gmap Z ptr)
    (mesh : ovrAvatarRenderPart_SkinnedMeshRender) (visibilityMask' : Z) : Prop :=
  Z.land (visibilityMask mesh) visibilityMask' ≠ 0%Z
  /\ (exists meshData,
        cache !! meshAssetID mesh = Some (MeshPtr meshData)
        /\ forall i, i < jointCount (skinnedPose mesh) -> exists inverse_i,
             inverseBindPose meshData !! i = Some (Some inverse_i))
  /\ well_formed_pose (skinnedPose mesh)
  /\ material_bindable cache (materialState mesh).

(** [body_part] with the two layers of [layered_material]. *)
Definition layered_part : ovrAvatarRenderPart_SkinnedMeshRender := {|
  localTransform := translation 0 0 0;
  visibilityMask := 1;
  meshAssetID := 7;
  materialState := layered_material;
  skinnedPose := OvrSkinnedMeshPose 0 [] []
|}.

(** [initial_state] after a mesh without joints was loaded as asset 7. *)
Definition mesh_loaded_state : state :=
  set_assetMap {[ 7%Z := MeshPtr (mkMeshData 4 5 6 0 [] []) ]} initial_state.

(** ** Skeletons outside the contract of the layer *)

(** Two joints, the first naming the second as its parent. *)
Definition child_first : ovrAvatarSkinnedMeshPose :=
  OvrSkinnedMeshPose 2 [translation 0 1 0; translation 0 1 0] [1; -1]%Z.


(** The fault of reading the world matrix of a parent that is not below its
    child: the cell is inside the buffer and not written yet, or outside it. *)
Definition parent_read_fault (parent : Z) (jointCount : nat) : fault :=
  if decide (parent < Z.of_nat jointCount)%Z then IndeterminateRead else OutOfBounds.

(** ** IEEE 754 binary32: the arithmetic of [float], with rounding

    The layer model above reads [float] as a real number. Where a property
    depends on rounding, overflow or NaN, the same expressions of the source
    are evaluated here in binary32 (24 bits of precision, round to nearest
    even), each C++ operator being one rounded operation. *)

Module Binary32.

Definition float : Type := spec_float.
Definition prec : Z := 24.
Definition emax : Z := 128.

(** The literal of a small integer, [1.0f], [-2.0f], ... *)
Definition of_Z (z : Z) : float := binary_normalize prec emax z 0 false.
Definition add : float -> float -> float := SFadd prec emax.
Definition sub : float -> float -> float := SFsub prec emax.
Definition mul : float -> float -> float := SFmul prec emax.
Definition div : float -> float -> float := SFdiv prec emax.
(** [a == b]: a NaN equals nothing, and the two zeros are equal. *)
Definition eqb : float -> float -> bool := SFeqb.
Definition FLT_MAX : float := SFmax_float prec emax.
Definition nan : float := S754_nan.

(** The [float] nearest to [a / b]: what the literal [0.6f] is for [3 / 5]. *)
Definition ratio (a b : Z) : float := div (of_Z a) (of_Z b).

Record vec3 : Type := Vec3 { v3x : float; v3y : float; v3z : float }.
Record vec4 : Type := Vec4 { v4x : float; v4y : float; v4z : float; v4w : float }.
(** [glm::quat(w, x, y, z)]. *)
Record quat : Type := Quat { qw : float; qx : float; qy : float; qz : float }.
(** [glm::mat4], column-major. *)
Record mat4 : Type := Mat4 { col0 : vec4; col1 : vec4; col2 : vec4; col3 : vec4 }.

Definition vec4_add (a b : vec4) : vec4 :=
  Vec4 (add (v4x a) (v4x b)) (add (v4y a) (v4y b)) (add (v4z a) (v4z b))
       (add (v4w a) (v4w b)).

Definition vec4_sub (a b : vec4) : vec4 :=
  Vec4 (sub (v4x a) (v4x b)) (sub (v4y a) (v4y b)) (sub (v4z a) (v4z b))
       (sub (v4w a) (v4w b)).

Definition vec4_mul (a b : vec4) : vec4 :=
  Vec4 (mul (v4x a) (v4x b)) (mul (v4y a) (v4y b)) (mul (v4z a) (v4z b))
       (mul (v4w a) (v4w b)).

Definition vec4_scale (a : vec4) (s : float) : vec4 :=
  Vec4 (mul (v4x a) s) (mul (v4y a) s) (mul (v4z a) s) (mul (v4w a) s).

(** [m * v] and [m1 * m2] as glm computes them: the columns of the left
    factor scaled by the entries of a column of the right one and added from
    left to right. *)
Definition mat4_mul_vec (m : mat4) (v : vec4) : vec4 :=
  vec4_add (vec4_add (vec4_add (vec4_scale (col0 m) (v4x v))
                               (vec4_scale (col1 m) (v4y v)))
                     (vec4_scale (col2 m) (v4z v)))
           (vec4_scale (col3 m) (v4w v)).

Definition mat4_mul (m1 m2 : mat4) : mat4 :=
  Mat4 (mat4_mul_vec m1 (col0 m2)) (mat4_mul_vec m1 (col1 m2))
       (mat4_mul_vec m1 (col2 m2)) (mat4_mul_vec m1 (col3 m2)).

Definition mat4_identity : mat4 :=
  Mat4 (Vec4 (of_Z 1) (of_Z 0) (of_Z 0) (of_Z 0))
       (Vec4 (of_Z 0) (of_Z 1) (of_Z 0) (of_Z 0))
       (Vec4 (of_Z 0) (of_Z 0) (of_Z 1) (of_Z 0))
       (Vec4 (of_Z 0) (of_Z 0) (of_Z 0) (of_Z 1)).


(** [a == b] on vectors and matrices: [==] on every entry. *)
Definition vec4_eqb (a b : vec4) : bool :=
  eqb (v4x a) (v4x b) && eqb (v4y a) (v4y b) && eqb (v4z a) (v4z b)
  && eqb (v4w a) (v4w b).

Definition mat4_eqb (a b : mat4) : bool :=
  vec4_eqb (col0 a) (col0 b) && vec4_eqb (col1 a) (col1 b)
  && vec4_eqb (col2 a) (col2 b) && vec4_eqb (col3 a) (col3 b).

(** glm is not under src/; the four functions below compute as glm does.
    [glm::translate(v)]: the identity with its last column replaced by
    [m[0] * v[0] + m[1] * v[1] + m[2] * v[2] + m[3]]. *)
Definition glm_translate (v : vec3) : mat4 :=
  let m := mat4_identity in
  Mat4 (col0 m) (col1 m) (col2 m)
    (vec4_add (vec4_add (vec4_add (vec4_scale (col0 m) (v3x v))
                                  (vec4_scale (col1 m) (v3y v)))
                        (vec4_scale (col2 m) (v3z v)))
              (col3 m)).

(** [glm::mat4_cast(q)]. *)
Definition glm_mat4_cast (q : quat) : mat4 :=
  let '(Quat w x y z) := q in
  let qxx := mul x x in
  let qyy := mul y y in
  let qzz := mul z z in
  let qxz := mul x z in
  let qxy := mul x y in
  let qyz := mul y z in
  let qwx := mul w x in
  let qwy := mul w y in
  let qwz := mul w z in
  let one := of_Z 1 in
  let two := of_Z 2 in
  let zero := of_Z 0 in
  Mat4 (Vec4 (sub one (mul two (add qyy qzz))) (mul two (add qxy qwz))
             (mul two (sub qxz qwy)) zero)
       (Vec4 (mul two (sub qxy qwz)) (sub one (mul two (add qxx qzz)))
             (mul two (add qyz qwx)) zero)
       (Vec4 (mul two (add qxz qwy)) (mul two (sub qyz qwx))
             (sub one (mul two (add qxx qyy))) zero)
       (Vec4 zero zero zero one).

(** [glm::scale(v)]: the columns of the identity scaled by the entries of [v]. *)
Definition glm_scale (v : vec3) : mat4 :=
  let m := mat4_identity in
  Mat4 (vec4_scale (col0 m) (v3x v)) (vec4_scale (col1 m) (v3y v))
       (vec4_scale (col2 m) (v3z v)) (col3 m).

(** [glm::inverse(m)]: the cofactors from the eighteen 2x2 minors, the
    determinant as the first column of [m] against the first row of the
    cofactors, and every cofactor times one over the determinant. *)
Definition glm_inverse (m : mat4) : mat4 :=
  let '(Mat4 (Vec4 m00 m01 m02 m03) (Vec4 m10 m11 m12 m13)
             (Vec4 m20 m21 m22 m23) (Vec4 m30 m31 m32 m33)) := m in
  let Coef00 := sub (mul m22 m33) (mul m32 m23) in
  let Coef02 := sub (mul m12 m33) (mul m32 m13) in
  let Coef03 := sub (mul m12 m23) (mul m22 m13) in
  let Coef04 := sub (mul m21 m33) (mul m31 m23) in
  let Coef06 := sub (mul m11 m33) (mul m31 m13) in
  let Coef07 := sub (mul m11 m23) (mul m21 m13) in
  let Coef08 := sub (mul m21 m32) (mul m31 m22) in
  let Coef10 := sub (mul m11 m32) (mul m31 m12) in
  let Coef11 := sub (mul m11 m22) (mul m21 m12) in
  let Coef12 := sub (mul m20 m33) (mul m30 m23) in
  let Coef14 := sub (mul m10 m33) (mul m30 m13) in
  let Coef15 := sub (mul m10 m23) (mul m20 m13) in
  let Coef16 := sub (mul m20 m32) (mul m30 m22) in
  let Coef18 := sub (mul m10 m32) (mul m30 m12) in
  let Coef19 := sub (mul m10 m22) (mul m20 m12) in
  let Coef20 := sub (mul m20 m31) (mul m30 m21) in
  let Coef22 := sub (mul m10 m31) (mul m30 m11) in
  let Coef23 := sub (mul m10 m21) (mul m20 m11) in
  let Fac0 := Vec4 Coef00 Coef00 Coef02 Coef03 in
  let Fac1 := Vec4 Coef04 Coef04 Coef06 Coef07 in
  let Fac2 := Vec4 Coef08 Coef08 Coef10 Coef11 in
  let Fac3 := Vec4 Coef12 Coef12 Coef14 Coef15 in
  let Fac4 := Vec4 Coef16 Coef16 Coef18 Coef19 in
  let Fac5 := Vec4 Coef20 Coef20 Coef22 Coef23 in
  let Vec0 := Vec4 m10 m00 m00 m00 in
  let Vec1 := Vec4 m11 m01 m01 m01 in
  let Vec2 := Vec4 m12 m02 m02 m02 in
  let Vec3 := Vec4 m13 m03 m03 m03 in
  let Inv0 :=
    vec4_add (vec4_sub (vec4_mul Vec1 Fac0) (vec4_mul Vec2 Fac1)) (vec4_mul Vec3 Fac2) in
  let Inv1 :=
    vec4_add (vec4_sub (vec4_mul Vec0 Fac0) (vec4_mul Vec2 Fac3)) (vec4_mul Vec3 Fac4) in
  let Inv2 :=
    vec4_add (vec4_sub (vec4_mul Vec0 Fac1) (vec4_mul Vec1 Fac3)) (vec4_mul Vec3 Fac5) in
  let Inv3 :=
    vec4_add (vec4_sub (vec4_mul Vec0 Fac2) (vec4_mul Vec1 Fac4)) (vec4_mul Vec2 Fac5) in
  let SignA := Vec4 (of_Z 1) (of_Z (-1)) (of_Z 1) (of_Z (-1)) in
  let SignB := Vec4 (of_Z (-1)) (of_Z 1) (of_Z (-1)) (of_Z 1) in
  let Inverse := Mat4 (vec4_mul Inv0 SignA) (vec4_mul Inv1 SignB)
                      (vec4_mul Inv2 SignA) (vec4_mul Inv3 SignB) in
  let Row0 := Vec4 (v4x (col0 Inverse)) (v4x (col1 Inverse)) (v4x (col2 Inverse))
                   (v4x (col3 Inverse)) in
  let Dot0 := vec4_mul (Vec4 m00 m01 m02 m03) Row0 in
  let Dot1 := add (add (v4x Dot0) (v4y Dot0)) (add (v4z Dot0) (v4w Dot0)) in
  let OneOverDeterminant := div (of_Z 1) Dot1 in
  Mat4 (vec4_scale (col0 Inverse) OneOverDeterminant)
       (vec4_scale (col1 Inverse) OneOverDeterminant)
       (vec4_scale (col2 Inverse) OneOverDeterminant)
       (vec4_scale (col3 Inverse) OneOverDeterminant).

Record ovrAvatarVector3f : Type :=
  OvrVector3f { vector3_x : float; vector3_y : float; vector3_z : float }.
Record ovrAvatarQuatf : Type :=
  OvrQuatf { quat_x : float; quat_y : float; quat_z : float; quat_w : float }.

Record ovrAvatarTransform : Type := OvrTransform {
  position : ovrAvatarVector3f;
  orientation : ovrAvatarQuatf;
  scale : ovrAvatarVector3f
}.

Record ovrAvatarSkinnedMeshPose : Type := OvrSkinnedMeshPose {
  jointCount : nat;
  jointTransform : list ovrAvatarTransform;
  jointParents : list Z
}.

Definition _glmFromOvrAvatarTransform (transform : ovrAvatarTransform) : mat4 :=
  let position := Vec3 (vector3_x (position transform)) (vector3_y (position transform))
                       (vector3_z (position transform)) in
  let orientation := Quat (quat_w (orientation transform)) (quat_x (orientation transform))
                          (quat_y (orientation transform)) (quat_z (orientation transform)) in
  let scale := Vec3 (vector3_x (scale transform)) (vector3_y (scale transform))
                    (vector3_z (scale transform)) in
  mat4_mul (mat4_mul (glm_translate position) (glm_mat4_cast orientation)) (glm_scale scale).

(** A cell of a [glm::mat4] buffer: [None] while its value is indeterminate. *)
Abbreviation cell := (option mat4).

Definition load (worldPose : list cell) (i : nat) : res mat4 :=
  match worldPose !! i with
  | Some (Some m) => Ok m
  | Some None => Fault IndeterminateRead
  | None => Fault OutOfBounds
  end.

Definition store (worldPose : list cell) (i : nat) (m : mat4) : res (list cell) :=
  if decide (i < length worldPose) then Ok (<[i := Some m]> worldPose)
  else Fault OutOfBounds.

Definition _computeWorldPose_body (localPose : ovrAvatarSkinnedMeshPose)
    (i : nat) (worldPose : list cell) : res (list cell) :=
  transform ← index (jointTransform localPose) i;
  let local := _glmFromOvrAvatarTransform transform in
  parentIndex ← index (jointParents localPose) i;
  if (parentIndex <? 0)%Z then store worldPose i local
  else
    parent ← load worldPose (Z.to_nat parentIndex);
    store worldPose i (mat4_mul parent local).

Definition _computeWorldPose (localPose : ovrAvatarSkinnedMeshPose)
    (worldPose : list cell) : res (list cell) :=
  for_loop (_computeWorldPose_body localPose) 0 (jointCount localPose) worldPose.

Definition _computeReflectionMatrix (plane : vec4) : mat4 :=
  let '(Vec4 x y z w) := plane in
  let one := of_Z 1 in
  let two := of_Z 2 in
  let minus_two := of_Z (-2) in
  let zero := of_Z 0 in
  Mat4 (Vec4 (sub one (mul (mul two x) x)) (mul (mul minus_two x) y)
             (mul (mul minus_two x) z) (mul (mul minus_two w) x))
       (Vec4 (mul (mul minus_two y) x) (sub one (mul (mul two y) y))
             (mul (mul minus_two y) z) (mul (mul minus_two w) y))
       (Vec4 (mul (mul minus_two z) x) (mul (mul minus_two z) y)
             (sub one (mul (mul two z) z)) (mul (mul minus_two w) z))
       (Vec4 zero zero zero one).

(** The two joint arrays of [MeshData]. *)
Record MeshData : Type := mkMeshData {
  bindPose : list cell;
  inverseBindPose : list cell
}.

(** [_loadMesh], from "Translate the bind pose" on: the arrays of the new
    [mesh] after the load. *)
Definition _loadMesh (mesh : MeshData) (skinnedBindPose : ovrAvatarSkinnedMeshPose)
    : res MeshData :=
  bindPose ← _computeWorldPose skinnedBindPose (bindPose mesh);
  inverseBindPose ← for_loop
    (fun i inverseBindPose =>
       bind_i ← load bindPose i;
       store inverseBindPose i (glm_inverse bind_i))
    0 (jointCount skinnedBindPose) (inverseBindPose mesh);
  Ok (mkMeshData bindPose inverseBindPose).

(** [_setMeshState], "Compute the skinned pose": the matrices it uploads as
    [meshPose]. *)
Definition _setMeshState (data : MeshData) (skinnedPose : ovrAvatarSkinnedMeshPose)
    : res (list mat4) :=
  let skinnedPoses : list cell := replicate (jointCount skinnedPose) None in
  skinnedPoses ← _computeWorldPose skinnedPose skinnedPoses;
  skinnedPoses ← for_loop
    (fun i skinnedPoses =>
       skinned_i ← load skinnedPoses i;
       inverse_i ← load (inverseBindPose data) i;
       store skinnedPoses i (mat4_mul skinned_i inverse_i))
    0 (jointCount skinnedPose) skinnedPoses;
  for_loop (fun i acc => m ← load skinnedPoses i; Ok (acc ++ [m]))
    0 (jointCount skinnedPose) [].

(** [new MeshData()]: two arrays of [OVR_AVATAR_MAXIMUM_JOINT_COUNT] (64)
    identity matrices. *)
Definition new_MeshData : MeshData :=
  mkMeshData (replicate 64 (Some mat4_identity)) (replicate 64 (Some mat4_identity)).

(** The skin matrices uploaded when the mesh loaded from the bind skeleton
    [pose] is drawn with [pose] as its current pose. *)
Definition skin_in_bind_pose (pose : ovrAvatarSkinnedMeshPose) : res (list mat4) :=
  mesh ← _loadMesh new_MeshData pose;
  _setMeshState mesh pose.

(** [dot(n, n)] of the normal of [plane]. *)
Definition normal_dot (plane : vec4) : float :=
  add (add (mul (v4x plane) (v4x plane)) (mul (v4y plane) (v4y plane)))
      (mul (v4z plane) (v4z plane)).



(** The plane with normal [(0.6f, 0.8f, 0)] through the origin, the plane
    with normal [(0, 0, -1)] at distance [FLT_MAX], and the plane part_000
    reflects in. *)
Definition slanted_plane : vec4 := Vec4 (ratio 3 5) (ratio 4 5) (of_Z 0) (of_Z 0).
Definition far_plane : vec4 := Vec4 (of_Z 0) (of_Z 0) (of_Z (-1)) FLT_MAX.
Definition reflectionPlane : vec4 := Vec4 (of_Z 0) (of_Z 0) (of_Z (-1)) (of_Z 0).

(** [-x]. *)
Definition opp : float -> float := SFopp.

(** [x] is a zero or a finite number: neither an infinity nor a NaN. *)
Definition is_finite (x : float) : bool :=
  match x with
  | S754_zero _ | S754_finite _ _ _ => true
  | _ => false
  end.

(** [x] is a binary32 value: a finite [x] has a mantissa of 24 bits, or of
    fewer bits at the least exponent, and an exponent in range. Every value
    of a [float] variable is one. *)
Definition valid (x : float) : bool := valid_binary prec emax x.

(** The normal of [plane] is one of the six axis vectors: one of its entries
    is [1.0f] or [-1.0f] and the two others are zeros, of either sign. *)
Definition axis_normal (plane : vec4) : Prop :=
  let unit := fun a => exists s, a = S754_finite s 8388608 (-23) in
  let zero := fun a => exists s, a = S754_zero s in
  (unit (v4x plane) /\ zero (v4y plane) /\ zero (v4z plane))
  \/ (zero (v4x plane) /\ unit (v4y plane) /\ zero (v4z plane))
  \/ (zero (v4x plane) /\ zero (v4y plane) /\ unit (v4z plane)).

(** The plane with normal [(0, 0, -1)] at distance [-0.3f]. *)
Definition shifted_plane : vec4 := Vec4 (of_Z 0) (of_Z 0) (of_Z (-1)) (ratio (-3) 10).

(** Joint [i] of [world] is composed as [_computeWorldPose] composes it. *)
Definition joint_composed (localPose : ovrAvatarSkinnedMeshPose) (world : list cell)
    (i : nat) : Prop :=
  exists transform parent,
    jointTransform localPose !! i = Some transform
    /\ jointParents localPose !! i = Some parent
    /\ ((parent < 0)%Z ->
        world !! i = Some (Some (_glmFromOvrAvatarTransform transform)))
    /\ ((0 <= parent)%Z ->
        exists parentWorld,
          world !! Z.to_nat parent = Some (Some parentWorld)
          /\ world !! i
             = Some (Some (mat4_mul parentWorld (_glmFromOvrAvatarTransform transform)))).

(** The skeleton of [pose] is held in arrays of at least [jointCount] entries
    and lists parents before children. *)
Definition well_formed_pose (pose : ovrAvatarSkinnedMeshPose) : Prop :=
  jointCount pose <= length (jointTransform pose)
  /\ jointCount pose <= length (jointParents pose)
  /\ forall i parent, i < jointCount pose ->
       jointParents pose !! i = Some parent -> (parent < Z.of_nat i)%Z.

(** Translation by [(x, y, z)], no rotation, unit scale. *)
Definition translation (x y z : float) : ovrAvatarTransform :=
  OvrTransform (OvrVector3f x y z) (OvrQuatf (of_Z 0) (of_Z 0) (of_Z 0) (of_Z 1))
    (OvrVector3f (of_Z 1) (of_Z 1) (of_Z 1)).

(** The three-joint chain of section 8: parents [-1, 0, 1], every local
    transform a translation by [(0, 1, 0)]. *)
Definition chain3 : ovrAvatarSkinnedMeshPose :=
  OvrSkinnedMeshPose 3
    [translation (of_Z 0) (of_Z 1) (of_Z 0); translation (of_Z 0) (of_Z 1) (of_Z 0);
     translation (of_Z 0) (of_Z 1) (of_Z 0)]
    [-1; 0; 1]%Z.


(** [T] with its quaternion negated. *)
Definition negate_orientation (T : ovrAvatarTransform) : ovrAvatarTransform :=
  OvrTransform (position T)
    (OvrQuatf (opp (quat_x (orientation T))) (opp (quat_y (orientation T)))
       (opp (quat_z (orientation T))) (opp (quat_w (orientation T))))
    (scale T).

(** No rotation with the scale [(-1, -1, 1)], and the half turn about the z
    axis with the scale [(1, 1, 1)]. *)
Definition mirrored_scale : ovrAvatarTransform :=
  OvrTransform (OvrVector3f (of_Z 0) (of_Z 0) (of_Z 0))
    (OvrQuatf (of_Z 0) (of_Z 0) (of_Z 0) (of_Z 1))
    (OvrVector3f (of_Z (-1)) (of_Z (-1)) (of_Z 1)).
Definition half_turn : ovrAvatarTransform :=
  OvrTransform (OvrVector3f (of_Z 0) (of_Z 0) (of_Z 0))
    (OvrQuatf (of_Z 0) (of_Z 0) (of_Z 1) (of_Z 0))
    (OvrVector3f (of_Z 1) (of_Z 1) (of_Z 1)).

End Binary32.

(** ** Matrix back to transform *)

Section Decompose.

(** [glm::decompose] is not under src/: the scale, orientation, translation,
    skew and perspective it reports for a matrix are taken as given. *)
Variable glm_decompose : mat4 -> vec3 * quat * vec3 * vec3 * vec4.

(** The overload of [_ovrAvatarTransformFromGlm] on position, orientation and
    scale. *)
Definition _ovrAvatarTransformFromGlm_components (position : vec3) (orientation : quat)
    (scale : vec3) : ovrAvatarTransform :=
  OvrTransform (OvrVector3f (v3x position) (v3y position) (v3z position))
    (OvrQuatf (qx orientation) (qy orientation) (qz orientation) (qw orientation))
    (OvrVector3f (v3x scale) (v3y scale) (v3z scale)).

(** The overload of [_ovrAvatarTransformFromGlm] on a matrix. *)
Definition _ovrAvatarTransformFromGlm (matrix : mat4) : ovrAvatarTransform :=
  let '(scale, orientation, translation, skew, perspective) := glm_decompose matrix in
  _ovrAvatarTransformFromGlm_components translation orientation scale.

(** [toTransform(toMatrix(T))]. *)
Definition round_trip (T : ovrAvatarTransform) : ovrAvatarTransform :=
  _ovrAvatarTransformFromGlm (_glmFromOvrAvatarTransform T).

End Decompose.

(** The three scale components of [T] are nonzero. *)
Definition nonzero_scale (T : ovrAvatarTransform) : Prop :=
  vector3_x (scale T) ≠ 0%R /\ vector3_y (scale T) ≠ 0%R /\ vector3_z (scale T) ≠ 0%R.

(** [a] and [b] agree within [tolerance] in each of their ten components. *)
Definition within (tolerance : R) (a b : ovrAvatarTransform) : Prop :=
  (Rabs (vector3_x (position a) - vector3_x (position b)) <= tolerance
   /\ Rabs (vector3_y (position a) - vector3_y (position b)) <= tolerance
   /\ Rabs (vector3_z (position a) - vector3_z (position b)) <= tolerance
   /\ Rabs (quat_x (orientation a) - quat_x (orientation b)) <= tolerance
   /\ Rabs (quat_y (orientation a) - quat_y (orientation b)) <= tolerance
   /\ Rabs (quat_z (orientation a) - quat_z (orientation b)) <= tolerance
   /\ Rabs (quat_w (orientation a) - quat_w (orientation b)) <= tolerance
   /\ Rabs (vector3_x (scale a) - vector3_x (scale b)) <= tolerance
   /\ Rabs (vector3_y (scale a) - vector3_y (scale b)) <= tolerance
   /\ Rabs (vector3_z (scale a) - vector3_z (scale b)) <= tolerance)%R.

(** [T] with its quaternion negated. *)
Definition negate_orientation (T : ovrAvatarTransform) : ovrAvatarTransform :=
  OvrTransform (position T)
    (OvrQuatf (- quat_x (orientation T)) (- quat_y (orientation T))
       (- quat_z (orientation T)) (- quat_w (orientation T)))
    (scale T).

(** No rotation with the scale [(-1, -1, 1)], and the half turn about the z
    axis with the scale [(1, 1, 1)]. *)
Definition mirrored_scale : ovrAvatarTransform :=
  OvrTransform (OvrVector3f 0 0 0) (OvrQuatf 0 0 0 1) (OvrVector3f (-1) (-1) 1).
Definition half_turn : ovrAvatarTransform :=
  OvrTransform (OvrVector3f 0 0 0) (OvrQuatf 0 0 1 0) (OvrVector3f 1 1 1).

(** * Properties *)

(** ** The loop combinators *)

Lemma for_loop_seq {L : Type} (body : nat -> L -> res L) (start count : nat) (s : L) :
  for_loop body start count s
  = foldl (fun acc i => acc ≫= body i) (Ok s) (seq start count).
Proof.
  revert start s. induction count as [|count IH]; intros start s; [reflexivity|].
  simpl. destruct (body start s) as [s'|f]; simpl.
  - apply IH.
  - clear IH. generalize (S start) as k. induction count as [|count IH]; intros k.
    + reflexivity.
    + simpl. apply IH.
Qed.

(** Invariant rule: an invariant that every round re-establishes without a
    fault holds when the loop ends, and the loop ends without a fault. *)
Lemma for_loop_invariant {L : Type} (P : nat -> L -> Prop)
    (body : nat -> L -> res L) (start count : nat) (s : L) :
  P start s ->
  (forall i s, start <= i < start + count -> P i s ->
     exists s', body i s = Ok s' /\ P (S i) s') ->
  exists s', for_loop body start count s = Ok s' /\ P (start + count) s'.
Proof.
  revert start s. induction count as [|count IH]; intros start s HP Hstep.
  - exists s. rewrite Nat.add_0_r. by split.
  - destruct (Hstep start s) as (s' & Hbody & HP'); [lia|done|].
    destruct (IH (S start) s') as (s'' & Hloop & HP''); [done| |].
    + intros i t Hi. apply Hstep. lia.
    + exists s''. simpl. rewrite Hbody. simpl. rewrite Hloop.
      split; [done|]. by replace (start + S count) with (S start + count) by lia.
Qed.

(** ** Skeleton pose evaluation *)

(** Joint [i] of [world] is composed as section 3 asks. *)
Definition joint_composed (localPose : ovrAvatarSkinnedMeshPose) (world : list cell)
    (i : nat) : Prop :=
  exists transform parent,
    jointTransform localPose !! i = Some transform
    /\ jointParents localPose !! i = Some parent
    /\ ((parent < 0)%Z ->
        world !! i = Some (Some (_glmFromOvrAvatarTransform transform)))
    /\ ((0 <= parent)%Z ->
        exists parentWorld,
          world !! Z.to_nat parent = Some (Some parentWorld)
          /\ world !! i
             = Some (Some (mat4_mul parentWorld (_glmFromOvrAvatarTransform transform)))).

Lemma joint_composed_written localPose world i :
  joint_composed localPose world i -> exists m, world !! i = Some (Some m).
Proof.
  intros (transform & parent & _ & _ & Hroot & Hchild).
  destruct (Z.lt_ge_cases parent 0) as [Hneg|Hpos].
  - eexists. by apply Hroot.
  - destruct (Hchild Hpos) as (parentWorld & _ & Hi). by eexists.
Qed.

Lemma computeWorldPose_body_step localPose worldPose0 worldPose k :
  k < jointCount localPose ->
  jointCount localPose <= length (jointTransform localPose) ->
  jointCount localPose <= length (jointParents localPose) ->
  jointCount localPose <= length worldPose0 ->
  (forall i parent, i < jointCount localPose ->
     jointParents localPose !! i = Some parent -> (parent < Z.of_nat i)%Z) ->
  length worldPose = length worldPose0 ->
  (forall i, i < k -> joint_composed localPose worldPose i) ->
  (forall i, k <= i -> worldPose !! i = worldPose0 !! i) ->
  exists worldPose',
    _computeWorldPose_body localPose k worldPose = Ok worldPose'
    /\ length worldPose' = length worldPose0
    /\ (forall i, i < S k -> joint_composed localPose worldPose' i)
    /\ (forall i, S k <= i -> worldPose' !! i = worldPose0 !! i).
Proof.
  intros Hk Htransforms Hparents Hbuffer Horder Hlen Hdone Hrest.
  destruct (lookup_lt_is_Some_2 (jointTransform localPose) k) as [transform Ht]; [lia|].
  destruct (lookup_lt_is_Some_2 (jointParents localPose) k) as [parent Hp]; [lia|].
  pose proof (Horder k parent Hk Hp) as Hlt.
  assert (Hkeep : forall m i, i < k ->
            joint_composed localPose (<[k := Some m]> worldPose) i).
  { intros m i Hi. destruct (Hdone i Hi) as (t & p & Hti & Hpi & Hroot & Hchild).
    exists t, p. split_and!; [done|done| |].
    - intros Hneg. rewrite list_lookup_insert_ne by lia. by apply Hroot.
    - intros Hpos. destruct (Hchild Hpos) as (parentWorld & Hpw & Hiw).
      pose proof (Horder i p ltac:(lia) Hpi).
      exists parentWorld. rewrite !list_lookup_insert_ne by lia. by split. }
  unfold _computeWorldPose_body, index. rewrite Ht, Hp. simpl.
  destruct (parent <? 0)%Z eqn:Hsign.
  - apply Z.ltb_lt in Hsign. unfold store. rewrite decide_True by lia.
    eexists. split_and!; [done| | |].
    + by rewrite length_insert.
    + intros i Hi. destruct (decide (i = k)) as [->|Hne]; [|apply Hkeep; lia].
      exists transform, parent. split_and!; [done|done| |lia].
      intros _. apply list_lookup_insert_eq. lia.
    + intros i Hi. rewrite list_lookup_insert_ne by lia. apply Hrest. lia.
  - apply Z.ltb_ge in Hsign.
    destruct (joint_composed_written localPose worldPose (Z.to_nat parent))
      as [parentWorld Hpw]; [apply Hdone; lia|].
    unfold load. rewrite Hpw. simpl. unfold store. rewrite decide_True by lia.
    eexists. split_and!; [done| | |].
    + by rewrite length_insert.
    + intros i Hi. destruct (decide (i = k)) as [->|Hne]; [|apply Hkeep; lia].
      exists transform, parent. split_and!; [done|done|lia|].
      intros _. exists parentWorld. split.
      * rewrite list_lookup_insert_ne by lia. done.
      * apply list_lookup_insert_eq. lia.
    + intros i Hi. rewrite list_lookup_insert_ne by lia. apply Hrest. lia.
Qed.

(** The outcome of [_computeWorldPose] on a well-formed skeleton. *)
Lemma computeWorldPose_correct (localPose : ovrAvatarSkinnedMeshPose)
    (worldPose : list cell) :
  jointCount localPose <= length (jointTransform localPose) ->
  jointCount localPose <= length (jointParents localPose) ->
  jointCount localPose <= length worldPose ->
  (forall i parent, i < jointCount localPose ->
     jointParents localPose !! i = Some parent -> (parent < Z.of_nat i)%Z) ->
  exists world,
    _computeWorldPose localPose worldPose = Ok world
    /\ length world = length worldPose
    /\ (forall i, i < jointCount localPose -> joint_composed localPose world i)
    /\ (forall i, jointCount localPose <= i -> world !! i = worldPose !! i).
Proof.
  intros Htransforms Hparents Hbuffer Horder.
  destruct (for_loop_invariant
    (fun k w => length w = length worldPose
                /\ (forall i, i < k -> joint_composed localPose w i)
                /\ (forall i, k <= i -> w !! i = worldPose !! i))
    (_computeWorldPose_body localPose) 0 (jointCount localPose) worldPose)
    as (world & Hrun & Hlen & Hdone & Hrest).
  - split_and!; [done| |done]. intros i Hi. lia.
  - intros k w Hk (Hlen & Hdone & Hrest).
    apply (computeWorldPose_body_step localPose worldPose w k); try done; lia.
  - by exists world.
Qed.

(** C1. For a joint array whose parents come before their children (negative
    parent: root), held in arrays of at least [jointCount] entries,
    [_computeWorldPose] ends without a fault and leaves, for every joint [i],
    [world[i] = local[i]] at a root and [world[i] = world[parent[i]] * local[i]]
    otherwise; the cells past [jointCount] are untouched, and the pass is the
    loop body applied to the indices [0 .. jointCount-1], each once, in order. *)
Theorem computeWorldPose_composes (localPose : ovrAvatarSkinnedMeshPose)
    (worldPose : list cell) :
  jointCount localPose <= length (jointTransform localPose) ->
  jointCount localPose <= length (jointParents localPose) ->
  jointCount localPose <= length worldPose ->
  (forall i parent, i < jointCount localPose ->
     jointParents localPose !! i = Some parent -> (parent < Z.of_nat i)%Z) ->
  exists world,
    _computeWorldPose localPose worldPose = Ok world
    /\ length world = length worldPose
    /\ (forall i, i < jointCount localPose -> joint_composed localPose world i)
    /\ (forall i, jointCount localPose <= i -> world !! i = worldPose !! i)
    /\ _computeWorldPose localPose worldPose
       = foldl (fun acc i => acc ≫= _computeWorldPose_body localPose i) (Ok worldPose)
           (seq 0 (jointCount localPose)).
Proof.
  intros Htransforms Hparents Hbuffer Horder.
  destruct (computeWorldPose_correct localPose worldPose Htransforms Hparents Hbuffer Horder)
    as (world & Hrun & Hlen & Hdone & Hrest).
  exists world. split_and!; try done. apply for_loop_seq.
Qed.

Lemma computeWorldPose_composes_witness :
  exists world,
    _computeWorldPose chain3 (replicate 3 None) = Ok world
    /\ length world = 3
    /\ (forall i, i < 3 -> joint_composed chain3 world i)
    /\ (forall i, 3 <= i -> world !! i = replicate 3 None !! i)
    /\ _computeWorldPose chain3 (replicate 3 None)
       = foldl (fun acc i => acc ≫= _computeWorldPose_body chain3 i)
           (Ok (replicate 3 None)) (seq 0 3).
Proof.
  apply (computeWorldPose_composes chain3 (replicate 3 None)); simpl; [lia|lia|lia|].
  intros [|[|[|i]]] parent Hi Hparent; simpl in *; simplify_eq; lia.
Defined.

(** ** Reflection *)

(** In exact arithmetic, for a plane whose normal [(x, y, z)] is a unit
    vector, the matrix of [_computeReflectionMatrix] times itself is the
    identity matrix. *)
Lemma computeReflectionMatrix_involution_exact (plane : vec4) :
  (v4x plane * v4x plane + v4y plane * v4y plane + v4z plane * v4z plane = 1)%R ->
  mat4_mul (_computeReflectionMatrix plane) (_computeReflectionMatrix plane)
  = mat4_identity.
Proof.
  destruct plane as [x y z w]. cbn [v4x v4y v4z]. intros Hunit.
  cbv [_computeReflectionMatrix mat4_mul mat4_mul_vec vec4_add vec4_scale mat4_identity
       col0 col1 col2 col3 v4x v4y v4z v4w].
  f_equal; f_equal; nsatz.
Qed.

(** *** In binary32

    In this section the names are those of [Binary32]. *)

Section ReflectionRounded.
Import Binary32.
Local Open Scope Z_scope.

Lemma bounded_inv (m : positive) (e : Z) :
  bounded prec emax m e = true ->
  Z.max (Zpos (digits2_pos m) + e - 24) (-149) = e /\ e <= 104.
Proof.
  unfold bounded, canonical_mantissa, fexp, SpecFloat.emin, prec, emax.
  intros H. apply andb_prop in H as [Hc He].
  apply Z.eqb_eq in Hc. apply Z.leb_le in He. split; [exact Hc|exact He].
Qed.

Lemma digits2_pos_shift23 (m : positive) :
  Zpos (digits2_pos (m~0~0~0~0~0~0~0~0~0~0~0~0~0~0~0~0~0~0~0~0~0~0~0))
  = Zpos (digits2_pos m) + 23.
Proof. cbn [digits2_pos]. lia. Qed.

Lemma shr_23 (m : positive) :
  SpecFloat.iter_pos shr_1 23
    {| shr_m := Zpos (m~0~0~0~0~0~0~0~0~0~0~0~0~0~0~0~0~0~0~0~0~0~0~0);
       shr_r := false; shr_s := false |}
  = {| shr_m := Zpos m; shr_r := false; shr_s := false |}.
Proof. reflexivity. Qed.

Lemma shr_22 (m : positive) :
  SpecFloat.iter_pos shr_1 22
    {| shr_m := Zpos (m~0~0~0~0~0~0~0~0~0~0~0~0~0~0~0~0~0~0~0~0~0~0~0);
       shr_r := false; shr_s := false |}
  = {| shr_m := Zpos (m~0); shr_r := false; shr_s := false |}.
Proof. reflexivity. Qed.

(** Rounding the mantissa of a float times [2^23], at the exponent lowered by
    23, gives the float back. *)
Lemma round_shift23 (s : bool) (m : positive) (e : Z) :
  bounded prec emax m e = true ->
  binary_round_aux prec emax s
    (Zpos (m~0~0~0~0~0~0~0~0~0~0~0~0~0~0~0~0~0~0~0~0~0~0~0)) (e - 23) loc_Exact
  = S754_finite s m e.
Proof.
  intros Hb. destruct (bounded_inv m e Hb) as [Hc He].
  unfold binary_round_aux, shr_fexp, Zdigits2, fexp, SpecFloat.emin, prec, emax.
  rewrite digits2_pos_shift23.
  replace (Z.max (Z.pos (digits2_pos m) + 23 + (e - 23) - 24) (3 - 128 - 24) - (e - 23))
    with 23 by lia.
  cbn [shr shr_record_of_loc]. rewrite !shr_23.
  cbn [shr_m loc_of_shr_record round_nearest_even shr_record_of_loc].
  replace (Z.max (Z.pos (digits2_pos m) + (e - 23 + 23) - 24) (3 - 128 - 24) - (e - 23 + 23))
    with 0 by lia.
  cbn [shr shr_m].
  replace (e - 23 + 23) with e by lia.
  rewrite (proj2 (Z.leb_le e (128 - 24))) by lia. reflexivity.
Qed.

(** Rounding the double of a float: the exponent goes up by one (past the
    largest exponent, to an infinity), or, below the normal range, the
    mantissa doubles. *)
Lemma round_double (s : bool) (m : positive) (e : Z) :
  bounded prec emax m e = true ->
  binary_round_aux prec emax s
    (Zpos (m~0~0~0~0~0~0~0~0~0~0~0~0~0~0~0~0~0~0~0~0~0~0~0)) (e - 22) loc_Exact
  = if Z.eqb (Zpos (digits2_pos m)) 24
    then (if Z.leb (e + 1) 104 then S754_finite s m (e + 1) else S754_infinity s)
    else S754_finite s (m~0) e.
Proof.
  intros Hb. destruct (bounded_inv m e Hb) as [Hc He].
  unfold binary_round_aux, shr_fexp, Zdigits2, fexp, SpecFloat.emin, prec, emax.
  rewrite digits2_pos_shift23.
  destruct (Z.eqb_spec (Zpos (digits2_pos m)) 24) as [Hd|Hd].
  - replace (Z.max (Z.pos (digits2_pos m) + 23 + (e - 22) - 24) (3 - 128 - 24) - (e - 22))
      with 23 by lia.
    cbn [shr shr_record_of_loc]. rewrite !shr_23.
    cbn [shr_m loc_of_shr_record round_nearest_even shr_record_of_loc].
    replace (Z.max (Z.pos (digits2_pos m) + (e - 22 + 23) - 24) (3 - 128 - 24)
             - (e - 22 + 23)) with 0 by lia.
    cbn [shr shr_m].
    replace (e - 22 + 23) with (e + 1) by lia.
    replace (128 - 24) with 104 by lia. reflexivity.
  - replace (Z.max (Z.pos (digits2_pos m) + 23 + (e - 22) - 24) (3 - 128 - 24) - (e - 22))
      with 22 by lia.
    cbn [shr shr_record_of_loc]. rewrite !shr_22.
    cbn [shr_m loc_of_shr_record round_nearest_even shr_record_of_loc digits2_pos].
    replace (Z.max (Z.pos (Pos.succ (digits2_pos m)) + (e - 22 + 22) - 24) (3 - 128 - 24)
             - (e - 22 + 22)) with 0 by lia.
    cbn [shr shr_m].
    replace (e - 22 + 22) with e by lia.
    rewrite (proj2 (Z.leb_le e (128 - 24))) by lia. reflexivity.
Qed.

Lemma shift23_l (m : positive) :
  (8388608 * m)%positive = (m~0~0~0~0~0~0~0~0~0~0~0~0~0~0~0~0~0~0~0~0~0~0~0)%positive.
Proof. reflexivity. Qed.

Lemma shift23_r (m : positive) :
  (m * 8388608)%positive = (m~0~0~0~0~0~0~0~0~0~0~0~0~0~0~0~0~0~0~0~0~0~0~0)%positive.
Proof. rewrite Pos.mul_comm. reflexivity. Qed.

(** [x * 1.0f], [x * -1.0f], [1.0f * x] and [-1.0f * x] are exact. *)
Lemma mul_unit_r (s u : bool) (m : positive) (e : Z) :
  bounded prec emax m e = true ->
  mul (S754_finite s m e) (S754_finite u 8388608 (-23)) = S754_finite (xorb s u) m e.
Proof.
  intros Hb. unfold mul, SFmul. rewrite shift23_r.
  change (e + -23) with (e - 23). by apply round_shift23.
Qed.

Lemma mul_unit_l (s u : bool) (m : positive) (e : Z) :
  bounded prec emax m e = true ->
  mul (S754_finite u 8388608 (-23)) (S754_finite s m e) = S754_finite (xorb u s) m e.
Proof.
  intros Hb. unfold mul, SFmul. rewrite shift23_l.
  replace (-23 + e) with (e - 23) by lia. by apply round_shift23.
Qed.

(** [-2.0f * w] is a binary32 value when it is finite. *)
Lemma mul_minus_two_valid (w : float) :
  valid w = true -> is_finite (mul (of_Z (-2)) w) = true ->
  valid (mul (of_Z (-2)) w) = true.
Proof.
  change (of_Z (-2)) with (S754_finite true 8388608 (-22)).
  destruct w as [s|s| |s m e]; try done. unfold valid, valid_binary.
  intros Hb. unfold mul, SFmul. rewrite shift23_l.
  replace (-22 + e) with (e - 22) by lia. rewrite (round_double _ m e Hb).
  destruct (bounded_inv m e Hb) as [Hc He].
  destruct (Z.eqb_spec (Zpos (digits2_pos m)) 24) as [Hd|Hd].
  - destruct (Z.leb_spec (e + 1) 104) as [Hle|Hgt]; [|done]. intros _.
    unfold bounded, canonical_mantissa, fexp, SpecFloat.emin, prec, emax.
    apply andb_true_intro. split; [apply Z.eqb_eq|apply Z.leb_le]; lia.
  - intros _. unfold bounded, canonical_mantissa, fexp, SpecFloat.emin, prec, emax.
    cbn [digits2_pos]. apply andb_true_intro. split; [apply Z.eqb_eq|apply Z.leb_le]; lia.
Qed.

(** [-x + x] and [x + -x] are [+0]. *)
Lemma add_opp (s : bool) (m : positive) (e : Z) :
  add (S754_finite (negb s) m e) (S754_finite s m e) = S754_zero false
  /\ add (S754_finite s m e) (S754_finite (negb s) m e) = S754_zero false.
Proof.
  unfold add, SFadd, shl_align. rewrite Z.min_id, Z.sub_diag. cbn [fst].
  destruct s; cbn [negb cond_Zopp]; rewrite ?Z.add_opp_diag_l, ?Z.add_opp_diag_r; done.
Qed.

Lemma add_neg_pos (m : positive) (e : Z) :
  add (S754_finite true m e) (S754_finite false m e) = S754_zero false.
Proof. apply (add_opp false). Qed.

Lemma add_pos_neg (m : positive) (e : Z) :
  add (S754_finite false m e) (S754_finite true m e) = S754_zero false.
Proof. apply (add_opp false). Qed.

(** Products and sums with a zero. *)
Lemma mul_zero_zero (a b : bool) : mul (S754_zero a) (S754_zero b) = S754_zero (xorb a b).
Proof. reflexivity. Qed.

Lemma mul_zero_finite (a b : bool) (m : positive) (e : Z) :
  mul (S754_zero a) (S754_finite b m e) = S754_zero (xorb a b).
Proof. reflexivity. Qed.

Lemma mul_finite_zero (a b : bool) (m : positive) (e : Z) :
  mul (S754_finite a m e) (S754_zero b) = S754_zero (xorb a b).
Proof. reflexivity. Qed.

Lemma add_zero_zero (a b : bool) : add (S754_zero a) (S754_zero b) = S754_zero (a && b).
Proof. by destruct a, b. Qed.

Lemma add_zero_finite (a b : bool) (m : positive) (e : Z) :
  add (S754_zero a) (S754_finite b m e) = S754_finite b m e.
Proof. reflexivity. Qed.

Lemma add_finite_zero (a b : bool) (m : positive) (e : Z) :
  add (S754_finite b m e) (S754_zero a) = S754_finite b m e.
Proof. reflexivity. Qed.

(** The entries of the reflection matrix that do not depend on [w], by
    evaluation. *)
Ltac eval_closed :=
  repeat match goal with
  | |- context [of_Z ?k] =>
      let t := constr:(of_Z k) in let c := eval vm_compute in t in change t with c
  end;
  repeat match goal with
  | |- context [sub ?a ?b] =>
      let t := constr:(sub a b) in let c := eval vm_compute in t in change t with c
  | |- context [mul (mul (S754_finite true 8388608 (-22)) ?a) ?b] =>
      let t := constr:(mul (mul (S754_finite true 8388608 (-22)) a) b) in
      let c := eval vm_compute in t in change t with c
  end.

(** Sums and products of zeros, of [1.0f], [-1.0f] and of one float. *)
Ltac float_rewrite :=
  repeat (progress
    (rewrite ?mul_zero_zero, ?mul_zero_finite, ?mul_finite_zero, ?add_zero_zero,
       ?add_zero_finite, ?add_finite_zero, ?add_neg_pos, ?add_pos_neg;
     rewrite ?mul_unit_r, ?mul_unit_l by (assumption || reflexivity);
     cbn [xorb andb negb])).

(** C9, as the code computes it. For a plane whose normal is one of the six
    axis vectors and whose distance [w] is a float with [-2.0f * w] finite,
    the matrix of [_computeReflectionMatrix] times itself, every operation
    rounded to binary32, equals the identity matrix entry by entry. *)
Theorem computeReflectionMatrix_involution (plane : vec4) :
  axis_normal plane ->
  valid (v4w plane) = true ->
  is_finite (mul (of_Z (-2)) (v4w plane)) = true ->
  mat4_eqb (mat4_mul (_computeReflectionMatrix plane) (_computeReflectionMatrix plane))
    mat4_identity
  = true.
Proof.
  destruct plane as [x y z w]. unfold axis_normal. cbn [v4x v4y v4z v4w].
  intros Haxis Hvalid Hfinite.
  pose proof (mul_minus_two_valid w Hvalid Hfinite) as Hv.
  cbv [_computeReflectionMatrix].
  change (of_Z (-2)) with (S754_finite true 8388608 (-22)) in *.
  set (v := mul (S754_finite true 8388608 (-22)) w) in *. clearbody v. clear Hvalid w.
  destruct Haxis as [([sx ->] & [sy ->] & [sz ->])|[([sx ->] & [sy ->] & [sz ->])
                    |([sx ->] & [sy ->] & [sz ->])]];
    destruct sx, sy, sz;
    (destruct v as [s|s| |s m e]; try discriminate;
     [destruct s; vm_compute; reflexivity|]);
    unfold valid, valid_binary in Hv; destruct s;
    eval_closed;
    cbv [mat4_eqb vec4_eqb mat4_mul mat4_mul_vec vec4_add vec4_scale
         col0 col1 col2 col3 v4x v4y v4z v4w mat4_identity];
    float_rewrite; reflexivity.
Qed.

End ReflectionRounded.

Lemma computeReflectionMatrix_involution_witness :
  Binary32.axis_normal Binary32.shifted_plane
  /\ Binary32.valid (Binary32.v4w Binary32.shifted_plane) = true
  /\ Binary32.is_finite
       (Binary32.mul (Binary32.of_Z (-2)) (Binary32.v4w Binary32.shifted_plane))
     = true
  /\ Binary32.mat4_eqb
       (Binary32.mat4_mul (Binary32._computeReflectionMatrix Binary32.shifted_plane)
          (Binary32._computeReflectionMatrix Binary32.shifted_plane))
       Binary32.mat4_identity
     = true.
Proof.
  assert (Haxis : Binary32.axis_normal Binary32.shifted_plane).
  { right. right. split_and!; eexists; reflexivity. }
  split; [exact Haxis|]. split; [reflexivity|]. split; [reflexivity|].
  apply (computeReflectionMatrix_involution Binary32.shifted_plane Haxis); reflexivity.
Defined.

(** The plane part_000 reflects in, [(0, 0, -1, 0)], is one of these. *)
Example computeReflectionMatrix_reflectionPlane :
  Binary32.axis_normal Binary32.reflectionPlane
  /\ Binary32.mat4_eqb
       (Binary32.mat4_mul (Binary32._computeReflectionMatrix Binary32.reflectionPlane)
          (Binary32._computeReflectionMatrix Binary32.reflectionPlane))
       Binary32.mat4_identity
     = true.
Proof.
  split; [|vm_compute; reflexivity].
  right. right. split_and!; eexists; reflexivity.
Qed.

(** C9 as stated fails in [float] arithmetic. For the normal [(0.6f, 0.8f, 0)],
    whose [dot(n, n)] is [1.0f], the product of the matrix with itself is not
    the identity: its entry in row 1 and column 1 is [1 + 2^-23]. For the
    axis normal [(0, 0, -1)] and the plane distance [FLT_MAX], [-2.0f * w]
    overflows and the matrix itself holds NaN. *)
Lemma computeReflectionMatrix_product_rounds :
  Binary32.normal_dot Binary32.slanted_plane = Binary32.of_Z 1
  /\ Binary32.mat4_eqb
       (Binary32.mat4_mul (Binary32._computeReflectionMatrix Binary32.slanted_plane)
          (Binary32._computeReflectionMatrix Binary32.slanted_plane))
       Binary32.mat4_identity
     = false
  /\ Binary32.v4y
       (Binary32.col1
          (Binary32.mat4_mul (Binary32._computeReflectionMatrix Binary32.slanted_plane)
             (Binary32._computeReflectionMatrix Binary32.slanted_plane)))
     = S754_finite false 8388609 (-23)
  /\ Binary32.axis_normal Binary32.far_plane
  /\ Binary32.valid (Binary32.v4w Binary32.far_plane) = true
  /\ Binary32.mul (Binary32.of_Z (-2)) (Binary32.v4w Binary32.far_plane)
     = S754_infinity true
  /\ Binary32.v4w (Binary32.col0 (Binary32._computeReflectionMatrix Binary32.far_plane))
     = Binary32.nan
  /\ Binary32.mat4_eqb
       (Binary32.mat4_mul (Binary32._computeReflectionMatrix Binary32.far_plane)
          (Binary32._computeReflectionMatrix Binary32.far_plane))
       Binary32.mat4_identity
     = false.
Proof.
  split_and!; try (vm_compute; reflexivity).
  right. right. split_and!; eexists; reflexivity.
Qed.

(** ** Frame update *)

(** C3. In playback mode the cursor is advanced by the elapsed seconds; when
    the advanced cursor exceeds the packet's duration the pose is finalized at
    time 0 and the cursor becomes exactly 0; the pose is then sampled from the
    packet at the resulting cursor, and finalized with the elapsed seconds.
    Both copies of [_updateAvatar] do so. *)
Theorem updateAvatar_playback (avatar : Z) (deltaSeconds : R) (hmd : ovrAvatarTransform)
    (left right : ovrAvatarHandInputState) (mic : option (list R))
    (packet : ovrAvatarPacket) (packetPlaybackTime : R) (s : state) :
  let advanced := (packetPlaybackTime + deltaSeconds)%R in
  let cursor :=
    if Rgt_dec advanced (ovrAvatarPacket_GetDurationSeconds packet) then 0%R
    else advanced in
  let reset :=
    if Rgt_dec advanced (ovrAvatarPacket_GetDurationSeconds packet)
    then [ovrAvatarPose_Finalize avatar 0] else [] in
  let after :=
    set_sdk (sdk_log s ++ reset
             ++ [ovrAvatar_UpdatePoseFromPacket avatar (packet_address packet) cursor;
                 ovrAvatarPose_Finalize avatar deltaSeconds]) s in
  Avatar_cpp._updateAvatar avatar deltaSeconds hmd left right mic (Some packet)
    packetPlaybackTime s = (Ok cursor, after)
  /\ Part_000._updateAvatar avatar deltaSeconds hmd left right mic (Some packet)
       packetPlaybackTime s = (Ok cursor, after).
Proof.
  simpl. unfold Avatar_cpp._updateAvatar, Part_000._updateAvatar.
  destruct (Rgt_dec _ _) as [Hexceeds|Hwithin]; simpl;
    unfold mbind, M_bind, sdk, mret, M_ret, set_sdk; simpl;
    rewrite <- ?app_assoc; simpl; done.
Qed.

(** The scenario of section 8: a packet of 2 seconds, updates of 1.5 and then
    1 second from cursor 0. The second update resets the cursor to 0; the
    half second of overshoot is dropped. *)
Example updateAvatar_playback_scenario (hmd : ovrAvatarTransform)
    (left right : ovrAvatarHandInputState) :
  let packet := OvrPacket 1 2 in
  let first := Avatar_cpp._updateAvatar 0 (3 / 2) hmd left right None (Some packet) 0
                 initial_state in
  first.1 = Ok (0 + 3 / 2)%R
  /\ (Avatar_cpp._updateAvatar 0 1 hmd left right None (Some packet)
        (0 + 3 / 2) first.2).1 = Ok 0%R.
Proof.
  simpl. unfold Avatar_cpp._updateAvatar. simpl.
  destruct (Rgt_dec (0 + 3 / 2) 2) as [Hgt|_]; [lra|].
  split; [done|].
  unfold mbind, M_bind. simpl.
  destruct (Rgt_dec (0 + 3 / 2 + 1) 2) as [_|Hle]; [done|lra].
Qed.

(** ** Running computations over the static state *)

Lemma bind_run {A B : Type} (m : M A) (k : A -> M B) (s : state) :
  (m ≫= k) s
  = match m s with
    | (Ok a, s') => k a s'
    | (Fault f, s') => (Fault f, s')
    end.
Proof. reflexivity. Qed.

Lemma for_loopM_succ {L : Type} (body : nat -> L -> M L) (start count : nat) (locals : L) :
  for_loopM body start (S count) locals
  = body start locals ≫= for_loopM body (S start) count.
Proof. reflexivity. Qed.

Lemma set_gl_set_gl log names log' names' s :
  set_gl log names (set_gl log' names' s) = set_gl log names s.
Proof. reflexivity. Qed.

Lemma set_gl_id s : set_gl (gl_log s) (gl_names s) s = s.
Proof. by destruct s. Qed.

Lemma gl_run (c : gl_call) (s : state) :
  gl c s = (Ok tt, set_gl (gl_log s ++ [c]) (gl_names s) s).
Proof. reflexivity. Qed.

Lemma assetMap_subscript_absent (id : Z) (s : state) :
  _assetMap s !! id = None ->
  assetMap_subscript id s = (Ok nullptr, set_assetMap (<[id := nullptr]> (_assetMap s)) s).
Proof. intros Habsent. unfold assetMap_subscript. by rewrite Habsent. Qed.

Lemma assetMap_subscript_present (id : Z) (p : ptr) (s : state) :
  _assetMap s !! id = Some p -> assetMap_subscript id s = (Ok p, s).
Proof. intros Hpresent. unfold assetMap_subscript. by rewrite Hpresent. Qed.

Lemma read_array_ok {A : Type} (a : list A) (count : nat) :
  count <= length a -> read_array a count = Ok (take count a).
Proof. intros Hcount. unfold read_array. by rewrite decide_True. Qed.

Lemma index_ok {A : Type} (a : list A) (i : nat) (v : A) :
  a !! i = Some v -> index a i = Ok v.
Proof. intros Hi. unfold index. by rewrite Hi. Qed.

Lemma assign_ok {A : Type} (a : list A) (i : nat) (v : A) :
  i < length a -> assign a i v = Ok (<[i := v]> a).
Proof. intros Hi. unfold assign. by rewrite decide_True. Qed.

(** ** Texture binders on an id that is not loaded *)




(** ** Texture loader: block-compressed mip chains *)

Lemma level_extent_succ (size : Z) (level : nat) :
  level_extent size (S level) = (level_extent size level / 2)%Z.
Proof.
  unfold level_extent. rewrite Nat2Z.inj_succ, Z.pow_succ_r by lia.
  rewrite Z.div_div by lia. f_equal. lia.
Qed.

Lemma to_int32_small (z : Z) : (0 <= z < 2 ^ 31)%Z -> to_int32 z = z.
Proof.
  intros Hz. unfold to_int32, wrap32. rewrite Z.mod_small by lia.
  destruct (z <? 2 ^ 31)%Z eqn:Hlt; [done|]. apply Z.ltb_ge in Hlt. lia.
Qed.

Lemma loadTexture_DXT_body_run (blockSize : Z) (glFormat : GLenum) (level : nat)
    (offset width height : Z) (s : state) :
  _loadTexture_DXT_body blockSize glFormat level (MipLocals offset width height) s
  = (Ok (MipLocals (wrap32 (offset + dxt_level_size blockSize width height))
           (width / 2) (height / 2)),
     set_gl (gl_log s
             ++ [glCompressedTexImage2D (to_int32 (Z.of_nat level)) glFormat
                   (to_int32 width) (to_int32 height)
                   (dxt_level_size blockSize width height) offset])
       (gl_names s) s).
Proof. reflexivity. Qed.

(** The mip loop from level [level] on, entered with the offset and extents
    of that level. *)
Lemma loadTexture_DXT_loop (blockSize : Z) (glFormat : GLenum) (sizeX sizeY : Z)
    (count level : nat) (s : state) :
  for_loopM (_loadTexture_DXT_body blockSize glFormat) level count
    (MipLocals (dxt_level_offset blockSize sizeX sizeY level)
       (level_extent sizeX level) (level_extent sizeY level)) s
  = (Ok (MipLocals (dxt_level_offset blockSize sizeX sizeY (level + count))
           (level_extent sizeX (level + count)) (level_extent sizeY (level + count))),
     set_gl (gl_log s ++ (dxt_level_upload blockSize glFormat sizeX sizeY <$> seq level count))
       (gl_names s) s).
Proof.
  revert level s. induction count as [|count IH]; intros level s.
  - simpl. by rewrite Nat.add_0_r, app_nil_r, set_gl_id.
  - rewrite for_loopM_succ, bind_run, loadTexture_DXT_body_run.
    rewrite <- !level_extent_succ.
    change (wrap32 _) with (dxt_level_offset blockSize sizeX sizeY (S level)).
    rewrite IH. simpl. rewrite set_gl_set_gl, <- app_assoc. simpl.
    by replace (level + S count) with (S level + count) by lia.
Qed.

Lemma loadTexture_DXT_run (blockSize : Z) (glFormat : GLenum) (sizeX sizeY : Z)
    (count : nat) (s : state) :
  let name := (gl_names s + 1)%Z in
  (for_loopM (_loadTexture_DXT_body blockSize glFormat) 0 count (MipLocals 0 sizeX sizeY)
     ≫= fun _ => mret tt)
    (set_gl ((gl_log s ++ [glGenTextures name]) ++ [glBindTexture GL_TEXTURE_2D name]) name s)
  = (Ok tt,
     set_gl (gl_log s ++ [glGenTextures name; glBindTexture GL_TEXTURE_2D name]
             ++ (dxt_level_upload blockSize glFormat sizeX sizeY <$> seq 0 count))
       name s).
Proof.
  simpl. rewrite bind_run.
  pose proof (loadTexture_DXT_loop blockSize glFormat sizeX sizeY count 0) as Hloop.
  unfold level_extent in Hloop at 1 2. simpl in Hloop. rewrite !Z.div_1_r in Hloop.
  rewrite Hloop. simpl. rewrite set_gl_set_gl. unfold mret, M_ret.
  by rewrite <- !app_assoc.
Qed.

(** C7, as the code has it. A DXT1 texture is uploaded in blocks of 8 bytes
    and a DXT5 texture in blocks of 16: after the texture is generated and
    bound, level [l] is uploaded with the extents halved [l] times, with the
    byte length [dxt_level_size] (one block when an extent is below 4, else
    [blockSize * (width/4) * (height/4)] computed in 32 bits) and from the
    offset accumulated from the lengths of the levels before it. The 32-bit
    product is the exact product whenever that is below [2^31]. *)
Theorem loadTexture_block_compressed (sizeX sizeY : Z) (mipCount : nat) (s : state) :
  let name := (gl_names s + 1)%Z in
  let loaded := fun blockSize glFormat =>
    (Ok (mkTextureData name),
     set_gl (gl_log s ++ [glGenTextures name; glBindTexture GL_TEXTURE_2D name]
             ++ (dxt_level_upload blockSize glFormat sizeX sizeY <$> seq 0 mipCount)
             ++ [glTexParameteri GL_TEXTURE_2D GL_TEXTURE_MIN_FILTER GL_LINEAR;
                 glTexParameteri GL_TEXTURE_2D GL_TEXTURE_MAG_FILTER GL_LINEAR;
                 glTexParameteri GL_TEXTURE_2D GL_TEXTURE_WRAP_S GL_REPEAT;
                 glTexParameteri GL_TEXTURE_2D GL_TEXTURE_WRAP_T GL_REPEAT])
       name s) in
  _loadTexture (OvrTextureAssetData ovrAvatarTextureFormat_DXT1 sizeX sizeY mipCount) s
  = loaded 8%Z GL_COMPRESSED_RGBA_S3TC_DXT1_EXT
  /\ _loadTexture (OvrTextureAssetData ovrAvatarTextureFormat_DXT5 sizeX sizeY mipCount) s
     = loaded 16%Z GL_COMPRESSED_RGBA_S3TC_DXT5_EXT
  /\ (forall blockSize width height : Z,
        (0 <= blockSize * (width / 4) * (height / 4) < 2 ^ 31)%Z ->
        dxt_level_size blockSize width height
        = if (width <? 4)%Z || (height <? 4)%Z then blockSize
          else (blockSize * (width / 4) * (height / 4))%Z).
Proof.
  simpl. split_and!.
  - unfold _loadTexture. simpl. rewrite bind_run. unfold glGen at 1.
    rewrite bind_run, gl_run. simpl. rewrite set_gl_set_gl.
    rewrite bind_run, loadTexture_DXT_run.
    unfold gl, mret, M_ret, mbind, M_bind. simpl. rewrite !set_gl_set_gl.
    by rewrite <- !app_assoc.
  - unfold _loadTexture. simpl. rewrite bind_run. unfold glGen at 1.
    rewrite bind_run, gl_run. simpl. rewrite set_gl_set_gl.
    rewrite bind_run, loadTexture_DXT_run.
    unfold gl, mret, M_ret, mbind, M_bind. simpl. rewrite !set_gl_set_gl.
    by rewrite <- !app_assoc.
  - intros blockSize width height Hsmall. unfold dxt_level_size.
    destruct ((width <? 4)%Z || (height <? 4)%Z); [done|]. by apply to_int32_small.
Qed.

(** C7 as stated fails where the product leaves 32 bits: the single level of
    a DXT5 texture of 65536 by 65536 texels is uploaded with length 0, while
    [16 * (65536/4) * (65536/4)] is [2^32]. *)
Lemma loadTexture_level_size_wraps :
  gl_log (_loadTexture
            (OvrTextureAssetData ovrAvatarTextureFormat_DXT5 65536 65536 1)
            initial_state).2
  = [glGenTextures 4; glBindTexture GL_TEXTURE_2D 4;
     glCompressedTexImage2D 0 GL_COMPRESSED_RGBA_S3TC_DXT5_EXT 65536 65536 0 0;
     glTexParameteri GL_TEXTURE_2D GL_TEXTURE_MIN_FILTER GL_LINEAR;
     glTexParameteri GL_TEXTURE_2D GL_TEXTURE_MAG_FILTER GL_LINEAR;
     glTexParameteri GL_TEXTURE_2D GL_TEXTURE_WRAP_S GL_REPEAT;
     glTexParameteri GL_TEXTURE_2D GL_TEXTURE_WRAP_T GL_REPEAT]
  /\ (16 * (65536 / 4) * (65536 / 4) = 4294967296)%Z.
Proof. split; reflexivity. Qed.

(** ** Render traversal *)

Lemma bind_assoc_run {A B C : Type} (m : M A) (k1 : A -> M B) (k2 : B -> M C) (s : state) :
  ((m ≫= k1) ≫= k2) s = (m ≫= fun a => k1 a ≫= k2) s.
Proof. rewrite !bind_run. by destruct (m s) as [[a|f] s']. Qed.

Lemma for_each_ext {A : Type} (f g : A -> M unit) (l : list A) (s : state) :
  (forall x s, f x s = g x s) -> for_each f l s = for_each g l s.
Proof.
  intros Hfg. revert s. induction l as [|x l IH]; intros s; [done|].
  simpl. rewrite !bind_run, Hfg. destruct (g x s) as [[[]|fault] s']; [apply IH|done].
Qed.

(** A counting loop without locals is [for_each] over the indices. *)
Lemma for_loopM_seq (f : nat -> M unit) (start count : nat) (s : state) :
  for_loopM (fun i (_ : unit) => f i) start count tt s = for_each f (seq start count) s.
Proof.
  revert start s. induction count as [|count IH]; intros start s; [done|].
  simpl. rewrite !bind_run. destruct (f start s) as [[[]|fault] s']; [apply IH|done].
Qed.

(** A counting loop that reads [a[j]] for every index of [a] is [for_each]
    over [a]. *)
Lemma for_loopM_index {A : Type} (g : A -> M unit) (done_ todo : list A) (s : state) :
  for_loopM (fun j (_ : unit) => x ← lift (index (done_ ++ todo) j); g x)
    (length done_) (length todo) tt s
  = for_each g todo s.
Proof.
  revert done_ s. induction todo as [|x todo IH]; intros done_ s; [done|].
  simpl. rewrite !bind_run. unfold lift at 1, index at 1.
  rewrite list_lookup_middle by done.
  destruct (g x s) as [[[]|fault] s']; [|done].
  specialize (IH (done_ ++ [x]) s').
  rewrite <- app_assoc, length_app in IH. simpl in IH.
  by rewrite Nat.add_1_r in IH.
Qed.

(** C5, as the code has it. In Avatar.cpp one call of [_renderAvatar] is the
    traversal of every component, index 0 to [componentCount - 1]: the world
    transform of the component is computed and each of its render parts is
    handed to the [switch], which calls the draw routine of the part's tag
    (skinned mesh, PBS skinned mesh or projector). In the copy inside
    part_000 one call is the same traversal of the components 4 and 5 only,
    and its [switch] calls the draw routine of the part's tag in the same
    way, with the flag of the right hand ([i == 5]) in place of
    [renderJoints]. A fault in a draw routine ends either traversal. *)
Theorem renderAvatar_traversal {headers : Headers} (avatar : ovrAvatar)
    (visibilityMask' : Z) (view proj : mat4) (viewPos : vec3) (renderJoints : bool)
    (s : state) :
  Avatar_cpp._renderAvatar avatar visibilityMask' view proj viewPos renderJoints s
  = render_components (seq 0 (ovrAvatarComponent_Count avatar))
      (fun _ world =>
         Avatar_cpp._renderAvatar_switch avatar visibilityMask' world view proj viewPos
           renderJoints)
      avatar s
  /\ Part_000._renderAvatar avatar visibilityMask' view proj viewPos renderJoints s
     = render_components [4; 5]
         (fun i world =>
            Part_000._renderAvatar_switch avatar visibilityMask' world view proj viewPos
              (bool_decide (i = 5)))
         avatar s
  /\ (forall world mesh,
        Avatar_cpp._renderAvatar_switch avatar visibilityMask' world view proj viewPos
          renderJoints (RenderPart_SkinnedMeshRender mesh) s
        = Avatar_cpp._renderSkinnedMeshPart mesh visibilityMask' world view proj viewPos
            renderJoints s)
  /\ (forall world mesh,
        Avatar_cpp._renderAvatar_switch avatar visibilityMask' world view proj viewPos
          renderJoints (RenderPart_SkinnedMeshRenderPBS mesh) s
        = Avatar_cpp._renderSkinnedMeshPartPBS mesh visibilityMask' world view proj viewPos
            renderJoints s)
  /\ (forall world projector,
        Avatar_cpp._renderAvatar_switch avatar visibilityMask' world view proj viewPos
          renderJoints (RenderPart_ProjectorRender projector) s
        = _renderProjector projector avatar visibilityMask' world view proj viewPos s)
  /\ (forall world isRight mesh,
        Part_000._renderAvatar_switch avatar visibilityMask' world view proj viewPos
          isRight (RenderPart_SkinnedMeshRender mesh) s
        = Part_000._renderSkinnedMeshPart mesh visibilityMask' world view proj viewPos
            isRight s)
  /\ (forall world isRight mesh,
        Part_000._renderAvatar_switch avatar visibilityMask' world view proj viewPos
          isRight (RenderPart_SkinnedMeshRenderPBS mesh) s
        = Part_000._renderSkinnedMeshPartPBS mesh visibilityMask' world view proj viewPos
            isRight s)
  /\ (forall world isRight projector,
        Part_000._renderAvatar_switch avatar visibilityMask' world view proj viewPos
          isRight (RenderPart_ProjectorRender projector) s
        = _renderProjector projector avatar visibilityMask' world view proj viewPos s).
Proof.
  split_and!; [| |done..].
  - unfold Avatar_cpp._renderAvatar, render_components. rewrite for_loopM_seq.
    apply for_each_ext. intros i t. rewrite !bind_run.
    destruct (lift _ t) as [[component|fault] t']; [|done].
    apply (for_loopM_index _ []).
  - unfold Part_000._renderAvatar, render_components. rewrite for_loopM_seq.
    apply for_each_ext. intros i t. rewrite !bind_run.
    destruct (lift _ t) as [[component|fault] t']; [|done].
    rewrite <- (for_loopM_index _ []). simpl. unfold renderPartCount.
    by destruct (decide (i = 5)) as [->|Hi];
      [rewrite bool_decide_true|rewrite bool_decide_false].
Qed.

(** C5 as stated fails on the copy inside part_000: on [avatar6], whose first
    component carries a part every viewpoint sees, the copy makes no call at
    all and leaves the state as it was, while the traversal of all six
    components reaches that part (and faults on its mesh, which is not
    loaded). *)
Lemma renderAvatar_part_000_skips_components :
  @Part_000._renderAvatar sdk_headers avatar6 1 mat4_identity mat4_identity (Vec3 0 0 0)
    false initial_state
  = (Ok tt, initial_state)
  /\ (render_components (seq 0 (ovrAvatarComponent_Count avatar6))
        (fun i world =>
           @Part_000._renderAvatar_switch sdk_headers avatar6 1 world mat4_identity
             mat4_identity (Vec3 0 0 0) (bool_decide (i = 5)))
        avatar6 initial_state).1
     = Fault NullDereference.
Proof. split; reflexivity. Qed.

(** ** Material binder: the layer table *)

Section LayerTable.
Context {headers : Headers}.

(** Writing slot [i] of a column filled up to [i] fills it up to [S i]. *)
Lemma layer_column_assign {B : Type} (f : ovrAvatarMaterialLayerState -> B) (zero : B)
    (state : ovrAvatarMaterialState) (i : nat) (layer : ovrAvatarMaterialLayerState) :
  i < OVR_AVATAR_MAX_MATERIAL_LAYER_COUNT ->
  layers state !! i = Some layer ->
  assign (layer_column f zero state i) i (f layer) = Ok (layer_column f zero state (S i)).
Proof.
  intros Hmax Hlayer. unfold layer_column.
  pose proof (lookup_lt_Some _ _ _ Hlayer) as Hlen.
  assert (Hfilled : length (f <$> take i (layers state)) = i).
  { rewrite length_fmap, length_take. lia. }
  rewrite assign_ok by (rewrite length_app, length_replicate; lia). f_equal.
  rewrite (take_S_r _ _ _ Hlayer), fmap_app. simpl.
  replace (OVR_AVATAR_MAX_MATERIAL_LAYER_COUNT - i)
    with (S (OVR_AVATAR_MAX_MATERIAL_LAYER_COUNT - S i)) by lia.
  simpl. rewrite <- app_assoc. simpl.
  rewrite insert_app_r_alt by lia. by rewrite Hfilled, Nat.sub_diag.
Qed.

Lemma layer_units_assign (textureSlot : Z) (i : nat) :
  i < OVR_AVATAR_MAX_MATERIAL_LAYER_COUNT ->
  assign (layer_units textureSlot i) i (textureSlot + Z.of_nat i)%Z
  = Ok (layer_units textureSlot (S i)).
Proof.
  intros Hmax. unfold layer_units.
  assert (Hfilled : length ((fun i => (textureSlot + Z.of_nat i)%Z) <$> seq 0 i) = i).
  { by rewrite length_fmap, length_seq. }
  rewrite assign_ok by (rewrite length_app, length_replicate; lia). f_equal.
  rewrite seq_S, fmap_app. simpl.
  replace (OVR_AVATAR_MAX_MATERIAL_LAYER_COUNT - i)
    with (S (OVR_AVATAR_MAX_MATERIAL_LAYER_COUNT - S i)) by lia.
  simpl. rewrite <- app_assoc. simpl.
  rewrite insert_app_r_alt by lia. by rewrite Hfilled, Nat.sub_diag.
Qed.

Lemma setMaterialState_body_run (state : ovrAvatarMaterialState) (textureSlot : Z)
    (i : nat) (layer : ovrAvatarMaterialLayerState) :
  i < OVR_AVATAR_MAX_MATERIAL_LAYER_COUNT ->
  layers state !! i = Some layer ->
  _setMaterialState_body state i
    (layer_table state textureSlot i, (textureSlot + Z.of_nat i)%Z)
  = Ok (layer_table state textureSlot (S i), (textureSlot + Z.of_nat (S i))%Z).
Proof.
  intros Hmax Hlayer. unfold _setMaterialState_body, layer_table.
  cbn [layerSamplerModes layerBlendModes layerMaskTypes layerColors layerSurfaces
       layerSurfaceIDs layerSurfaceScaleOffsets layerSampleParameters
       layerMaskParameters layerMaskAxes].
  rewrite (index_ok _ _ _ Hlayer). cbn [mbind res_bind].
  repeat (rewrite (layer_column_assign _ _ _ _ layer) by done; cbn [mbind res_bind]).
  rewrite layer_units_assign by done. cbn [mbind res_bind].
  repeat (rewrite (layer_column_assign _ _ _ _ layer) by done; cbn [mbind res_bind]).
  do 2 f_equal. lia.
Qed.

(** The layer loop of a material of at most the maximum layer count: the
    table is filled in its first [layerCount] slots and [textureSlot] has
    advanced by [layerCount]. *)
Lemma setMaterialState_layers_run (state : ovrAvatarMaterialState) (textureSlot : Z) :
  layerCount state <= OVR_AVATAR_MAX_MATERIAL_LAYER_COUNT ->
  layerCount state <= length (layers state) ->
  _setMaterialState_layers state textureSlot
  = Ok (layer_table state textureSlot (layerCount state),
        (textureSlot + Z.of_nat (layerCount state))%Z).
Proof.
  intros Hmax Hlayers. unfold _setMaterialState_layers.
  destruct (for_loop_invariant
    (fun i locals => locals = (layer_table state textureSlot i, (textureSlot + Z.of_nat i)%Z))
    (_setMaterialState_body state) 0 (layerCount state)
    (memset_LayerUniforms, textureSlot)) as (locals & Hrun & ->).
  - unfold memset_LayerUniforms, layer_table, layer_column, layer_units. simpl.
    rewrite Nat.sub_0_r. f_equal. lia.
  - intros i locals Hi ->.
    destruct (lookup_lt_is_Some_2 (layers state) i) as [layer Hlayer]; [lia|].
    eexists. split; [|done]. apply (setMaterialState_body_run _ _ _ layer); [lia|done].
  - done.
Qed.

End LayerTable.

(** ** The texture binders *)

Lemma bind_gl_run {B : Type} (c : gl_call) (k : unit -> M B) (s : state) :
  (gl c ≫= k) s = k tt (set_gl (gl_log s ++ [c]) (gl_names s) s).
Proof. reflexivity. Qed.

Lemma bind_get_run {A B : Type} (field : state -> A) (k : A -> M B) (s : state) :
  (get field ≫= k) s = k (field s) s.
Proof. reflexivity. Qed.

Lemma bind_lift_run {A B : Type} (a : A) (k : A -> M B) (s : state) :
  (lift (Ok a) ≫= k) s = k a s.
Proof. reflexivity. Qed.

Lemma bind_mret_run {A B : Type} (a : A) (k : A -> M B) (s : state) :
  (mret a ≫= k) s = k a s.
Proof. reflexivity. Qed.

Lemma set_assetMap_id (s : state) : set_assetMap (_assetMap s) s = s.
Proof. by destruct s. Qed.

Lemma assetMap_subscript_run (id : Z) (s : state) :
  id ≠ 0%Z ->
  assetMap_subscript id s
  = (Ok (default nullptr (_assetMap s !! id)),
     set_assetMap (cache_after_lookup id (_assetMap s)) s).
Proof.
  intros Hid. unfold assetMap_subscript, cache_after_lookup.
  rewrite decide_False by done.
  destruct (_assetMap s !! id) as [p|]; simpl; [|done]. by rewrite set_assetMap_id.
Qed.

Lemma setTextureSampler_run (program textureUnit : Z) (uniformName : string)
    (assetID texture : Z) (s : state) :
  bound_texture (_assetMap s) assetID = Some texture ->
  _setTextureSampler program textureUnit uniformName assetID s
  = (Ok tt,
     set_gl (gl_log s ++ [glActiveTexture textureUnit; glBindTexture GL_TEXTURE_2D texture;
                          glUniform1i (Uniform program uniformName) textureUnit])
       (gl_names s) s).
Proof.
  unfold bound_texture, _setTextureSampler. intros Hbound.
  destruct (decide (assetID = 0%Z)) as [->|Hid].
  - simplify_eq. rewrite decide_False by (intros H; by apply H).
    rewrite bind_mret_run, !bind_gl_run, gl_run.
    rewrite !set_gl_set_gl. simpl. by rewrite <- !app_assoc.
  - rewrite decide_True by done.
    destruct (_assetMap s !! assetID) as [[| |textureData]|] eqn:Hcache; simplify_eq.
    rewrite bind_assoc_run, bind_run, (assetMap_subscript_present _ _ _ Hcache).
    cbv beta iota. cbn [deref_TextureData].
    rewrite bind_assoc_run, bind_lift_run, bind_mret_run, !bind_gl_run, gl_run.
    rewrite !set_gl_set_gl. simpl. by rewrite <- !app_assoc.
Qed.

Lemma setTextureSamplers_body_run (textureUnits assetIDs : list Z) (i : nat)
    (textureUnit assetID : Z) (s : state) :
  textureUnits !! i = Some textureUnit ->
  assetIDs !! i = Some assetID ->
  (forall mesh, assetID ≠ 0%Z -> _assetMap s !! assetID ≠ Some (MeshPtr mesh)) ->
  _setTextureSamplers_body textureUnits assetIDs i tt s
  = (Ok tt,
     set_gl (gl_log s ++ [glActiveTexture textureUnit;
                          glBindTexture GL_TEXTURE_2D (layer_texture (_assetMap s) assetID)])
       (gl_names s)
       (set_assetMap (cache_after_lookup assetID (_assetMap s)) s)).
Proof.
  intros Hunit Hid Hmesh. unfold _setTextureSamplers_body.
  rewrite (index_ok _ _ _ Hid), bind_lift_run.
  unfold layer_texture, cache_after_lookup.
  destruct (decide (assetID = 0%Z)) as [->|Hnonzero].
  - rewrite decide_False by (intros H; by apply H).
    rewrite bind_mret_run, (index_ok _ _ _ Hunit), bind_lift_run.
    rewrite set_assetMap_id, bind_gl_run, gl_run.
    rewrite set_gl_set_gl. simpl. by rewrite <- !app_assoc.
  - rewrite decide_True by done. rewrite bind_assoc_run, bind_run.
    destruct (_assetMap s !! assetID) as [[|mesh|textureData]|] eqn:Hcache.
    + rewrite (assetMap_subscript_present _ _ _ Hcache). cbv beta iota.
      rewrite bind_mret_run, (index_ok _ _ _ Hunit), bind_lift_run.
      rewrite set_assetMap_id, bind_gl_run, gl_run.
      rewrite set_gl_set_gl. simpl. by rewrite <- !app_assoc.
    + by destruct (Hmesh mesh Hnonzero).
    + rewrite (assetMap_subscript_present _ _ _ Hcache). cbv beta iota.
      cbn [deref_TextureData].
      rewrite bind_assoc_run, bind_lift_run, bind_mret_run.
      rewrite (index_ok _ _ _ Hunit), bind_lift_run.
      rewrite set_assetMap_id, bind_gl_run, gl_run.
      rewrite set_gl_set_gl. simpl. by rewrite <- !app_assoc.
    + rewrite (assetMap_subscript_absent _ _ Hcache). cbv beta iota.
      rewrite bind_mret_run, (index_ok _ _ _ Hunit), bind_lift_run.
      rewrite bind_gl_run, gl_run. unfold set_gl, set_assetMap. simpl.
      by rewrite <- !app_assoc.
Qed.

Lemma cache_after_lookup_subseteq (id : Z) (cache : gmap Z ptr) :
  cache ⊆ cache_after_lookup id cache.
Proof.
  unfold cache_after_lookup. destruct (decide (id = 0%Z)); [done|].
  destruct (cache !! id) eqn:Hid; [done|]. by apply insert_subseteq.
Qed.

Lemma cache_after_lookup_new (id id' : Z) (p : ptr) (cache : gmap Z ptr) :
  cache_after_lookup id cache !! id' = Some p ->
  cache !! id' = None ->
  p = nullptr /\ id' = id /\ id ≠ 0%Z.
Proof.
  unfold cache_after_lookup. destruct (decide (id = 0%Z)); [congruence|].
  destruct (cache !! id) eqn:Hid; [congruence|].
  intros Hnew Hold. destruct (decide (id = id')) as [->|Hne].
  - rewrite lookup_insert_eq in Hnew. by simplify_eq.
  - rewrite lookup_insert_ne in Hnew by done. congruence.
Qed.

Lemma cache_after_lookup_present (id : Z) (cache : gmap Z ptr) :
  id ≠ 0%Z -> is_Some (cache_after_lookup id cache !! id).
Proof.
  intros Hid. unfold cache_after_lookup. rewrite decide_False by done.
  destruct (cache !! id) eqn:Hcache; [by rewrite Hcache|].
  rewrite lookup_insert_eq. by eexists.
Qed.

(** The loop of the layer-table binder over the slots [start .. start+count-1],
    none of which names a mesh: it ends without a fault, it makes only calls
    that select a unit or bind a texture, and it leaves in the cache what was
    there plus a null pointer under each nonzero id it found absent. *)
Lemma setTextureSamplers_loop (textureUnits assetIDs : list Z) (count start : nat)
    (s : state) :
  start + count <= length textureUnits ->
  start + count <= length assetIDs ->
  (forall j id mesh, start <= j < start + count -> assetIDs !! j = Some id ->
     id ≠ 0%Z -> _assetMap s !! id ≠ Some (MeshPtr mesh)) ->
  exists s' binds,
    for_loopM (_setTextureSamplers_body textureUnits assetIDs) start count tt s = (Ok tt, s')
    /\ gl_log s' = gl_log s ++ binds
    /\ Forall is_texture_bind binds
    /\ _assetMap s ⊆ _assetMap s'
    /\ (forall id p, _assetMap s' !! id = Some p -> _assetMap s !! id = None ->
          p = nullptr /\ id ≠ 0%Z
          /\ exists j, start <= j < start + count /\ assetIDs !! j = Some id)
    /\ (forall j id, start <= j < start + count -> assetIDs !! j = Some id ->
          id ≠ 0%Z -> is_Some (_assetMap s' !! id)).
Proof.
  revert start s. induction count as [|count IH]; intros start s Hunits Hids Hmesh.
  - exists s, []. simpl. rewrite app_nil_r. split_and!; try done.
    + intros id p Hnew Hold. congruence.
    + intros j id Hj. lia.
  - destruct (lookup_lt_is_Some_2 textureUnits start) as [textureUnit Hunit]; [lia|].
    destruct (lookup_lt_is_Some_2 assetIDs start) as [assetID Hid]; [lia|].
    rewrite for_loopM_succ, bind_run.
    rewrite (setTextureSamplers_body_run _ _ _ textureUnit assetID s Hunit Hid
               (fun mesh Hnonzero => Hmesh start assetID mesh ltac:(lia) Hid Hnonzero)).
    set (s1 := set_gl _ _ _).
    destruct (IH (S start) s1) as (s' & binds & Hrun & Hlog & Hbinds & Hsub & Hnew & Hall);
      [lia|lia| |].
    { intros j id mesh Hj Hjid Hnonzero Hcache. simpl in Hcache.
      destruct (_assetMap s !! id) as [p|] eqn:Hold.
      - pose proof (cache_after_lookup_subseteq assetID (_assetMap s)) as Hgrow.
        rewrite map_subseteq_spec in Hgrow. rewrite (Hgrow _ _ Hold) in Hcache.
        simplify_eq. by apply (Hmesh j id mesh); [lia|..].
      - by destruct (cache_after_lookup_new _ _ _ _ Hcache Hold) as [? _]. }
    exists s', ([glActiveTexture textureUnit;
                 glBindTexture GL_TEXTURE_2D (layer_texture (_assetMap s) assetID)] ++ binds).
    split_and!.
    + done.
    + rewrite Hlog. simpl. by rewrite <- app_assoc.
    + by repeat constructor.
    + etrans; [apply (cache_after_lookup_subseteq assetID)|done].
    + intros id p Hp Hold.
      destruct (cache_after_lookup assetID (_assetMap s) !! id) as [q|] eqn:Hmid.
      * destruct (cache_after_lookup_new _ _ _ _ Hmid Hold) as (-> & -> & Hnonzero).
        rewrite map_subseteq_spec in Hsub. rewrite (Hsub assetID nullptr) in Hp by done.
        simplify_eq. split_and!; [done..|]. exists start. split; [lia|done].
      * destruct (Hnew id p Hp Hmid) as (-> & Hnonzero & j & Hj & Hjid).
        split_and!; [done..|]. exists j. split; [lia|done].
    + intros j id Hj Hjid Hnonzero. destruct (decide (j = start)) as [->|Hne].
      * simplify_eq. destruct (cache_after_lookup_present assetID (_assetMap s) Hnonzero)
          as [p Hp].
        rewrite map_subseteq_spec in Hsub. exists p. by apply Hsub.
      * apply (Hall j); [lia|done..].
Qed.

Lemma setTextureSamplers_run (program : Z) (uniformName : string) (count : nat)
    (textureUnits assetIDs : list Z) (s : state) :
  count <= length textureUnits ->
  count <= length assetIDs ->
  (forall j id mesh, j < count -> assetIDs !! j = Some id ->
     id ≠ 0%Z -> _assetMap s !! id ≠ Some (MeshPtr mesh)) ->
  exists s' binds,
    _setTextureSamplers program uniformName count textureUnits assetIDs s = (Ok tt, s')
    /\ gl_log s' = gl_log s ++ binds
                   ++ [glUniform1iv (Uniform program uniformName) count
                         (take count textureUnits)]
    /\ Forall is_texture_bind binds
    /\ _assetMap s ⊆ _assetMap s'
    /\ (forall id p, _assetMap s' !! id = Some p -> _assetMap s !! id = None ->
          p = nullptr /\ id ≠ 0%Z /\ exists j, j < count /\ assetIDs !! j = Some id)
    /\ (forall j id, j < count -> assetIDs !! j = Some id ->
          id ≠ 0%Z -> is_Some (_assetMap s' !! id)).
Proof.
  intros Hunits Hids Hmesh.
  destruct (setTextureSamplers_loop textureUnits assetIDs count 0 s)
    as (s' & binds & Hrun & Hlog & Hbinds & Hsub & Hnew & Hall); [done|done| |].
  { intros j id mesh Hj. apply Hmesh. lia. }
  exists (set_gl (gl_log s' ++ [glUniform1iv (Uniform program uniformName) count
                                  (take count textureUnits)]) (gl_names s') s'), binds.
  split_and!; try done.
  - unfold _setTextureSamplers. rewrite bind_run, Hrun. cbv beta iota.
    rewrite read_array_ok, bind_lift_run by done. apply gl_run.
  - simpl. by rewrite Hlog, <- app_assoc.
  - intros id p Hp Hold. destruct (Hnew id p Hp Hold) as (-> & Hnonzero & j & Hj & Hjid).
    split_and!; [done..|]. exists j. split; [lia|done].
  - intros j id Hj. apply Hall. lia.
Qed.

Lemma gl_log_set_gl log names s : gl_log (set_gl log names s) = log.
Proof. reflexivity. Qed.

Lemma gl_names_set_gl log names s : gl_names (set_gl log names s) = names.
Proof. reflexivity. Qed.

Lemma assetMap_set_gl log names s : _assetMap (set_gl log names s) = _assetMap s.
Proof. reflexivity. Qed.

Lemma elapsedSeconds_set_gl log names s :
  _elapsedSeconds (set_gl log names s) = _elapsedSeconds s.
Proof. reflexivity. Qed.

(** The same steps on a state whose log and names are spelled out: each
    right-hand side mentions the state once. *)
Lemma bind_gl_nf {B : Type} (c : gl_call) (k : unit -> M B) log names s :
  (gl c ≫= k) (set_gl log names s) = k tt (set_gl (log ++ [c]) names s).
Proof. reflexivity. Qed.

Lemma gl_nf (c : gl_call) log names s :
  gl c (set_gl log names s) = (Ok tt, set_gl (log ++ [c]) names s).
Proof. reflexivity. Qed.

Lemma bind_setTextureSampler_nf {B : Type} (program textureUnit : Z) (uniformName : string)
    (assetID texture : Z) (k : unit -> M B) log names s :
  bound_texture (_assetMap s) assetID = Some texture ->
  (_setTextureSampler program textureUnit uniformName assetID ≫= k) (set_gl log names s)
  = k tt (set_gl (log ++ [glActiveTexture textureUnit; glBindTexture GL_TEXTURE_2D texture;
                          glUniform1i (Uniform program uniformName) textureUnit])
            names s).
Proof.
  intros Hbound. by rewrite bind_run, (setTextureSampler_run _ _ _ _ texture).
Qed.

Section MaterialBinder.
Context {headers : Headers}.

Lemma layer_units_length (textureSlot : Z) (k : nat) :
  k <= OVR_AVATAR_MAX_MATERIAL_LAYER_COUNT ->
  length (layer_units textureSlot k) = OVR_AVATAR_MAX_MATERIAL_LAYER_COUNT.
Proof.
  intros Hk. unfold layer_units.
  rewrite length_app, length_fmap, length_seq, length_replicate. lia.
Qed.

Lemma layer_column_length {B : Type} (f : ovrAvatarMaterialLayerState -> B) (zero : B)
    (state : ovrAvatarMaterialState) (k : nat) :
  k <= OVR_AVATAR_MAX_MATERIAL_LAYER_COUNT ->
  k <= length (layers state) ->
  length (layer_column f zero state k) = OVR_AVATAR_MAX_MATERIAL_LAYER_COUNT.
Proof.
  intros Hk Hlayers. unfold layer_column.
  rewrite length_app, length_fmap, length_take, length_replicate. lia.
Qed.

(** Slot [j] of a column holds the value of layer [j] below [k] and the zero
    from [k] on. *)
Lemma layer_column_lookup {B : Type} (f : ovrAvatarMaterialLayerState -> B) (zero : B)
    (state : ovrAvatarMaterialState) (k j : nat) (v : B) :
  k <= length (layers state) ->
  layer_column f zero state k !! j = Some v ->
  (j < k /\ exists layer, layers state !! j = Some layer /\ v = f layer)
  \/ (k <= j /\ v = zero).
Proof.
  intros Hlayers. unfold layer_column. intros Hj.
  apply lookup_app_Some in Hj as [Hj|[Hge Hj]].
  - left. rewrite list_lookup_fmap in Hj.
    destruct (take k (layers state) !! j) as [layer|] eqn:Hlayer; simplify_eq.
    apply lookup_take_Some in Hlayer as [Hlayer Hlt]. simpl in Hj. simplify_eq. split; [done|]. by exists layer.
  - right. rewrite length_fmap, length_take in Hge.
    apply lookup_replicate in Hj as [-> _]. split; [lia|done].
Qed.

(** The binder on a state whose log is [log]: it ends without a fault by
    uploading [layerCount] and the layer table. *)
Lemma setMaterialState_run (program : Z) (material : ovrAvatarMaterialState)
    (projectorInv : option mat4) (log : list gl_call) (names : Z) (s : state) :
  layerCount material <= OVR_AVATAR_MAX_MATERIAL_LAYER_COUNT ->
  length (layers material) = OVR_AVATAR_MAX_MATERIAL_LAYER_COUNT ->
  is_Some (bound_texture (_assetMap s) (alphaMaskTextureID material)) ->
  is_Some (bound_texture (_assetMap s) (normalMapTextureID material)) ->
  is_Some (bound_texture (_assetMap s) (parallaxMapTextureID material)) ->
  is_Some (bound_texture (_assetMap s) (roughnessMapTextureID material)) ->
  (forall j layer mesh, j < layerCount material -> layers material !! j = Some layer ->
     sampleTexture layer ≠ 0%Z -> _assetMap s !! sampleTexture layer ≠ Some (MeshPtr mesh)) ->
  let count := OVR_AVATAR_MAX_MATERIAL_LAYER_COUNT in
  let table := layer_table material 5 (layerCount material) in
  exists s' before binds,
    _setMaterialState program material projectorInv (set_gl log names s) = (Ok tt, s')
    /\ Forall is_texture_bind binds
    /\ gl_log s'
       = log ++ before
         ++ [glUniform1i (Uniform program "layerCount")
               (to_int32 (Z.of_nat (layerCount material)));
             glUniform1iv (Uniform program "layerSamplerModes") count
               (layerSamplerModes table);
             glUniform1iv (Uniform program "layerBlendModes") count
               (layerBlendModes table);
             glUniform1iv (Uniform program "layerMaskTypes") count
               (layerMaskTypes table);
             glUniform4fv (Uniform program "layerColors") count (layerColors table)]
         ++ binds
         ++ [glUniform1iv (Uniform program "layerSurfaces") count (layerSurfaces table);
             glUniform4fv (Uniform program "layerSurfaceScaleOffsets") count
               (layerSurfaceScaleOffsets table);
             glUniform4fv (Uniform program "layerSampleParameters") count
               (layerSampleParameters table);
             glUniform4fv (Uniform program "layerMaskParameters") count
               (layerMaskParameters table);
             glUniform4fv (Uniform program "layerMaskAxes") count (layerMaskAxes table)]
    /\ _assetMap s ⊆ _assetMap s'
    /\ (forall id p, _assetMap s' !! id = Some p -> _assetMap s !! id = None ->
          p = nullptr /\ id ≠ 0%Z
          /\ exists j layer, j < layerCount material /\ layers material !! j = Some layer
                             /\ sampleTexture layer = id)
    /\ (forall j layer, j < layerCount material -> layers material !! j = Some layer ->
          sampleTexture layer ≠ 0%Z -> is_Some (_assetMap s' !! sampleTexture layer)).
Proof.
  intros Hmax Hlayers [alpha Halpha] [normal Hnormal] [parallax Hparallax]
    [roughness Hroughness] Hmesh count table. subst count.
  assert (Htable : _setMaterialState_layers material 5
                   = Ok (table, (5 + Z.of_nat (layerCount material))%Z))
    by (apply setMaterialState_layers_run; lia).
  unfold _setMaterialState. cbv zeta.
  rewrite !bind_gl_nf, bind_get_run, bind_gl_nf.
  assert (Hprojector : exists projector, forall (k : unit -> M unit) log0,
    (match projectorInv with
     | Some projectorInv0 =>
         gl (glUniform1i (Uniform program "useProjector") 1);;
         gl (glUniformMatrix4fv (Uniform program "projectorInv") 1 [projectorInv0])
     | None => gl (glUniform1i (Uniform program "useProjector") 0)
     end ≫= k) (set_gl log0 names s)
    = k tt (set_gl (log0 ++ projector) names s)).
  { destruct projectorInv as [projectorInv0|]; eexists; intros k log0.
    - rewrite bind_assoc_run, !bind_gl_nf, <- app_assoc. reflexivity.
    - rewrite bind_gl_nf. reflexivity. }
  destruct Hprojector as [projector ->].
  rewrite !bind_gl_nf.
  rewrite (bind_setTextureSampler_nf _ _ _ _ alpha) by done. rewrite !bind_gl_nf.
  rewrite (bind_setTextureSampler_nf _ _ _ _ normal) by done. rewrite !bind_gl_nf.
  rewrite (bind_setTextureSampler_nf _ _ _ _ parallax) by done. rewrite !bind_gl_nf.
  rewrite (bind_setTextureSampler_nf _ _ _ _ roughness) by done. rewrite !bind_gl_nf.
  change (1 + 1 + 1 + 1 + 1)%Z with 5%Z.
  rewrite Htable, bind_lift_run. cbv beta iota.
  match goal with
  | |- context [set_gl ?log0 names s] =>
      assert (Hbefore : exists before, log0 = log ++ before)
        by (eexists; rewrite <- !app_assoc; reflexivity);
      destruct Hbefore as [before ->]
  end.
  rewrite !bind_gl_nf, bind_run.
  match goal with
  | |- context [_setTextureSamplers _ _ _ _ _ ?s0] =>
      destruct (setTextureSamplers_run program "layerSurfaces"
                  OVR_AVATAR_MAX_MATERIAL_LAYER_COUNT
                  (layerSurfaces table) (layerSurfaceIDs table) s0)
        as (s' & binds & Hrun & Hlog & Hbinds & Hsub & Hnew & Hall)
  end.
  { unfold table. cbn [layerSurfaces layer_table].
    rewrite layer_units_length; done. }
  { unfold table. cbn [layerSurfaceIDs layer_table].
    rewrite layer_column_length; [done|done|lia]. }
  { intros j id mesh Hj Hid Hnonzero. rewrite assetMap_set_gl.
    unfold table in Hid. cbn [layerSurfaceIDs layer_table] in Hid.
    apply layer_column_lookup in Hid as [(Hjk & layer & Hlayer & ->)|[_ ->]]; [|done|lia].
    by apply (Hmesh j). }
  rewrite Hrun. cbv beta iota. rewrite <- (set_gl_id s').
  rewrite !bind_gl_nf, gl_nf.
  rewrite assetMap_set_gl in Hsub, Hnew.
  eexists _, before, binds. split_and!; [reflexivity|done| |done| |].
  - rewrite gl_log_set_gl, Hlog, gl_log_set_gl.
    rewrite take_ge by (unfold table; cbn [layerSurfaces layer_table];
                        rewrite layer_units_length; done).
    rewrite <- !app_assoc. reflexivity.
  - rewrite assetMap_set_gl. intros id p Hp Hold.
    destruct (Hnew id p Hp Hold) as (-> & Hnonzero & j & Hj & Hid).
    split_and!; [done..|].
    unfold table in Hid. cbn [layerSurfaceIDs layer_table] in Hid.
    apply layer_column_lookup in Hid as [(Hjk & layer & Hlayer & ->)|[_ ->]]; [|done|lia].
    by exists j, layer.
  - rewrite assetMap_set_gl. intros j layer Hj Hlayer Hnonzero.
    apply (Hall j); [lia| |done].
    unfold table. cbn [layerSurfaceIDs layer_table]. unfold layer_column.
    rewrite lookup_app_l by (rewrite length_fmap, length_take; lia).
    by rewrite list_lookup_fmap, lookup_take_lt, Hlayer by done.
Qed.

(** C6. For a material of [k] layers, [k] at most the maximum layer count [M],
    the layer loop leaves a table whose first [k] slots hold the values of the
    layers (sample mode, blend mode, mask type, color, texture, scale/offset,
    sample and mask parameters) and whose other [M - k] slots are zero, layer
    [i] being given texture unit [5 + i]; and wherever the material can be
    bound (each fixed map is id 0 or a loaded texture, no layer names a mesh)
    the binder ends without a fault by uploading the layer count and this
    table, all [M] slots of every column. *)
Theorem setMaterialState_layer_table (material : ovrAvatarMaterialState) :
  layerCount material <= OVR_AVATAR_MAX_MATERIAL_LAYER_COUNT ->
  layerCount material <= length (layers material) ->
  _setMaterialState_layers material 5
  = Ok (layer_table material 5 (layerCount material),
        (5 + Z.of_nat (layerCount material))%Z)
  /\ layer_table material 5 (layerCount material)
     = {| layerSamplerModes := layer_column sampleMode 0%Z material (layerCount material);
          layerBlendModes := layer_column blendMode 0%Z material (layerCount material);
          layerMaskTypes := layer_column maskType 0%Z material (layerCount material);
          layerColors :=
            layer_column layerColor (OvrVector4f 0 0 0 0) material (layerCount material);
          layerSurfaces :=
            ((fun i => (5 + Z.of_nat i)%Z) <$> seq 0 (layerCount material))
            ++ replicate (OVR_AVATAR_MAX_MATERIAL_LAYER_COUNT - layerCount material) 0%Z;
          layerSurfaceIDs :=
            layer_column sampleTexture 0%Z material (layerCount material);
          layerSurfaceScaleOffsets :=
            layer_column sampleScaleOffset (OvrVector4f 0 0 0 0) material
              (layerCount material);
          layerSampleParameters :=
            layer_column sampleParameters (OvrVector4f 0 0 0 0) material
              (layerCount material);
          layerMaskParameters :=
            layer_column maskParameters (OvrVector4f 0 0 0 0) material
              (layerCount material);
          layerMaskAxes :=
            layer_column maskAxis (OvrVector4f 0 0 0 0) material (layerCount material) |}
  /\ (forall program projectorInv s,
        material_bindable (_assetMap s) material ->
        exists s',
          _setMaterialState program material projectorInv s = (Ok tt, s')
          /\ uploads_layer_table program (layerCount material)
               (layer_table material 5 (layerCount material)) (gl_log s) (gl_log s')).
Proof.
  intros Hmax Hfit. split_and!.
  - by apply setMaterialState_layers_run.
  - reflexivity.
  - intros program projectorInv s
      (_ & Hlayers & Halpha & Hnormal & Hparallax & Hroughness & Hmesh).
    destruct (setMaterialState_run program material projectorInv (gl_log s) (gl_names s) s
                Hmax Hlayers Halpha Hnormal Hparallax Hroughness Hmesh)
      as (s' & before & binds & Hrun & Hbinds & Hlog & _).
    rewrite set_gl_id in Hrun. exists s'. split; [exact Hrun|]. by exists before, binds.
Qed.

End MaterialBinder.

Lemma setMaterialState_layer_table_witness :
  @_setMaterialState_layers sdk_headers layered_material 5
  = Ok (@layer_table sdk_headers layered_material 5 2, (5 + Z.of_nat 2)%Z)
  /\ @layer_table sdk_headers layered_material 5 2
     = {| layerSamplerModes := @layer_column sdk_headers _ sampleMode 0%Z layered_material 2;
          layerBlendModes := @layer_column sdk_headers _ blendMode 0%Z layered_material 2;
          layerMaskTypes := @layer_column sdk_headers _ maskType 0%Z layered_material 2;
          layerColors :=
            @layer_column sdk_headers _ layerColor (OvrVector4f 0 0 0 0) layered_material 2;
          layerSurfaces :=
            ((fun i => (5 + Z.of_nat i)%Z) <$> seq 0 2) ++ replicate (8 - 2) 0%Z;
          layerSurfaceIDs :=
            @layer_column sdk_headers _ sampleTexture 0%Z layered_material 2;
          layerSurfaceScaleOffsets :=
            @layer_column sdk_headers _ sampleScaleOffset (OvrVector4f 0 0 0 0)
              layered_material 2;
          layerSampleParameters :=
            @layer_column sdk_headers _ sampleParameters (OvrVector4f 0 0 0 0)
              layered_material 2;
          layerMaskParameters :=
            @layer_column sdk_headers _ maskParameters (OvrVector4f 0 0 0 0)
              layered_material 2;
          layerMaskAxes :=
            @layer_column sdk_headers _ maskAxis (OvrVector4f 0 0 0 0) layered_material 2 |}
  /\ (forall program projectorInv s,
        @material_bindable sdk_headers (_assetMap s) layered_material ->
        exists s',
          @_setMaterialState sdk_headers program layered_material projectorInv s
          = (Ok tt, s')
          /\ @uploads_layer_table sdk_headers program 2
               (@layer_table sdk_headers layered_material 5 2) (gl_log s) (gl_log s')).
Proof.
  apply (@setMaterialState_layer_table sdk_headers layered_material); simpl; lia.
Defined.

(** The table of [layered_material]: two slots filled, six zero; the layers
    get the units 5 and 6. *)
Example layered_material_table :
  layerSurfaces (@layer_table sdk_headers layered_material 5 2)
  = [5; 6; 0; 0; 0; 0; 0; 0]%Z
  /\ layerSurfaceIDs (@layer_table sdk_headers layered_material 5 2)
     = [9; 0; 0; 0; 0; 0; 0; 0]%Z
  /\ layerSamplerModes (@layer_table sdk_headers layered_material 5 2)
     = [2; 2; 0; 0; 0; 0; 0; 0]%Z.
Proof. split_and!; reflexivity. Qed.



Lemma glm_inverse_right (m : mat4) :
  determinant m ≠ 0%R -> mat4_mul m (glm_inverse m) = mat4_identity.
Proof.
  destruct m as [[a00 a10 a20 a30] [a01 a11 a21 a31] [a02 a12 a22 a32] [a03 a13 a23 a33]].
  intros Hdet. unfold glm_inverse.
  remember (determinant _) as d eqn:Hd.
  cbv [mat4_mul mat4_mul_vec vec4_add vec4_scale mat4_of mat4_identity
    cofactor minor entry skip Nat.ltb Nat.leb Nat.even Nat.add
    col0 col1 col2 col3 v4x v4y v4z v4w vec4_get mat4_col].
  cbv [determinant cofactor minor entry skip Nat.ltb Nat.leb Nat.even Nat.add
    col0 col1 col2 col3 v4x v4y v4z v4w vec4_get mat4_col] in Hd.
  f_equal; f_equal; (field_simplify_eq; [try rewrite Hd; ring|exact Hdet]).
Qed.

(** ** Bind pose and skinning *)

(** Two world poses composed from the same skeleton agree on its joints. *)
Lemma joint_composed_agree (localPose : ovrAvatarSkinnedMeshPose)
    (world1 world2 : list cell) :
  (forall i parent, i < jointCount localPose ->
     jointParents localPose !! i = Some parent -> (parent < Z.of_nat i)%Z) ->
  (forall i, i < jointCount localPose -> joint_composed localPose world1 i) ->
  (forall i, i < jointCount localPose -> joint_composed localPose world2 i) ->
  forall i, i < jointCount localPose -> world1 !! i = world2 !! i.
Proof.
  intros Horder H1 H2 i. induction (lt_wf i) as [i _ IH]. intros Hi.
  destruct (H1 i Hi) as (t1 & p1 & Ht1 & Hp1 & Hroot1 & Hchild1).
  destruct (H2 i Hi) as (t2 & p2 & Ht2 & Hp2 & Hroot2 & Hchild2).
  simplify_eq. destruct (Z.lt_ge_cases p1 0) as [Hneg|Hpos].
  - by rewrite Hroot1, Hroot2.
  - destruct (Hchild1 Hpos) as (w1 & Hw1 & ->).
    destruct (Hchild2 Hpos) as (w2 & Hw2 & ->).
    pose proof (Horder i p1 Hi Hp1).
    rewrite (IH (Z.to_nat p1)) in Hw1 by lia. by simplify_eq.
Qed.

Lemma load_ok (a : list cell) (i : nat) (m : mat4) :
  a !! i = Some (Some m) -> load a i = Ok m.
Proof. intros Hi. unfold load. by rewrite Hi. Qed.

Lemma read_cells_ok (a : list cell) (count : nat) :
  (forall i, i < count -> exists m, a !! i = Some (Some m)) ->
  exists ms,
    read_cells a count = Ok ms
    /\ length ms = count
    /\ (forall i m, i < count -> a !! i = Some (Some m) -> ms !! i = Some m).
Proof.
  intros Hcells. unfold read_cells.
  destruct (for_loop_invariant
    (fun k acc => length acc = k
                  /\ forall i m, i < k -> a !! i = Some (Some m) -> acc !! i = Some m)
    (fun i acc => m ← load a i; Ok (acc ++ [m])) 0 count [])
    as (ms & Hrun & Hlen & Hms).
  - split; [done|]. intros i m Hi. lia.
  - intros k acc Hk [Hlen Hacc]. destruct (Hcells k) as [m Hm]; [lia|].
    unfold load. rewrite Hm. simpl. eexists. split; [done|]. split.
    + rewrite length_app. simpl. lia.
    + intros i m' Hi Hm'. destruct (decide (i = k)) as [->|Hne].
      * assert (m' = m) as -> by congruence.
        rewrite lookup_app_r by lia. by rewrite Hlen, Nat.sub_diag.
      * rewrite lookup_app_l by lia. apply Hacc; [lia|done].
  - by exists ms.
Qed.

Lemma bind_glGen_nf {B : Type} (c : Z -> gl_call) (k : Z -> M B) log names s :
  (glGen c ≫= k) (set_gl log names s)
  = k (names + 1)%Z (set_gl (log ++ [c (names + 1)%Z]) (names + 1)%Z s).
Proof. reflexivity. Qed.

Lemma mret_nf {A : Type} (a : A) (s : state) : (mret a : M A) s = (Ok a, s).
Proof. reflexivity. Qed.

Section Skinning.
Context {headers : Headers}.

(** The mesh [_loadMesh] builds from a well-formed bind skeleton of at most
    the maximum joint count: its bind pose is the world pose of the skeleton
    and it caches the inverse of the bind matrix of every joint. *)
Lemma loadMesh_run (data : ovrAvatarMeshAssetData) (log : list gl_call) (names : Z)
    (s : state) :
  jointCount (skinnedBindPose data) <= OVR_AVATAR_MAXIMUM_JOINT_COUNT ->
  jointCount (skinnedBindPose data) <= length (jointTransform (skinnedBindPose data)) ->
  jointCount (skinnedBindPose data) <= length (jointParents (skinnedBindPose data)) ->
  (forall i parent, i < jointCount (skinnedBindPose data) ->
     jointParents (skinnedBindPose data) !! i = Some parent -> (parent < Z.of_nat i)%Z) ->
  exists mesh calls,
    _loadMesh data (set_gl log names s)
    = (Ok mesh, set_gl (log ++ calls) (names + 1 + 1 + 1)%Z s)
    /\ length (inverseBindPose mesh) = OVR_AVATAR_MAXIMUM_JOINT_COUNT
    /\ (forall i, i < jointCount (skinnedBindPose data) ->
          joint_composed (skinnedBindPose data) (bindPose mesh) i)
    /\ (forall i, i < jointCount (skinnedBindPose data) ->
          exists bind_i,
            bindPose mesh !! i = Some (Some bind_i)
            /\ inverseBindPose mesh !! i = Some (Some (glm_inverse bind_i))).
Proof.
  intros Hmax Htransforms Hparents Horder.
  destruct (computeWorldPose_correct (skinnedBindPose data) (bindPose new_MeshData))
    as (world & Hworld & Hlen & Hcomposed & _); try done.
  { simpl. by rewrite length_replicate. }
  simpl in Hlen. rewrite length_replicate in Hlen.
  destruct (for_loop_invariant
    (fun k inverses =>
       length inverses = OVR_AVATAR_MAXIMUM_JOINT_COUNT
       /\ forall i, i < k ->
            exists bind_i, world !! i = Some (Some bind_i)
                           /\ inverses !! i = Some (Some (glm_inverse bind_i)))
    (fun i inverses => bind_i ← load world i; store inverses i (glm_inverse bind_i))
    0 (jointCount (skinnedBindPose data)) (inverseBindPose new_MeshData))
    as (inverses & Hinverses & Hlength & Hinverse).
  { simpl. rewrite length_replicate. split; [done|]. intros i Hi. lia. }
  { intros k inverses Hk [Hlength Hdone].
    destruct (joint_composed_written _ _ _ (Hcomposed k ltac:(lia))) as [bind_k Hbind].
    cbv beta. rewrite (load_ok world k bind_k) by done. simpl. unfold store.
    rewrite decide_True by lia.
    eexists. split; [done|]. split; [by rewrite length_insert|].
    intros i Hi. destruct (decide (i = k)) as [->|Hne].
    - exists bind_k. split; [done|]. apply list_lookup_insert_eq. lia.
    - destruct (Hdone i) as (bind_i & Hbind_i & Hinv_i); [lia|].
      exists bind_i. split; [done|]. by rewrite list_lookup_insert_ne. }
  unfold _loadMesh. cbv zeta.
  rewrite !bind_glGen_nf, !bind_gl_nf.
  rewrite Hworld, bind_lift_run, Hinverses, bind_lift_run, mret_nf.
  eexists _, _. split.
  { rewrite <- !app_assoc. reflexivity. }
  by split_and!.
Qed.

(** [_setMeshState] on a loaded mesh and a well-formed pose: it ends without
    a fault and uploads, as [meshPose], the world matrix of every joint of
    the pose times the cached inverse bind matrix of that joint. *)
Lemma setMeshState_run (program : Z) (localTransform : ovrAvatarTransform)
    (mesh : MeshData) (pose : ovrAvatarSkinnedMeshPose) (world view proj : mat4)
    (viewPos : vec3) (log : list gl_call) (names : Z) (s : state) :
  jointCount pose <= length (jointTransform pose) ->
  jointCount pose <= length (jointParents pose) ->
  (forall i parent, i < jointCount pose ->
     jointParents pose !! i = Some parent -> (parent < Z.of_nat i)%Z) ->
  (forall i, i < jointCount pose -> exists inverse_i,
     inverseBindPose mesh !! i = Some (Some inverse_i)) ->
  exists worldPose meshPose,
    _setMeshState program localTransform (MeshPtr mesh) pose world view proj viewPos
      (set_gl log names s)
    = (Ok tt,
       set_gl (log ++ [glUniform3fv (Uniform program "viewPos") viewPos;
                       glUniformMatrix4fv (Uniform program "world") 1
                         [mat4_mul world (_glmFromOvrAvatarTransform localTransform)];
                       glUniformMatrix4fv (Uniform program "viewProj") 1
                         [mat4_mul proj view];
                       glUniformMatrix4fv (Uniform program "meshPose") (jointCount pose)
                         meshPose])
         names s)
    /\ length meshPose = jointCount pose
    /\ (forall i, i < jointCount pose -> joint_composed pose worldPose i)
    /\ (forall i, i < jointCount pose ->
          exists world_i inverse_i,
            worldPose !! i = Some (Some world_i)
            /\ inverseBindPose mesh !! i = Some (Some inverse_i)
            /\ meshPose !! i = Some (mat4_mul world_i inverse_i)).
Proof.
  intros Htransforms Hparents Horder Hinverses.
  destruct (computeWorldPose_correct pose (replicate (jointCount pose) None))
    as (worldPose & Hworld & Hlen & Hcomposed & _); try done.
  { by rewrite length_replicate. }
  rewrite length_replicate in Hlen.
  destruct (for_loop_invariant
    (fun k skinned =>
       length skinned = jointCount pose
       /\ (forall i, i < k ->
             exists world_i inverse_i,
               worldPose !! i = Some (Some world_i)
               /\ inverseBindPose mesh !! i = Some (Some inverse_i)
               /\ skinned !! i = Some (Some (mat4_mul world_i inverse_i)))
       /\ (forall i, k <= i -> skinned !! i = worldPose !! i))
    (fun i skinnedPoses =>
       skinned_i ← load skinnedPoses i;
       mesh0 ← deref_MeshData (MeshPtr mesh);
       inverse_i ← load (inverseBindPose mesh0) i;
       store skinnedPoses i (mat4_mul skinned_i inverse_i))
    0 (jointCount pose) worldPose)
    as (skinned & Hskinned & Hlength & Hskin & _).
  { split_and!; [done| |done]. intros i Hi. lia. }
  { intros k skinned Hk (Hlength & Hdone & Hrest).
    destruct (joint_composed_written _ _ _ (Hcomposed k ltac:(lia))) as [world_k Hworld_k].
    destruct (Hinverses k) as [inverse_k Hinverse_k]; [lia|].
    cbv beta. rewrite (load_ok skinned k world_k) by (by rewrite Hrest).
    simpl. rewrite (load_ok _ k inverse_k) by done. simpl.
    unfold store. rewrite decide_True by lia.
    eexists. split; [done|]. split_and!.
    - by rewrite length_insert.
    - intros i Hi. destruct (decide (i = k)) as [->|Hne].
      + exists world_k, inverse_k. split_and!; [done..|].
        apply list_lookup_insert_eq. lia.
      + destruct (Hdone i) as (world_i & inverse_i & ? & ? & ?); [lia|].
        exists world_i, inverse_i. split_and!; [done..|].
        by rewrite list_lookup_insert_ne.
    - intros i Hi. rewrite list_lookup_insert_ne by lia. apply Hrest. lia. }
  destruct (read_cells_ok skinned (jointCount pose)) as (meshPose & Hread & Hcount & HmeshPose).
  { intros i Hi. destruct (Hskin i) as (world_i & inverse_i & _ & _ & Hi'); [lia|].
    by eexists. }
  exists worldPose, meshPose.
  unfold _setMeshState. cbv zeta.
  rewrite Hworld, bind_lift_run, Hskinned, bind_lift_run.
  rewrite !bind_gl_nf, Hread, bind_lift_run, gl_nf.
  split_and!; [|done|done|].
  - rewrite <- !app_assoc. reflexivity.
  - intros i Hi. destruct (Hskin i) as (world_i & inverse_i & Hw & Hinv & Hi'); [lia|].
    exists world_i, inverse_i. split_and!; [done..|]. by apply HmeshPose.
Qed.

(** In exact arithmetic, for a mesh loaded from a well-formed bind skeleton of
    at most the maximum joint count and drawn in its bind pose, the skin
    matrix uploaded for joint [i] is the bind world matrix of the joint times
    its cached [glm::inverse]: the identity matrix for every joint whose bind
    world matrix has a nonzero determinant. *)
Lemma bind_pose_skin_identity_exact (data : ovrAvatarMeshAssetData) (program : Z)
    (localTransform : ovrAvatarTransform) (world view proj : mat4) (viewPos : vec3)
    (s s2 : state) :
  jointCount (skinnedBindPose data) <= OVR_AVATAR_MAXIMUM_JOINT_COUNT ->
  jointCount (skinnedBindPose data) <= length (jointTransform (skinnedBindPose data)) ->
  jointCount (skinnedBindPose data) <= length (jointParents (skinnedBindPose data)) ->
  (forall i parent, i < jointCount (skinnedBindPose data) ->
     jointParents (skinnedBindPose data) !! i = Some parent -> (parent < Z.of_nat i)%Z) ->
  exists mesh s1 meshPose,
    _loadMesh data s = (Ok mesh, s1)
    /\ _setMeshState program localTransform (MeshPtr mesh) (skinnedBindPose data)
         world view proj viewPos s2
       = (Ok tt,
          set_gl (gl_log s2
                  ++ [glUniform3fv (Uniform program "viewPos") viewPos;
                      glUniformMatrix4fv (Uniform program "world") 1
                        [mat4_mul world (_glmFromOvrAvatarTransform localTransform)];
                      glUniformMatrix4fv (Uniform program "viewProj") 1
                        [mat4_mul proj view];
                      glUniformMatrix4fv (Uniform program "meshPose")
                        (jointCount (skinnedBindPose data)) meshPose])
            (gl_names s2) s2)
    /\ length meshPose = jointCount (skinnedBindPose data)
    /\ (forall i, i < jointCount (skinnedBindPose data) ->
          exists bind_i,
            bindPose mesh !! i = Some (Some bind_i)
            /\ meshPose !! i = Some (mat4_mul bind_i (glm_inverse bind_i))
            /\ (determinant bind_i ≠ 0%R -> meshPose !! i = Some mat4_identity)).
Proof.
  intros Hmax Htransforms Hparents Horder.
  destruct (loadMesh_run data (gl_log s) (gl_names s) s Hmax Htransforms Hparents Horder)
    as (mesh & calls & Hload & Hlength & Hbind & Hinverse).
  rewrite set_gl_id in Hload.
  assert (Hinverses : forall i, i < jointCount (skinnedBindPose data) ->
            exists inverse_i, inverseBindPose mesh !! i = Some (Some inverse_i)).
  { intros i Hi. destruct (Hinverse i Hi) as (bind_i & _ & Hinv). by eexists. }
  destruct (setMeshState_run program localTransform mesh (skinnedBindPose data)
              world view proj viewPos (gl_log s2) (gl_names s2) s2
              Htransforms Hparents Horder Hinverses)
    as (worldPose & meshPose & Hrun & Hcount & Hcomposed & Hskin).
  rewrite set_gl_id in Hrun.
  eexists mesh, _, meshPose.
  split; [exact Hload|]. split; [exact Hrun|]. split; [exact Hcount|].
  intros i Hi.
  destruct (Hinverse i Hi) as (bind_i & Hbind_i & Hinv).
  destruct (Hskin i Hi) as (world_i & inverse_i & Hworld_i & Hinverse_i & Hmesh_i).
  rewrite (joint_composed_agree _ _ _ Horder Hcomposed Hbind i Hi) in Hworld_i.
  rewrite Hbind_i in Hworld_i. injection Hworld_i as <-.
  rewrite Hinv in Hinverse_i. injection Hinverse_i as <-.
  exists bind_i. split; [exact Hbind_i|]. split; [exact Hmesh_i|].
  intros Hdet. rewrite Hmesh_i. f_equal. by apply glm_inverse_right.
Qed.

End Skinning.

Example bind_pose_skin_identity_exact_chain3 :
  exists mesh s1 meshPose,
    @_loadMesh sdk_headers (OvrMeshAssetData 0 0 0 0 chain3) initial_state = (Ok mesh, s1)
    /\ _setMeshState 1 (translation 0 0 0) (MeshPtr mesh) chain3
         mat4_identity mat4_identity mat4_identity (Vec3 0 0 0) initial_state
       = (Ok tt,
          set_gl (gl_log initial_state
                  ++ [glUniform3fv (Uniform 1 "viewPos") (Vec3 0 0 0);
                      glUniformMatrix4fv (Uniform 1 "world") 1
                        [mat4_mul mat4_identity
                           (_glmFromOvrAvatarTransform (translation 0 0 0))];
                      glUniformMatrix4fv (Uniform 1 "viewProj") 1
                        [mat4_mul mat4_identity mat4_identity];
                      glUniformMatrix4fv (Uniform 1 "meshPose") 3 meshPose])
            (gl_names initial_state) initial_state)
    /\ length meshPose = 3
    /\ (forall i, i < 3 ->
          exists bind_i,
            bindPose mesh !! i = Some (Some bind_i)
            /\ meshPose !! i = Some (mat4_mul bind_i (glm_inverse bind_i))
            /\ (determinant bind_i ≠ 0%R -> meshPose !! i = Some mat4_identity)).
Proof.
  apply (@bind_pose_skin_identity_exact sdk_headers (OvrMeshAssetData 0 0 0 0 chain3) 1
           (translation 0 0 0) mat4_identity mat4_identity mat4_identity (Vec3 0 0 0)
           initial_state initial_state).
  - simpl. lia.
  - simpl. lia.
  - simpl. lia.
  - intros [|[|[|i]]] parent Hi Hparent; simpl in Hi, Hparent;
      [injection Hparent as <-..|]; lia.
Qed.

(** *** In binary32

    In this section the names are those of [Binary32]. *)

Section SkinningRounded.
Import Binary32.









End SkinningRounded.



(** On the three-joint chain of section 8, whose matrices are translations by
    whole numbers, no operation rounds and the skin matrices uploaded in the
    bind pose equal the identity. *)
Example skin_in_bind_pose_chain3 :
  exists skin0 skin1 skin2,
    Binary32.skin_in_bind_pose Binary32.chain3 = Ok [skin0; skin1; skin2]
    /\ Binary32.mat4_eqb skin0 Binary32.mat4_identity = true
    /\ Binary32.mat4_eqb skin1 Binary32.mat4_identity = true
    /\ Binary32.mat4_eqb skin2 Binary32.mat4_identity = true.
Proof.
  eexists _, _, _. split; [vm_compute; reflexivity|]. split_and!; vm_compute; reflexivity.
Qed.

(** ** The asset cache during rendering *)

Lemma keeps_cache_bind {A B : Type} (m : M A) (k : A -> M B) :
  keeps_cache m -> (forall a, keeps_cache (k a)) -> keeps_cache (m ≫= k).
Proof.
  intros Hm Hk s. rewrite bind_run. specialize (Hm s).
  destruct (m s) as [[a|f] s']; simpl in *; [|done].
  etrans; [exact Hm|apply Hk].
Qed.

Lemma keeps_cache_gl (c : gl_call) : keeps_cache (gl c).
Proof. by intros s. Qed.

Lemma keeps_cache_get {A : Type} (field : state -> A) : keeps_cache (get field).
Proof. by intros s. Qed.

Lemma keeps_cache_lift {A : Type} (r : res A) : keeps_cache (lift r).
Proof. by intros s. Qed.

Lemma keeps_cache_mret {A : Type} (a : A) : keeps_cache (mret a : M A).
Proof. by intros s. Qed.

Lemma keeps_cache_subscript (id : Z) : keeps_cache (assetMap_subscript id).
Proof.
  intros s. unfold assetMap_subscript.
  destruct (_assetMap s !! id) eqn:Hid; simpl; [done|]. by apply insert_subseteq.
Qed.

Lemma keeps_cache_for_loopM {L : Type} (body : nat -> L -> M L) (start count : nat)
    (locals : L) :
  (forall i l, keeps_cache (body i l)) -> keeps_cache (for_loopM body start count locals).
Proof.
  intros Hbody. revert start locals.
  induction count as [|count IH]; intros start locals; [apply keeps_cache_mret|].
  rewrite for_loopM_succ. apply keeps_cache_bind; [apply Hbody|intros l; apply IH].
Qed.

(** Decomposes a computation into the steps above. *)
Ltac keeps_cache_step :=
  lazymatch goal with
  | |- keeps_cache (gl _) => apply keeps_cache_gl
  | |- keeps_cache (get _) => apply keeps_cache_get
  | |- keeps_cache (lift _) => apply keeps_cache_lift
  | |- keeps_cache (mret _) => apply keeps_cache_mret
  | |- keeps_cache (assetMap_subscript _) => apply keeps_cache_subscript
  | |- keeps_cache (mbind _ _) => apply keeps_cache_bind; [|intros ?]
  | |- keeps_cache (for_loopM _ _ _ _) => apply keeps_cache_for_loopM; intros ? ?
  | |- keeps_cache (if ?b then _ else _) => destruct b
  | |- keeps_cache (match ?x with _ => _ end) => destruct x
  | |- keeps_cache (let '(_, _) := ?x in _) => destruct x
  end.

Ltac keeps_cache := repeat keeps_cache_step.

Lemma keeps_cache_setTextureSampler program textureUnit uniformName assetID :
  keeps_cache (_setTextureSampler program textureUnit uniformName assetID).
Proof. unfold _setTextureSampler. keeps_cache. Qed.

Lemma keeps_cache_setTextureSamplers program uniformName count textureUnits assetIDs :
  keeps_cache (_setTextureSamplers program uniformName count textureUnits assetIDs).
Proof.
  unfold _setTextureSamplers. keeps_cache.
  unfold _setTextureSamplers_body. keeps_cache.
Qed.

Lemma keeps_cache_setMeshState program localTransform data pose world view proj viewPos :
  keeps_cache (_setMeshState program localTransform data pose world view proj viewPos).
Proof. unfold _setMeshState. cbv zeta. keeps_cache. Qed.

Lemma keeps_cache_setMaterialState {headers : Headers} program material projectorInv :
  keeps_cache (_setMaterialState program material projectorInv).
Proof.
  unfold _setMaterialState. cbv zeta.
  repeat lazymatch goal with
         | |- keeps_cache (_setTextureSampler _ _ _ _) => apply keeps_cache_setTextureSampler
         | |- keeps_cache (_setTextureSamplers _ _ _ _ _) =>
             apply keeps_cache_setTextureSamplers
         | |- _ => keeps_cache_step
         end.
Qed.

Lemma keeps_cache_renderPose worldViewProj pose :
  keeps_cache (Avatar_cpp._renderPose worldViewProj pose).
Proof.
  unfold Avatar_cpp._renderPose. cbv zeta. keeps_cache.
  unfold Avatar_cpp._renderDebugLine. keeps_cache.
Qed.


Lemma always_faults_bind_l {A B : Type} (m : M A) (k : A -> M B) :
  always_faults m -> always_faults (m ≫= k).
Proof.
  intros Hm s. rewrite bind_run. destruct (Hm s) as [f Hf].
  destruct (m s) as [[a|f'] s']; simpl in *; [done|by eexists].
Qed.

Lemma always_faults_bind_r {A B : Type} (m : M A) (k : A -> M B) :
  (forall a, always_faults (k a)) -> always_faults (m ≫= k).
Proof.
  intros Hk s. rewrite bind_run.
  destruct (m s) as [[a|f'] s']; simpl; [apply Hk|by eexists].
Qed.

Lemma always_faults_lift {A : Type} (f : fault) : always_faults (lift (Fault f) : M A).
Proof. intros s. by exists f. Qed.

Lemma keeps_cache_lookup {A : Type} (m : M A) (s : state) (id : Z) (p : ptr) :
  keeps_cache m -> _assetMap s !! id = Some p -> _assetMap (m s).2 !! id = Some p.
Proof.
  intros Hm Hid. specialize (Hm s). rewrite map_subseteq_spec in Hm. by apply Hm.
Qed.

Ltac always_faults :=
  repeat lazymatch goal with
         | |- always_faults (mbind _ (lift (deref_MeshData nullptr))) =>
             apply always_faults_bind_l; apply always_faults_lift
         | |- always_faults (mbind _ _) => apply always_faults_bind_r; intros ?
         end.

Lemma bind_get_program_nf {B : Type} (k : Z -> M B) log names s :
  (get _skinnedMeshProgram ≫= k) (set_gl log names s)
  = k (_skinnedMeshProgram s) (set_gl log names s).
Proof. reflexivity. Qed.

Section CacheGrowth.
Context {headers : Headers}.

(** What [_renderSkinnedMeshPart] does after its cache lookup returned a null
    pointer: it faults, and it keeps the cache it was given. *)
Lemma renderSkinnedMeshPart_null_mesh
    (mesh : ovrAvatarRenderPart_SkinnedMeshRender) (visibilityMask' : Z)
    (world view proj : mat4) (viewPos : vec3) (renderJoints : bool) (s : state) :
  Z.land (visibilityMask mesh) visibilityMask' ≠ 0%Z ->
  _assetMap s !! meshAssetID mesh = None ->
  exists f s',
    Avatar_cpp._renderSkinnedMeshPart mesh visibilityMask' world view proj viewPos
      renderJoints s = (Fault f, s')
    /\ _assetMap s' !! meshAssetID mesh = Some nullptr.
Proof.
  intros Hvisible Habsent. unfold Avatar_cpp._renderSkinnedMeshPart.
  rewrite (proj2 (Z.eqb_neq _ _) Hvisible).
  rewrite bind_run, (assetMap_subscript_absent _ _ Habsent). cbv beta iota.
  set (s1 := set_assetMap _ _).
  match goal with |- context [?m s1] => set (rest := m) end.
  assert (Hkeeps : keeps_cache rest).
  { subst rest.
    repeat lazymatch goal with
           | |- keeps_cache (_setMeshState _ _ _ _ _ _ _ _) => apply keeps_cache_setMeshState
           | |- keeps_cache (_setMaterialState _ _ _) => apply keeps_cache_setMaterialState
           | |- keeps_cache (Avatar_cpp._renderPose _ _) => apply keeps_cache_renderPose
           | |- _ => keeps_cache_step
           end. }
  assert (Hfaults : always_faults rest) by (subst rest; always_faults).
  destruct (Hfaults s1) as [f Hf].
  pose proof (keeps_cache_lookup rest s1 (meshAssetID mesh) nullptr Hkeeps) as Hkept.
  destruct (rest s1) as [r s']. simpl in Hf, Hkept. subst r.
  exists f, s'. split; [done|]. apply Hkept. subst s1. simpl. apply lookup_insert_eq.
Qed.

(** One visible skinned mesh part whose mesh is loaded, drawn without the
    joint lines: the part is rendered without a fault, and the cache then
    holds what it held plus a null pointer under each layer texture that was
    not loaded. *)
Lemma renderSkinnedMeshPart_run
    (mesh : ovrAvatarRenderPart_SkinnedMeshRender) (meshData : MeshData)
    (visibilityMask' : Z) (world view proj : mat4) (viewPos : vec3)
    (log : list gl_call) (names : Z) (s : state) :
  Z.land (visibilityMask mesh) visibilityMask' ≠ 0%Z ->
  _assetMap s !! meshAssetID mesh = Some (MeshPtr meshData) ->
  jointCount (skinnedPose mesh) <= length (jointTransform (skinnedPose mesh)) ->
  jointCount (skinnedPose mesh) <= length (jointParents (skinnedPose mesh)) ->
  (forall i parent, i < jointCount (skinnedPose mesh) ->
     jointParents (skinnedPose mesh) !! i = Some parent -> (parent < Z.of_nat i)%Z) ->
  (forall i, i < jointCount (skinnedPose mesh) -> exists inverse_i,
     inverseBindPose meshData !! i = Some (Some inverse_i)) ->
  layerCount (materialState mesh) <= OVR_AVATAR_MAX_MATERIAL_LAYER_COUNT ->
  length (layers (materialState mesh)) = OVR_AVATAR_MAX_MATERIAL_LAYER_COUNT ->
  is_Some (bound_texture (_assetMap s) (alphaMaskTextureID (materialState mesh))) ->
  is_Some (bound_texture (_assetMap s) (normalMapTextureID (materialState mesh))) ->
  is_Some (bound_texture (_assetMap s) (parallaxMapTextureID (materialState mesh))) ->
  is_Some (bound_texture (_assetMap s) (roughnessMapTextureID (materialState mesh))) ->
  (forall j layer mesh0, j < layerCount (materialState mesh) ->
     layers (materialState mesh) !! j = Some layer ->
     sampleTexture layer ≠ 0%Z ->
     _assetMap s !! sampleTexture layer ≠ Some (MeshPtr mesh0)) ->
  exists s',
    Avatar_cpp._renderSkinnedMeshPart mesh visibilityMask' world view proj viewPos false
      (set_gl log names s) = (Ok tt, s')
    /\ _assetMap s ⊆ _assetMap s'
    /\ (forall id p, _assetMap s' !! id = Some p -> _assetMap s !! id = None ->
          p = nullptr)
    /\ (forall j layer, j < layerCount (materialState mesh) ->
          layers (materialState mesh) !! j = Some layer ->
          sampleTexture layer ≠ 0%Z ->
          is_Some (_assetMap s' !! sampleTexture layer)).
Proof.
  intros Hvisible Hmesh Htransforms Hparents Horder Hinverses Hmax Hlayers
    Halpha Hnormal Hparallax Hroughness Hnomesh.
  unfold Avatar_cpp._renderSkinnedMeshPart.
  rewrite (proj2 (Z.eqb_neq _ _) Hvisible).
  rewrite bind_run, (assetMap_subscript_present _ (MeshPtr meshData)) by exact Hmesh.
  cbv beta iota. rewrite bind_get_program_nf, bind_gl_nf.
  destruct (setMeshState_run (_skinnedMeshProgram s) (localTransform mesh) meshData
              (skinnedPose mesh) world view proj viewPos
              (log ++ [glUseProgram (_skinnedMeshProgram s)]) names s
              Htransforms Hparents Horder Hinverses)
    as (worldPose & meshPose & Hstate & _).
  rewrite bind_run, Hstate. cbv beta iota. clear Hstate.
  match goal with
  | |- context [set_gl ?log1 names s] =>
      destruct (setMaterialState_run (_skinnedMeshProgram s) (materialState mesh) None
                  log1 names s Hmax Hlayers Halpha Hnormal Hparallax Hroughness Hnomesh)
        as (s2 & before & binds & Hmaterial & _ & _ & Hsub & Hnew & Hall)
  end.
  rewrite bind_run, Hmaterial. cbv beta iota. clear Hmaterial.
  cbn [deref_MeshData]. rewrite bind_lift_run.
  rewrite <- (set_gl_id s2). rewrite !bind_gl_nf.
  assert (Hdone : forall (b : bool) log2,
    exists log3,
      ((if b
        then gl (glDepthMask true);;
             gl (glColorMaski 0 false false false false);;
             gl (glDrawElements GL_TRIANGLES (to_int32 (elementCount meshData))
                   GL_UNSIGNED_SHORT);;
             gl (glDepthFunc GL_EQUAL)
        else mret tt);;
       gl (glDepthMask false);;
       gl (glColorMaski 0 true true true true);;
       gl (glDrawElements GL_TRIANGLES (to_int32 (elementCount meshData)) GL_UNSIGNED_SHORT);;
       gl (glBindVertexArray 0);;
       mret tt) (set_gl log2 (gl_names s2) s2)
      = (Ok tt, set_gl log3 (gl_names s2) s2)).
  { intros [|] log2; eexists.
    - rewrite bind_assoc_run, bind_gl_nf, bind_assoc_run, bind_gl_nf, bind_assoc_run,
        bind_gl_nf, !bind_gl_nf, mret_nf. reflexivity.
    - rewrite bind_mret_run, !bind_gl_nf, mret_nf. reflexivity. }
  match goal with
  | |- context [(if ?b then _ else _) ≫= _] =>
      match goal with
      | |- context [set_gl ?log2 (gl_names s2) s2] =>
          destruct (Hdone b log2) as [log3 Hend]
      end
  end.
  rewrite Hend. eexists. split; [reflexivity|]. rewrite assetMap_set_gl.
  split_and!; [done| |done].
  intros id p Hp Hold. by destruct (Hnew id p Hp Hold) as [-> _].
Qed.

(** C10. For an asset id absent from the cache, reading [_assetMap[id]]
    inserts the pair (id, null pointer). Rendering a visible skinned mesh part
    whose mesh is this id makes that lookup: the part faults on the null mesh
    and the cache then holds the id with a null pointer. Rendering a drawable
    part one of whose layers samples this id (nonzero) ends without a fault,
    and the cache then holds the id with a null pointer, keeps every entry it
    had and has a strictly larger key set, though no loader inserted. *)
Theorem render_lookup_grows_cache (id : Z) (s : state) :
  _assetMap s !! id = None ->
  assetMap_subscript id s
  = (Ok nullptr, set_assetMap (<[id := nullptr]> (_assetMap s)) s)
  /\ (forall mesh visibilityMask' world view proj viewPos renderJoints,
        meshAssetID mesh = id ->
        Z.land (visibilityMask mesh) visibilityMask' ≠ 0%Z ->
        exists f s',
          Avatar_cpp._renderSkinnedMeshPart mesh visibilityMask' world view proj viewPos
            renderJoints s = (Fault f, s')
          /\ _assetMap s' !! id = Some nullptr)
  /\ (forall mesh visibilityMask' world view proj viewPos j layer,
        part_drawable (_assetMap s) mesh visibilityMask' ->
        j < layerCount (materialState mesh) ->
        layers (materialState mesh) !! j = Some layer ->
        sampleTexture layer = id ->
        id ≠ 0%Z ->
        exists s',
          Avatar_cpp._renderSkinnedMeshPart mesh visibilityMask' world view proj viewPos
            false s = (Ok tt, s')
          /\ _assetMap s' !! id = Some nullptr
          /\ _assetMap s ⊆ _assetMap s'
          /\ dom (_assetMap s) ⊂ dom (_assetMap s')).
Proof.
  intros Habsent. split_and!.
  - by apply assetMap_subscript_absent.
  - intros mesh visibilityMask' world view proj viewPos renderJoints <- Hvisible.
    by apply renderSkinnedMeshPart_null_mesh.
  - intros mesh visibilityMask' world view proj viewPos j layer
      (Hvisible & (meshData & Hmesh & Hinverses) & (Htransforms & Hparents & Horder)
       & Hmax & Hlayers & Halpha & Hnormal & Hparallax & Hroughness & Hnomesh)
      Hj Hlayer <- Hid.
    destruct (renderSkinnedMeshPart_run mesh meshData visibilityMask' world view proj
                viewPos (gl_log s) (gl_names s) s Hvisible Hmesh Htransforms Hparents
                Horder Hinverses Hmax Hlayers Halpha Hnormal Hparallax Hroughness Hnomesh)
      as (s' & Hrun & Hsub & Hnew & Hall).
    rewrite set_gl_id in Hrun. exists s'.
    destruct (Hall j layer Hj Hlayer Hid) as [p Hp].
    assert (Hnull : _assetMap s' !! sampleTexture layer = Some nullptr).
    { by rewrite Hp, (Hnew _ _ Hp Habsent). }
    split_and!; [exact Hrun|exact Hnull|exact Hsub|].
    split; [by apply subseteq_dom|].
    intros Hdom. apply (not_elem_of_dom_2 _ _ Habsent), Hdom.
    apply elem_of_dom. by eexists.
Qed.

End CacheGrowth.

Lemma render_lookup_grows_cache_witness :
  assetMap_subscript 9 mesh_loaded_state
  = (Ok nullptr,
     set_assetMap (<[9%Z := nullptr]> (_assetMap mesh_loaded_state)) mesh_loaded_state)
  /\ (forall mesh visibilityMask' world view proj viewPos renderJoints,
        meshAssetID mesh = 9%Z ->
        Z.land (visibilityMask mesh) visibilityMask' ≠ 0%Z ->
        exists f s',
          @Avatar_cpp._renderSkinnedMeshPart sdk_headers mesh visibilityMask' world view
            proj viewPos renderJoints mesh_loaded_state = (Fault f, s')
          /\ _assetMap s' !! 9%Z = Some nullptr)
  /\ (forall mesh visibilityMask' world view proj viewPos j layer,
        @part_drawable sdk_headers (_assetMap mesh_loaded_state) mesh visibilityMask' ->
        j < layerCount (materialState mesh) ->
        layers (materialState mesh) !! j = Some layer ->
        sampleTexture layer = 9%Z ->
        9%Z ≠ 0%Z ->
        exists s',
          @Avatar_cpp._renderSkinnedMeshPart sdk_headers mesh visibilityMask' world view
            proj viewPos false mesh_loaded_state = (Ok tt, s')
          /\ _assetMap s' !! 9%Z = Some nullptr
          /\ _assetMap mesh_loaded_state ⊆ _assetMap s'
          /\ dom (_assetMap mesh_loaded_state) ⊂ dom (_assetMap s')).
Proof.
  apply (@render_lookup_grows_cache sdk_headers 9 mesh_loaded_state). reflexivity.
Defined.

(** [layered_part] is drawable once its mesh is loaded: one frame that
    renders it ends without a fault and leaves texture asset 9, which no
    loader inserted, in the cache with a null pointer. *)
Example layered_part_frame_grows_cache (world view proj : mat4) (viewPos : vec3) :
  exists s',
    @Avatar_cpp._renderSkinnedMeshPart sdk_headers layered_part 1 world view proj viewPos
      false mesh_loaded_state = (Ok tt, s')
    /\ _assetMap mesh_loaded_state !! 9%Z = None
    /\ _assetMap s' !! 9%Z = Some nullptr.
Proof.
  assert (Hmesh : _assetMap mesh_loaded_state !! 7%Z = Some (MeshPtr (mkMeshData 4 5 6 0 [] [])))
    by reflexivity.
  assert (Hbound : is_Some (bound_texture (_assetMap mesh_loaded_state) 0))
    by (by eexists).
  destruct (@renderSkinnedMeshPart_run sdk_headers layered_part (mkMeshData 4 5 6 0 [] []) 1
              world view proj viewPos (gl_log mesh_loaded_state)
              (gl_names mesh_loaded_state) mesh_loaded_state)
    as (s' & Hrun & Hsub & Hnew & Hall);
    [discriminate|exact Hmesh|simpl; lia|simpl; lia| | |simpl; lia|reflexivity
    |exact Hbound|exact Hbound|exact Hbound|exact Hbound| |].
  - intros i parent Hi. simpl in Hi. lia.
  - intros i Hi. simpl in Hi. lia.
  - intros j layer mesh0 Hj Hlayer Hnonzero Hcache.
    destruct j as [|[|j]]; simpl in Hj, Hlayer; [|injection Hlayer as <-; done|lia].
    injection Hlayer as <-. discriminate Hcache.
  - rewrite set_gl_id in Hrun. exists s'. split; [exact Hrun|]. split; [reflexivity|].
    destruct (Hall 0 (layer_of 9)) as [p Hp]; [simpl; lia|reflexivity|discriminate|].
    change (_assetMap s' !! 9%Z = Some p) in Hp.
    rewrite Hp. f_equal. by apply (Hnew 9%Z).
Qed.

(** ** Transform to matrix and back *)

Lemma Rabs_le_between (x a : R) : (Rabs x <= a)%R -> (- a <= x <= a)%R.
Proof. unfold Rabs. destruct (Rcase_abs x); lra. Qed.

(** Unfolding of the transform-to-matrix conversion down to its entries. *)
Ltac matrix_entries :=
  cbv [_glmFromOvrAvatarTransform negate_orientation mirrored_scale half_turn translation
       glm_translate glm_mat4_cast glm_scale mat4_mul mat4_mul_vec vec4_add vec4_scale
       position orientation scale vector3_x vector3_y vector3_z
       quat_x quat_y quat_z quat_w col0 col1 col2 col3 v4x v4y v4z v4w v3x v3y v3z].

(** Negating the quaternion of a transform does not change its matrix: the
    entries of [glm::mat4_cast] are of degree two in the quaternion. *)
Lemma glmFromOvrAvatarTransform_negate (T : ovrAvatarTransform) :
  _glmFromOvrAvatarTransform (negate_orientation T) = _glmFromOvrAvatarTransform T.
Proof.
  destruct T as [[px py pz] [x y z w] [sx sy sz]].
  matrix_entries. f_equal; f_equal; ring.
Qed.

(** Two transforms that are within a tolerance below 1 of one transform
    differ by less than 2 in the [w] of their quaternions and in the [x] of
    their scales. *)
Lemma within_same (tolerance : R) (X a b : ovrAvatarTransform) :
  (tolerance < 1)%R -> within tolerance X a -> within tolerance X b ->
  (Rabs (quat_w (orientation a) - quat_w (orientation b)) < 2)%R
  /\ (Rabs (vector3_x (scale a) - vector3_x (scale b)) < 2)%R.
Proof.
  intros Htolerance (_ & _ & _ & _ & _ & _ & Hwa & Hxa & _ & _)
    (_ & _ & _ & _ & _ & _ & Hwb & Hxb & _ & _).
  apply Rabs_le_between in Hwa, Hwb, Hxa, Hxb.
  split; unfold Rabs; destruct (Rcase_abs _); lra.
Qed.

(** *** In binary32

    In this section the names are those of [Binary32]. *)

Section RoundTripRounded.
Import Binary32.

(** [(-a) * (-b)] is [a * b], bit for bit. *)
Lemma mul_opp_opp (a b : float) : mul (opp a) (opp b) = mul a b.
Proof.
  unfold mul, opp. destruct a, b; cbn [SFmul SFopp]; rewrite ?xorb_negb_negb; reflexivity.
Qed.

(** In binary32 as well, negating the quaternion of a transform does not
    change its matrix. *)
Lemma glmFromOvrAvatarTransform_negate_binary32 (T : ovrAvatarTransform) :
  _glmFromOvrAvatarTransform (negate_orientation T) = _glmFromOvrAvatarTransform T.
Proof.
  destruct T as [[px py pz] [x y z w] [sx sy sz]].
  unfold _glmFromOvrAvatarTransform, negate_orientation.
  cbn [position orientation scale vector3_x vector3_y vector3_z
       quat_x quat_y quat_z quat_w].
  unfold glm_mat4_cast. rewrite !mul_opp_opp. reflexivity.
Qed.

End RoundTripRounded.

(** In binary32 the matrices of the scale [(-1, -1, 1)] without rotation and
    of the half turn about z are equal entry by entry ([==]); they differ in
    the signs of zero entries. *)
Example glmFromOvrAvatarTransform_mirrored_binary32 :
  Binary32.mat4_eqb (Binary32._glmFromOvrAvatarTransform Binary32.mirrored_scale)
    (Binary32._glmFromOvrAvatarTransform Binary32.half_turn)
  = true
  /\ Binary32._glmFromOvrAvatarTransform Binary32.mirrored_scale
     <> Binary32._glmFromOvrAvatarTransform Binary32.half_turn.
Proof. split; [vm_compute; reflexivity|]. vm_compute. discriminate. Qed.

(** C8, as the code has it. The transform decomposed from the matrix of [T]
    is built field by field from what [glm::decompose] reports for that
    matrix: it is [T] exactly when [glm::decompose] reports the scale, the
    orientation and the position of [T]. It depends on [T] through the matrix
    alone, and the matrix of [T] is also the matrix of [T] with its quaternion
    negated: both have the same round trip. The two matrices are the same in
    binary32 as well, bit for bit. *)
Theorem transform_round_trip
    (glm_decompose : mat4 -> vec3 * quat * vec3 * vec3 * vec4) (T : ovrAvatarTransform) :
  (round_trip glm_decompose T = T
   <-> exists skew perspective,
         glm_decompose (_glmFromOvrAvatarTransform T)
         = (Vec3 (vector3_x (scale T)) (vector3_y (scale T)) (vector3_z (scale T)),
            Quat (quat_w (orientation T)) (quat_x (orientation T))
              (quat_y (orientation T)) (quat_z (orientation T)),
            Vec3 (vector3_x (position T)) (vector3_y (position T))
              (vector3_z (position T)),
            skew, perspective))
  /\ (forall T', _glmFromOvrAvatarTransform T' = _glmFromOvrAvatarTransform T ->
        round_trip glm_decompose T' = round_trip glm_decompose T)
  /\ _glmFromOvrAvatarTransform (negate_orientation T) = _glmFromOvrAvatarTransform T
  /\ round_trip glm_decompose (negate_orientation T) = round_trip glm_decompose T
  /\ (forall T32 : Binary32.ovrAvatarTransform,
        Binary32._glmFromOvrAvatarTransform (Binary32.negate_orientation T32)
        = Binary32._glmFromOvrAvatarTransform T32).
Proof.
  split_and!.
  - unfold round_trip, _ovrAvatarTransformFromGlm.
    destruct (glm_decompose (_glmFromOvrAvatarTransform T))
      as [[[[[sx sy sz] [w x y z]] [px py pz]] skew] perspective].
    unfold _ovrAvatarTransformFromGlm_components. cbn [v3x v3y v3z qw qx qy qz].
    destruct T as [[tx ty tz] [qx' qy' qz' qw'] [ux uy uz]].
    cbn [position orientation scale vector3_x vector3_y vector3_z
         quat_x quat_y quat_z quat_w].
    split.
    + intros Heq. injection Heq as -> -> -> -> -> -> -> -> -> ->. by eexists _, _.
    + intros (skew' & perspective' & Heq).
      injection Heq as -> -> -> -> -> -> -> -> -> -> _ _. reflexivity.
  - intros T' Hsame. unfold round_trip. by rewrite Hsame.
  - apply glmFromOvrAvatarTransform_negate.
  - unfold round_trip. by rewrite glmFromOvrAvatarTransform_negate.
  - apply glmFromOvrAvatarTransform_negate_binary32.
Qed.

(** C8 as stated fails whatever [glm::decompose] computes. The identity
    rotation [(0, 0, 0, 1)] and its negation [(0, 0, 0, -1)] give one matrix,
    and so do the scale [(-1, -1, 1)] without rotation and the half turn
    about z with the scale [(1, 1, 1)]; all four have nonzero scale. The round
    trip therefore returns one transform for each pair, which cannot be within
    a tolerance below 1 of both members. The first pair has one matrix in
    binary32 as well. *)
Lemma transform_round_trip_not_unique :
  nonzero_scale (translation 0 0 0)
  /\ nonzero_scale (negate_orientation (translation 0 0 0))
  /\ _glmFromOvrAvatarTransform (negate_orientation (translation 0 0 0))
     = _glmFromOvrAvatarTransform (translation 0 0 0)
  /\ (forall glm_decompose tolerance, (tolerance < 1)%R ->
        ~ (within tolerance (round_trip glm_decompose (translation 0 0 0))
             (translation 0 0 0)
           /\ within tolerance
                (round_trip glm_decompose (negate_orientation (translation 0 0 0)))
                (negate_orientation (translation 0 0 0))))
  /\ nonzero_scale mirrored_scale
  /\ nonzero_scale half_turn
  /\ _glmFromOvrAvatarTransform mirrored_scale = _glmFromOvrAvatarTransform half_turn
  /\ (forall glm_decompose tolerance, (tolerance < 1)%R ->
        ~ (within tolerance (round_trip glm_decompose mirrored_scale) mirrored_scale
           /\ within tolerance (round_trip glm_decompose half_turn) half_turn))
  /\ Binary32._glmFromOvrAvatarTransform
       (Binary32.negate_orientation
          (Binary32.translation (Binary32.of_Z 0) (Binary32.of_Z 0) (Binary32.of_Z 0)))
     = Binary32._glmFromOvrAvatarTransform
         (Binary32.translation (Binary32.of_Z 0) (Binary32.of_Z 0) (Binary32.of_Z 0)).
Proof.
  assert (Hnegated : _glmFromOvrAvatarTransform (negate_orientation (translation 0 0 0))
                     = _glmFromOvrAvatarTransform (translation 0 0 0))
    by apply glmFromOvrAvatarTransform_negate.
  assert (Hmirrored : _glmFromOvrAvatarTransform mirrored_scale
                      = _glmFromOvrAvatarTransform half_turn).
  { matrix_entries. f_equal; f_equal; ring. }
  split_and!.
  - unfold nonzero_scale. cbn. split_and!; lra.
  - unfold nonzero_scale. cbn. split_and!; lra.
  - exact Hnegated.
  - intros glm_decompose tolerance Htolerance [Hplain Hnegative].
    unfold round_trip in Hnegative. rewrite Hnegated in Hnegative.
    destruct (within_same tolerance _ _ _ Htolerance Hplain Hnegative) as [Hw _].
    cbn in Hw. unfold Rabs in Hw. destruct (Rcase_abs _); lra.
  - unfold nonzero_scale. cbn. split_and!; lra.
  - unfold nonzero_scale. cbn. split_and!; lra.
  - exact Hmirrored.
  - intros glm_decompose tolerance Htolerance [Hmirror Hturn].
    unfold round_trip in Hmirror. rewrite Hmirrored in Hmirror.
    destruct (within_same tolerance _ _ _ Htolerance Hmirror Hturn) as [_ Hx].
    cbn in Hx. unfold Rabs in Hx. destruct (Rcase_abs _); lra.
  - vm_compute. reflexivity.
Qed.

(** ** Skeletons outside the contract of [_computeWorldPose] *)

Lemma for_loop_app {L : Type} (body : nat -> L -> res L) (start a b : nat) (s : L) :
  for_loop body start (a + b) s
  = for_loop body start a s ≫= for_loop body (start + a) b.
Proof.
  revert start s. induction a as [|a IH]; intros start s; simpl.
  - by rewrite Nat.add_0_r.
  - destruct (body start s) as [s'|f]; simpl; [|done].
    rewrite IH. by replace (S start + a) with (start + S a) by lia.
Qed.

Lemma for_loop_fault {L : Type} (body : nat -> L -> res L) (start count : nat) (s : L) f :
  0 < count -> body start s = Fault f -> for_loop body start count s = Fault f.
Proof. intros Hcount Hbody. destruct count; [lia|]. simpl. by rewrite Hbody. Qed.

(** X1. When joint [k] is the first joint whose parent index is not below its
    own, the pass over a fresh buffer ([alloca], nothing initialised) reads,
    at joint [k], the parent's cell before anything was written there (or a
    cell past the buffer when the index is not below [jointCount]): a fault.
    [_setMeshState] meets it before any uniform is uploaded. *)
Theorem computeWorldPose_child_before_parent (localPose : ovrAvatarSkinnedMeshPose)
    (k : nat) (parent : Z) :
  k < jointCount localPose ->
  jointCount localPose <= length (jointTransform localPose) ->
  jointCount localPose <= length (jointParents localPose) ->
  (forall i p, i < k -> jointParents localPose !! i = Some p -> (p < Z.of_nat i)%Z) ->
  jointParents localPose !! k = Some parent ->
  (Z.of_nat k <= parent)%Z ->
  _computeWorldPose localPose (replicate (jointCount localPose) None)
  = Fault (parent_read_fault parent (jointCount localPose))
  /\ forall program localTransform data world view proj viewPos s,
       _setMeshState program localTransform data localPose world view proj viewPos s
       = (Fault (parent_read_fault parent (jointCount localPose)), s).
Proof.
  intros Hk Htransforms Hparents Horder Hparent Hforward.
  assert (Hfault : _computeWorldPose localPose (replicate (jointCount localPose) None)
                   = Fault (parent_read_fault parent (jointCount localPose))).
  { unfold parent_read_fault. set (n := jointCount localPose) in *.
    set (prefix := OvrSkinnedMeshPose k (jointTransform localPose) (jointParents localPose)).
    destruct (computeWorldPose_correct prefix (replicate n None))
      as (world & Hrun & Hlen & _ & Hrest); simpl; try lia.
    { rewrite length_replicate. lia. }
    { done. }
    unfold _computeWorldPose. fold n.
    replace n with (k + (n - k)) at 1 by lia.
    rewrite for_loop_app.
    change (for_loop (_computeWorldPose_body localPose) 0 k (replicate n None))
      with (_computeWorldPose prefix (replicate n None)).
    rewrite Hrun. simpl. apply for_loop_fault; [lia|].
    destruct (lookup_lt_is_Some_2 (jointTransform localPose) k) as [transform Ht]; [lia|].
    unfold _computeWorldPose_body, index. rewrite Ht, Hparent. simpl.
    rewrite (proj2 (Z.ltb_ge parent 0)) by lia.
    unfold load. rewrite Hrest by (simpl; lia).
    rewrite length_replicate in Hlen.
    destruct (decide (parent < Z.of_nat n)%Z) as [Hin|Hout].
    - rewrite lookup_replicate_2 by lia. done.
    - rewrite (proj1 (lookup_replicate_None _ _ _)) by lia. done. }
  split; [exact Hfault|].
  intros program localTransform data world view proj viewPos s.
  unfold _setMeshState. cbv zeta. rewrite Hfault. reflexivity.
Qed.

Lemma computeWorldPose_child_before_parent_witness :
  _computeWorldPose child_first (replicate 2 None)
  = Fault (parent_read_fault 1 2)
  /\ forall program localTransform data world view proj viewPos s,
       _setMeshState program localTransform data child_first world view proj viewPos s
       = (Fault (parent_read_fault 1 2), s).
Proof.
  apply (computeWorldPose_child_before_parent child_first 0 1).
  - simpl. lia.
  - simpl. lia.
  - simpl. lia.
  - intros i p Hi. lia.
  - reflexivity.
  - lia.
Defined.

(** ** The mesh loader past the joint bound *)



Section Loaders.
Context {headers : Headers}.


End Loaders.

